(** * TomoPhantom: analytical 3D sinograms (buildSino3D_core)

    A shallow embedding of [buildSino3D_core_single] and of the component
    loop of [buildSino3D_core], followed by the properties of the
    projection engine that were checked against it.

    The C code computes on [float] (IEEE-754 binary32) with a few
    sub-expressions at [double].  The embedding is written once, over an
    interface [FloatEnv] that lists exactly the operations the source uses,
    and is then instantiated twice:
    - [B32]: binary32/binary64 arithmetic of the Standard Library's
      [SpecFloat], round to nearest even; executable.  It evaluates the code
      on concrete inputs and settles what is about floating-point behaviour
      itself;
    - [RealSem]: the same formulas read over the real numbers, used only
      where a statement about the step sizes is wanted for every size.

    Statements about loops, guards and the buffer are proved for every
    [FloatEnv].  Line numbers refer to the source file of
    [buildSino3D_core_single]. *)

From Stdlib Require Import ZArith List Bool Lia QArith Qpower Qreduction Qround Qabs.
From Stdlib Require Import Reals Lra.
From Stdlib Require Import Floats.SpecFloat.
From Stdlib Require Strings.String Strings.Ascii.
Import ListNotations.

Close Scope R_scope.
Close Scope Q_scope.
Open Scope nat_scope.

Set Implicit Arguments.

(* ================================================================== *)
(** * The arithmetic the source uses                                    *)
(* ================================================================== *)

(** Every operator, conversion, literal form and <math.h> function that
    occurs in [buildSino3D_core_single].  Values of type [float] and
    [double] share the carrier [F]; the field says at which precision an
    operation rounds. *)
Class FloatEnv (F : Type) : Type := {
  fadd : F -> F -> F;          (* x + y   at float  *)
  fsub : F -> F -> F;          (* x - y   at float  *)
  fmul : F -> F -> F;          (* x * y   at float  *)
  fdiv : F -> F -> F;          (* x / y   at float  *)
  fneg : F -> F;               (* - x               *)
  dsub : F -> F -> F;          (* x - y   at double *)
  flt  : F -> F -> bool;       (* x <  y            *)
  fle  : F -> F -> bool;       (* x <= y            *)
  feq  : F -> F -> bool;       (* x == y            *)
  of_int : Z -> F;             (* (float) i, also the implicit int -> float *)
  flit : Q -> F;               (* a literal with suffix f *)
  dlit : Q -> F;               (* a literal of type double *)
  d2f  : F -> F;               (* (float) d         *)
  fabs  : F -> F;
  sqrtf : F -> F;
  sinf  : F -> F;
  cosf  : F -> F;
  logf  : F -> F;
  expf  : F -> F;
  powf  : F -> F -> F
}.

Definition fgt {F} `{FloatEnv F} (x y : F) : bool := flt y x.
Definition fge {F} `{FloatEnv F} (x y : F) : bool := fle y x.
Definition fne {F} `{FloatEnv F} (x y : F) : bool := negb (feq x y).

Declare Scope fl_scope.
Delimit Scope fl_scope with fl.
Infix "+" := fadd : fl_scope.
Infix "-" := fsub : fl_scope.
Infix "*" := fmul : fl_scope.
Infix "/" := fdiv : fl_scope.
Notation "- x" := (fneg x) : fl_scope.
Infix "<?" := flt : fl_scope.
Infix "<=?" := fle : fl_scope.
Infix ">?" := fgt : fl_scope.
Infix ">=?" := fge : fl_scope.

(** #define M_PI 3.14159265358979323846  and  #define EPS 0.000000001 *)
Definition M_PI_lit : Q := 314159265358979323846 # 100000000000000000000.
Definition EPS_lit : Q := 1 # 1000000000.

Section Constants.
Context {F : Type} `{FloatEnv F}.
Definition M_PI : F := dlit M_PI_lit.
Definition EPS : F := dlit EPS_lit.
Definition f0 : F := flit 0.
Definition f1 : F := flit 1.
Definition f2 : F := flit 2.
Definition f4 : F := flit 4.
Definition f180 : F := flit 180.
Definition f0_5 : F := flit (1 # 2).
Definition f0_25 : F := flit (1 # 4).
Definition f2_5 : F := flit (5 # 2).
End Constants.

(* ================================================================== *)
(** * Arrays, loops and the output buffer                               *)
(* ================================================================== *)

(** [for (i = 0; i < n; i++) body]: the loop body receives the counter and
    the state reached so far.  The slice loops carry
    [#pragma omp parallel for]; their iterations write disjoint cells
    (lemma [cell_index_inj]) and read no cell another iteration writes, so
    the model runs them in index order. *)
Definition for_loop {S : Type} (n : nat) (body : nat -> S -> S) (s : S) : S :=
  fold_left (fun acc i => body i acc) (seq 0 n) s.

(** An array filled by [for (i = 0; i < n; i++) arr[i] = f i]. *)
Definition tabulate {A : Type} (n : nat) (f : nat -> A) : list A :=
  map f (seq 0 n).

Section Buffer.
Context {F : Type} `{FloatEnv F}.

(** [arr[i]] for the read-only float arrays.  A read past the end is
    undefined in C; the model returns [0.0f] there, and the theorems
    below only read inside the arrays. *)
Definition rd (arr : list F) (i : nat) : F := nth i arr f0.

(** [A[idx] += v].  The caller allocates [N*AngTot*P] cells and every
    index the kernels form lies below that bound (lemma [cell_index_lt]);
    a write outside the list, undefined in C, leaves the model's buffer as
    it is. *)
Fixpoint cell_add (A : list F) (idx : nat) (v : F) : list F :=
  match A, idx with
  | [], _ => []
  | x :: A', O => fadd x v :: A'
  | x :: A', S idx' => x :: cell_add A' idx' v
  end.
End Buffer.

(** The flat index [(k)*P*AngTot + (i)*P + (j)]. *)
Definition cell_index (P AngTot : Z) (k i j : nat) : nat :=
  k * Z.to_nat P * Z.to_nat AngTot + i * Z.to_nat P + j.

(* ================================================================== *)
(** * buildSino3D_core_single                                           *)
(* ================================================================== *)

Section Kernels.
Context {F : Type} `{FloatEnv F}.
Local Open Scope fl_scope.

(** ** Grid arrays (lines 46-59) *)

Definition Sinorange_Pmax (N P : Z) : F := of_int P / of_int (N + 1).
Definition Sinorange_Pmin (N P : Z) : F := - Sinorange_Pmax N P.
Definition H_p (N P : Z) : F :=
  (Sinorange_Pmax N P - Sinorange_Pmin N P) / of_int (P - 1).
Definition Sinorange_P_Ar (N P : Z) : list F :=
  tabulate (Z.to_nat P)
    (fun i => Sinorange_Pmax N P - of_int (Z.of_nat i) * H_p N P).

Definition Tomorange_Xmin : F := - f1.
Definition Tomorange_Xmax : F := f1.
Definition H_x (N : Z) : F := (Tomorange_Xmax - Tomorange_Xmin) / of_int N.
Definition Tomorange_X_Ar (N : Z) : list F :=
  tabulate (Z.to_nat N)
    (fun i => Tomorange_Xmin + of_int (Z.of_nat i) * H_x N).

Definition AnglesRad (Th : list F) (AngTot : Z) : list F :=
  tabulate (Z.to_nat AngTot) (fun i => rd Th i * (d2f M_PI / f180)).

(** ** Per-object set-up (lines 61-91)

    [lam1], [lam2], [lam3], [phi] and [theta] are assigned and never read;
    they are left out. *)

Definition C1 : F := (- f4) * logf f2.

(** [x00] and [y00]: the centre moved by a full step ([CenTypeIn == 0],
    "radon") or by half a step (otherwise, "astra"). *)
Definition centre00 (CenTypeIn N : Z) (x0 : F) : F :=
  if (CenTypeIn =? 0)%Z then x0 + H_x N else x0 + f0_5 * H_x N.

Definition c2_of (Object : Z) (c : F) : F :=
  let c2 := f1 / (c * c) in
  if (Object =? 4)%Z then f4 * c2 else c2.

Definition phi_rot_radian_of (psi_gr1 : F) : F := psi_gr1 * (d2f M_PI / f180).

Definition Zdel (N : Z) (z0 : F) : list F :=
  tabulate (Z.to_nat N) (fun i => rd (Tomorange_X_Ar N) i - z0).
Definition Zdel2 (N : Z) (z0 c2 : F) : list F :=
  tabulate (Z.to_nat N) (fun i => c2 * powf (rd (Zdel N z0) i) (of_int 2)).

(** ** The six kernels

    Every kernel receives the values of the locals it reads and the
    buffer, and returns the buffer after its three nested loops. *)

Section Shapes.
Variables (N P AngTot : Z) (Th : list F).
Variables (C0 a b x00 y00 phi_rot_radian : F).
Variable zdel2 : list F.

Let nN := Z.to_nat N.
Let nP := Z.to_nat P.
Let nAng := Z.to_nat AngTot.
Let Ang := AnglesRad Th AngTot.
Let PAr := Sinorange_P_Ar N P.

(** Object == 1, "volumetric gaussian" (lines 97-115).  The locals [a1]
    and [b1] are read here and assigned nowhere on this path: they hold
    whatever the stack held, and are arguments of the model. *)
Definition kernel_gaussian (a1 b1 : F) (A : list F) : list F :=
  for_loop nN (fun k A =>
    let AA5 := (of_int N / f2) * (C0 * sqrtf a1 * sqrtf b1 / f2)
               * sqrtf (d2f M_PI / logf f2) in
    for_loop nAng (fun i A =>
      let sin_2 := powf (sinf (rd Ang i + phi_rot_radian)) (of_int 2) in
      let cos_2 := powf (cosf (rd Ang i + phi_rot_radian)) (of_int 2) in
      let delta1 := f1 / (a1 * cos_2 + b1 * sin_2) in
      let delta_sq := sqrtf delta1 in
      let first_dr := AA5 * delta_sq in
      let AA2 := (- x00) * cosf (rd Ang i) + y00 * sinf (rd Ang i) in
      for_loop nP (fun j A =>
        let AA3 := powf (rd PAr j - AA2) (of_int 2) in
        let under_exp := (C1 * AA3) * delta1 in
        cell_add A (cell_index P AngTot k i j) (first_dr * expf under_exp)
      ) A) A) A.

(** Object == 2, "parabola Lambda = 1/2" (lines 116-144). *)
Definition kernel_parabola (A : list F) : list F :=
  for_loop nN (fun k A =>
    if rd zdel2 k <=? of_int 1 then
      let a1 := a * powf (f1 - rd zdel2 k) (of_int 2) in
      let b1 := b * powf (f1 - rd zdel2 k) (of_int 2) in
      let C00 := C0 * powf (f1 - rd zdel2 k) (of_int 2) in
      let AA5 := (of_int N / f2)
                 * ((d2f M_PI / f2) * C00 * sqrtf a1 * sqrtf b1) in
      for_loop nAng (fun i A =>
        let sin_2 := powf (sinf (rd Ang i + phi_rot_radian)) (of_int 2) in
        let cos_2 := powf (cosf (rd Ang i + phi_rot_radian)) (of_int 2) in
        let delta1 := f1 / (a1 * cos_2 + b1 * sin_2) in
        let delta_sq := sqrtf delta1 in
        let first_dr := AA5 * delta_sq in
        let AA2 := (- x00) * cosf (rd Ang i) + y00 * sinf (rd Ang i) in
        for_loop nP (fun j A =>
          let AA3 := powf (rd PAr j - AA2) (of_int 2) in
          let AA6 := AA3 * delta1 in
          if AA6 <? f1
          then cell_add A (cell_index P AngTot k i j) (first_dr * (f1 - AA6))
          else A
        ) A) A
    else A) A.

(** Object == 3, "elliptical disk" (lines 145-175).  [a22], [b22] and
    [AA5] are set once, before the slice loop. *)
Definition kernel_disk (A : list F) : list F :=
  let a22 := a * a in
  let b22 := b * b in
  let AA5 := of_int N * C0 * a * b in
  for_loop nN (fun k A =>
    if rd zdel2 k <=? of_int 1 then
      for_loop nAng (fun i A =>
        let sin_2 := powf (sinf (rd Ang i + phi_rot_radian)) (of_int 2) in
        let cos_2 := powf (cosf (rd Ang i + phi_rot_radian)) (of_int 2) in
        let delta1 := f1 / (a22 * cos_2 + b22 * sin_2) in
        let delta_sq := sqrtf delta1 in
        let first_dr := AA5 * delta_sq in
        let AA2 := (- x00) * cosf (rd Ang i) + y00 * sinf (rd Ang i) in
        for_loop nP (fun j A =>
          let AA3 := powf (rd PAr j - AA2) (of_int 2) in
          let AA6 := AA3 * delta1 in
          if AA6 <? f1
          then cell_add A (cell_index P AngTot k i j)
                 (first_dr * sqrtf (f1 - AA6))
          else A
        ) A) A
    else A) A.

(** Object == 4, "parabola Lambda = 1" (lines 176-203). *)
Definition kernel_parabola1 (A : list F) : list F :=
  for_loop nN (fun k A =>
    if rd zdel2 k <=? of_int 1 then
      let a1 := a * powf (f1 - rd zdel2 k) (of_int 2) in
      let b1 := b * powf (f1 - rd zdel2 k) (of_int 2) in
      let C00 := C0 * powf (f1 - rd zdel2 k) (of_int 2) in
      let AA5 := (of_int N / f2)
                 * (f4 * ((f0_25 * sqrtf a1 * sqrtf b1 * C00) / f2_5)) in
      for_loop nAng (fun i A =>
        let sin_2 := powf (sinf (rd Ang i + phi_rot_radian)) (of_int 2) in
        let cos_2 := powf (cosf (rd Ang i + phi_rot_radian)) (of_int 2) in
        let delta1 := f1 / (f0_25 * a1 * cos_2 + f0_25 * b1 * sin_2) in
        let delta_sq := sqrtf delta1 in
        let first_dr := AA5 * delta_sq in
        let AA2 := (- x00) * cosf (rd Ang i) + y00 * sinf (rd Ang i) in
        for_loop nP (fun j A =>
          let AA3 := powf (rd PAr j - AA2) (of_int 2) in
          let AA6 := AA3 * delta1 in
          if AA6 <? f1
          then cell_add A (cell_index P AngTot k i j) (first_dr * (f1 - AA6))
          else A
        ) A) A
    else A) A.

(** The body of the cone's detector loop (lines 225-237), as a function
    of [first_dr] and of the normalised squared distance [AA6]. *)
Definition cone_value (first_dr AA6 : F) : F :=
  let pps2 :=
    if AA6 <? f1 then
      if AA6 <? dsub f1 EPS then sqrtf (fabs (f1 - AA6)) else f0
    else f0 in
  let rlogi :=
    if (AA6 >? EPS) && fne pps2 f1 then
      let ty1 := (f1 + pps2) / (f1 - pps2) in
      if ty1 >? f0 then f0_5 * AA6 * logf ty1 else f0
    else f0 in
  first_dr * (pps2 - rlogi).

(** Object == 5, "cone" (lines 204-241). *)
Definition kernel_cone (A : list F) : list F :=
  for_loop nN (fun k A =>
    if rd zdel2 k <=? of_int 1 then
      let a1 := a * powf (f1 - rd zdel2 k) (of_int 2) in
      let b1 := b * powf (f1 - rd zdel2 k) (of_int 2) in
      let C00 := C0 * powf (f1 - rd zdel2 k) (of_int 2) in
      let AA5 := (of_int N / f2) * (sqrtf a1 * sqrtf b1 * C00) in
      for_loop nAng (fun i A =>
        let sin_2 := powf (sinf (rd Ang i + phi_rot_radian)) (of_int 2) in
        let cos_2 := powf (cosf (rd Ang i + phi_rot_radian)) (of_int 2) in
        let delta1 := f1 / (a1 * cos_2 + b1 * sin_2) in
        let delta_sq := sqrtf delta1 in
        let first_dr := AA5 * delta_sq in
        let AA2 := (- x00) * cosf (rd Ang i) + y00 * sinf (rd Ang i) in
        for_loop nP (fun j A =>
          let AA3 := powf (rd PAr j - AA2) (of_int 2) in
          let AA6 := AA3 * delta1 in
          cell_add A (cell_index P AngTot k i j) (cone_value first_dr AA6)
        ) A) A
    else A) A.
End Shapes.
End Kernels.

Section Rectangle.
Context {F : Type} `{FloatEnv F}.
Local Open Scope fl_scope.

(** [x11] and [y11] (lines 252-262). *)
Definition rect_x11 (CenTypeIn N : Z) (y0 : F) : F :=
  if (CenTypeIn =? 0)%Z then (- f2) * y0 - H_x N
  else (- f2) * y0 - f0_5 * H_x N.
Definition rect_y11 (CenTypeIn N : Z) (x0 : F) : F :=
  if (CenTypeIn =? 0)%Z then f2 * x0 + H_x N
  else f2 * x0 + f0_5 * H_x N.

(** [ksi1] (lines 267-268). *)
Definition rect_ksi1 (phi_rot_radian : F) : F :=
  if phi_rot_radian <? of_int 0 then d2f M_PI + phi_rot_radian
  else phi_rot_radian.

(** The body of the rectangle's detector loop (lines 276-330): the value
    of [SS] just before the buffer is updated.  Each assignment of the
    source is one [let]; a later [let] of the same name is the
    re-assignment. *)
Definition rect_SS (xwid ywid C0 x11 y11 ksi1 ksi00 p00 : F) : F :=
  let PI2 := d2f M_PI * f0_5 in
  let p := p00 in
  let ksi := ksi00 in
  let '(ksi, p) :=
    if ksi >? d2f M_PI then (ksi - d2f M_PI, - p00) else (ksi, p) in
  let C := cosf ksi in
  let S := sinf ksi in
  let XSYC := (- x11) * S + y11 * C in
  let A2 := xwid * f0_5 in
  let B2 := ywid * f0_5 in
  let FI :=
    if (ksi - ksi1) <? f0 then d2f M_PI + ksi - ksi1 else ksi - ksi1 in
  let FI := if FI >? PI2 then d2f M_PI - FI else FI in
  let CF := cosf FI in
  let SF := sinf FI in
  let P0 := fabs (p - XSYC) in
  let SS := xwid / CF * C0 in
  let SS :=
    if fabs CF <=? d2f EPS then
      (if (P0 - A2) >? d2f EPS then f0 else ywid * C0)
    else SS in
  let SS :=
    if fabs SF <=? d2f EPS then
      (if (P0 - B2) >? d2f EPS then f0 else xwid * C0)
    else SS in
  let TF := SF / CF in
  let PC := P0 / CF in
  let QP := B2 + A2 * TF in
  let QM := QP + PC in
  let SS :=
    if QM >? ywid then
      (let DEL := P0 + B2 * CF in
       if DEL >? A2 * SF then (QP - PC) / SF * C0 else ywid / SF * C0)
    else SS in
  let SS :=
    if QM >? ywid then
      (let DEL := P0 + B2 * CF in
       if DEL >? A2 * SF then (QP - PC) / SF * C0 else ywid / SF * C0)
    else xwid / CF * C0 in
  if PC >=? QP then f0 else SS.

(** [PC] and [QP] as the same statements leave them: the operands of the
    last test, [if (PC >= QP) SS = 0.0f]. *)
Definition rect_PC_QP (xwid ywid x11 y11 ksi1 ksi00 p00 : F) : F * F :=
  let PI2 := d2f M_PI * f0_5 in
  let p := p00 in
  let ksi := ksi00 in
  let '(ksi, p) :=
    if ksi >? d2f M_PI then (ksi - d2f M_PI, - p00) else (ksi, p) in
  let C := cosf ksi in
  let S := sinf ksi in
  let XSYC := (- x11) * S + y11 * C in
  let A2 := xwid * f0_5 in
  let B2 := ywid * f0_5 in
  let FI :=
    if (ksi - ksi1) <? f0 then d2f M_PI + ksi - ksi1 else ksi - ksi1 in
  let FI := if FI >? PI2 then d2f M_PI - FI else FI in
  let CF := cosf FI in
  let SF := sinf FI in
  let P0 := fabs (p - XSYC) in
  let TF := SF / CF in
  let PC := P0 / CF in
  let QP := B2 + A2 * TF in
  (PC, QP).

(** Object == 6, "rectangle" (lines 242-336).  The block declares its own
    [c2], which hides the outer one. *)
Definition kernel_rectangle (N P AngTot : Z) (Th : list F) (CenTypeIn : Z)
    (C0 x0 y0 a b c phi_rot_radian : F) (zdel : list F) (A : list F)
    : list F :=
  let x11 := rect_x11 CenTypeIn N y0 in
  let y11 := rect_y11 CenTypeIn N x0 in
  let xwid := b in
  let ywid := a in
  let c2 := f0_5 * c in
  let ksi1 := rect_ksi1 phi_rot_radian in
  for_loop (Z.to_nat N) (fun k A =>
    if fabs (rd zdel k) <? c2 then
      for_loop (Z.to_nat AngTot) (fun i A =>
        let ksi00 :=
          rd (AnglesRad Th AngTot) ((Z.to_nat AngTot - 1) - i) in
        for_loop (Z.to_nat P) (fun j A =>
          let p00 := rd (Sinorange_P_Ar N P) j in
          let SS := rect_SS xwid ywid C0 x11 y11 ksi1 ksi00 p00 in
          cell_add A (cell_index P AngTot k i j) ((of_int N / f2) * SS)
        ) A) A
    else A) A.
End Rectangle.

(** What the program writes to standard output. *)
Inductive event (F : Type) : Type :=
| No_such_object                       (* "No such object exist!" *)
| Object_parameters (Object : Z) (C0 x0 y0 z0 a b c p1 p2 p3 : F)
| Prematurely_terminated.              (* "Function prematurely terminated, ..." *)
Arguments No_such_object {F}.
Arguments Prematurely_terminated {F}.

(** The result of a call: the returned [float], the buffer [A] points to
    afterwards, and the lines printed. *)
Record outcome (F : Type) : Type := Outcome {
  ret : F;
  buf : list F;
  stdout : list (event F)
}.

Section Single.
Context {F : Type} `{FloatEnv F}.
Local Open Scope fl_scope.

(** [buildSino3D_core_single] (lines 39-345).  [a1] and [b1] stand for the
    contents of the two uninitialised locals when the call starts. *)
Definition buildSino3D_core_single (a1 b1 : F)
    (A : list F) (N P : Z) (Th : list F) (AngTot CenTypeIn Object : Z)
    (C0 x0 y0 z0 a b c psi_gr1 psi_gr2 psi_gr3 : F) : outcome F :=
  let x00 := centre00 CenTypeIn N x0 in
  let y00 := centre00 CenTypeIn N y0 in
  let c2 := c2_of Object c in
  let phi_rot_radian := phi_rot_radian_of psi_gr1 in
  let zdel := Zdel N z0 in
  let zdel2 := Zdel2 N z0 c2 in
  let finish (A' : list F) := Outcome (rd A' 0) A' [] in
  if (Object =? 1)%Z then
    finish (kernel_gaussian N P AngTot Th C0 x00 y00 phi_rot_radian a1 b1 A)
  else if (Object =? 2)%Z then
    finish (kernel_parabola N P AngTot Th C0 a b x00 y00 phi_rot_radian zdel2 A)
  else if (Object =? 3)%Z then
    finish (kernel_disk N P AngTot Th C0 a b x00 y00 phi_rot_radian zdel2 A)
  else if (Object =? 4)%Z then
    finish (kernel_parabola1 N P AngTot Th C0 a b x00 y00 phi_rot_radian zdel2 A)
  else if (Object =? 5)%Z then
    finish (kernel_cone N P AngTot Th C0 a b x00 y00 phi_rot_radian zdel2 A)
  else if (Object =? 6)%Z then
    finish (kernel_rectangle N P AngTot Th CenTypeIn C0 x0 y0 a b c
              phi_rot_radian zdel A)
  else
    Outcome (of_int 0) A [No_such_object].
End Single.

(* ================================================================== *)
(** * The component loop of buildSino3D_core                            *)
(* ================================================================== *)

(** One "Object : ..." line of the selected model, as [sscanf], [atoi] and
    [atof] leave it in [tmpstr2] ... [tmpstr12]. *)
Record component (F : Type) : Type := Component {
  c_Object : Z;      (* tmpstr2 *)
  c_C0 : F;          (* tmpstr3 *)
  c_pos4 : F;        (* tmpstr4, stored in y0 *)
  c_pos5 : F;        (* tmpstr5, stored in x0 *)
  c_z0 : F;          (* tmpstr6 *)
  c_a : F;           (* tmpstr7 *)
  c_b : F;           (* tmpstr8 *)
  c_c : F;           (* tmpstr9 *)
  c_psi_gr1 : F;     (* tmpstr10 *)
  c_psi_gr2 : F;     (* tmpstr11 *)
  c_psi_gr3 : F      (* tmpstr12 *)
}.

Section Core.
Context {F : Type} `{FloatEnv F}.

(** [parameters_check3D] is declared in buildPhantom3D_core.h and defined
    in a file this development does not cover; it is a parameter here.  The
    loop only tests its result against 0. *)
Variable parameters_check3D : F -> F -> F -> F -> F -> F -> F -> Z.

(** The contents of the uninitialised locals [a1], [b1] of the [ii]-th
    call of [buildSino3D_core_single]. *)
Variable indeterminate : nat -> F * F.

(** One iteration of the loop over the components (lines 401-427), for a
    line that starts with "Object". *)
Definition component_step (N P : Z) (Th : list F) (AngTot CenTypeIn : Z)
    (ii : nat) (cm : component F) (st : list F * list (event F))
    : list F * list (event F) :=
  let '(A, out) := st in
  let Object := c_Object cm in
  let C0 := c_C0 cm in
  let y0 := c_pos4 cm in
  let x0 := c_pos5 cm in
  let z0 := c_z0 cm in
  let a := c_a cm in
  let b := c_b cm in
  let c := c_c cm in
  let out := out ++ [Object_parameters Object C0 x0 y0 z0 a b c
                       (c_psi_gr1 cm) (c_psi_gr2 cm) (c_psi_gr3 cm)] in
  let func_val := parameters_check3D C0 x0 y0 z0 a b c in
  if (func_val =? 0)%Z then
    let r := buildSino3D_core_single
               (fst (indeterminate ii)) (snd (indeterminate ii))
               A N P Th AngTot CenTypeIn Object C0 x0 y0 z0 a b c
               (c_psi_gr1 cm) (c_psi_gr2 cm) (c_psi_gr3 cm) in
    (buf r, out ++ stdout r)          (* the returned float is dropped *)
  else (A, out ++ [Prematurely_terminated]).

Fixpoint components_loop (N P : Z) (Th : list F) (AngTot CenTypeIn : Z)
    (ii : nat) (cms : list (component F)) (st : list F * list (event F))
    : list F * list (event F) :=
  match cms with
  | [] => st
  | cm :: rest =>
      components_loop N P Th AngTot CenTypeIn (S ii) rest
        (component_step N P Th AngTot CenTypeIn ii cm st)
  end.

(** [buildSino3D_core] once the selected model has been found: [cms] are
    its "Object" lines in file order.  The function returns [*A]. *)
Definition buildSino3D_core (A : list F) (N P : Z) (Th : list F)
    (AngTot CenTypeIn : Z) (cms : list (component F)) : outcome F :=
  let '(A', out) := components_loop N P Th AngTot CenTypeIn 0 cms (A, []) in
  Outcome (rd A' 0) A' out.
End Core.

(* ================================================================== *)
(** * Instance 1: IEEE-754 binary32, round to nearest even              *)
(* ================================================================== *)

Module B32.

Definition prec32 : Z := 24.
Definition emax32 : Z := 128.
Definition prec64 : Z := 53.
Definition emax64 : Z := 1024.

(** The integer [z] as an unrounded float [z * 2^0]. *)
Definition exact_Z (z : Z) : spec_float :=
  match z with
  | Z0 => S754_zero false
  | Zpos p => S754_finite false p 0
  | Zneg p => S754_finite true p 0
  end.

(** The rational [q] rounded once to the format [(prec, emax)]: the
    value of a decimal literal. *)
Definition round_Q (prec emax : Z) (q : Q) : spec_float :=
  SFdiv prec emax (exact_Z (Qnum q)) (exact_Z (Zpos (Qden q))).

(** Rounding a float of any format to [(prec, emax)]. *)
Definition round_to (prec emax : Z) (x : spec_float) : spec_float :=
  match x with
  | S754_finite s m e => binary_normalize prec emax (cond_Zopp s (Zpos m)) e s
  | _ => x
  end.

(** Comparison by value; unlike [SFcompare] it does not assume that both
    operands are normalised for the same format, so a [float] can be
    compared with a [double]. *)
Definition scaled (s : bool) (m : positive) (e e0 : Z) : Z :=
  cond_Zopp s (Z.shiftl (Zpos m) (e - e0)).

Definition compare (x y : spec_float) : option comparison :=
  match x, y with
  | S754_finite s1 m1 e1, S754_finite s2 m2 e2 =>
      let e0 := Z.min e1 e2 in
      Some (Z.compare (scaled s1 m1 e1 e0) (scaled s2 m2 e2 e0))
  | _, _ => SFcompare x y
  end.

Definition ltb (x y : spec_float) : bool :=
  match compare x y with Some Lt => true | _ => false end.
Definition leb (x y : spec_float) : bool :=
  match compare x y with Some (Lt | Eq) => true | _ => false end.
Definition eqb (x y : spec_float) : bool :=
  match compare x y with Some Eq => true | _ => false end.

(** The functions of <math.h> whose results IEEE-754 does not fix. *)
Record libm : Type := Libm {
  l_sinf : spec_float -> spec_float;
  l_cosf : spec_float -> spec_float;
  l_logf : spec_float -> spec_float;
  l_expf : spec_float -> spec_float;
  l_powf : spec_float -> spec_float -> spec_float
}.

Definition env (L : libm) : FloatEnv spec_float := {|
  fadd := SFadd prec32 emax32;
  fsub := SFsub prec32 emax32;
  fmul := SFmul prec32 emax32;
  fdiv := SFdiv prec32 emax32;
  fneg := SFopp;
  dsub := SFsub prec64 emax64;
  flt := ltb;
  fle := leb;
  feq := eqb;
  of_int := fun z => binary_normalize prec32 emax32 z 0 false;
  flit := round_Q prec32 emax32;
  dlit := round_Q prec64 emax64;
  d2f := round_to prec32 emax32;
  fabs := SFabs;
  sqrtf := SFsqrt prec32 emax32;
  sinf := l_sinf L;
  cosf := l_cosf L;
  logf := l_logf L;
  expf := l_expf L;
  powf := l_powf L
|}.

End B32.

(** ** A reference <math.h>

    [sinf], [cosf], [expf], [logf] and [powf] by their power series, summed
    in fixed-point arithmetic with 256 fractional bits and rounded once to
    binary32, with the special values of C11 Annex F.  The theorems below
    that hold for every [libm] do not depend on it; it is what the closed
    evaluations use. *)
Module RefLibm.
Import B32.
Local Open Scope Z_scope.

(** A fixed-point number [v] stands for [v / 2^256]. *)
Definition frac_bits : Z := 256.
Definition fx_one : Z := Z.shiftl 1 frac_bits.
Definition fx_mul (u v : Z) : Z := Z.shiftr (u * v) frac_bits.
Definition fx_div (u v : Z) : Z := Z.shiftl u frac_bits / v.

(** Exact for every binary32 number: the least exponent is -149. *)
Definition to_fx (x : spec_float) : Z :=
  match x with
  | S754_finite s m e => cond_Zopp s (Z.shiftl (Zpos m) (e + frac_bits))
  | _ => 0
  end.

Definition round32 (v : Z) : spec_float :=
  SFdiv prec32 emax32 (exact_Z v) (exact_Z fx_one).

(** [series n k term acc next]: adds [n] terms, [next k t] being the term
    after [t], the [k]-th one. *)
Fixpoint series (n : nat) (k : Z) (term acc : Z) (next : Z -> Z -> Z) : Z :=
  match n with
  | O => acc
  | S n' => series n' (k + 1) (next k term) (acc + term) next
  end.

Definition terms_for (x : Z) : nat :=
  Z.to_nat (60 + 4 * (Z.shiftr (Z.abs x) frac_bits + 1)).

Definition sin_fx (x : Z) : Z :=
  let x2 := fx_mul x x in
  series (terms_for x) 0 x 0
    (fun k t => - fx_mul t x2 / ((2 * k + 2) * (2 * k + 3))).
Definition cos_fx (x : Z) : Z :=
  let x2 := fx_mul x x in
  series (terms_for x) 0 fx_one 0
    (fun k t => - fx_mul t x2 / ((2 * k + 1) * (2 * k + 2))).
Definition exp_pos_fx (x : Z) : Z :=
  series (terms_for x) 0 fx_one 0 (fun k t => fx_mul t x / (k + 1)).
Definition exp_fx (x : Z) : Z :=
  if 0 <=? x then exp_pos_fx x else fx_div fx_one (exp_pos_fx (- x)).
(** [atanh z = z + z^3/3 + z^5/5 + ...], used for [|z| <= 1/3]. *)
Fixpoint atanh_sum (n : nat) (k : Z) (pw z2 acc : Z) : Z :=
  match n with
  | O => acc
  | S n' => atanh_sum n' (k + 1) (fx_mul pw z2) z2 (acc + pw / (2 * k + 1))
  end.
Definition atanh_fx (z : Z) : Z := atanh_sum 90 0 z (fx_mul z z) 0.
Definition ln2_fx : Z := 2 * atanh_fx (fx_one / 3).
(** [ln (m * 2^e)] for the mantissa [m] and exponent [e] of a float:
    [m * 2^e = y * 2^(e+d-1)] with [1 <= y < 2]. *)
Definition ln_fx (m : positive) (e : Z) : Z :=
  let d := Zpos (digits2_pos m) in
  let y := Z.shiftl (Zpos m) (frac_bits + 1 - d) in
  (e + d - 1) * ln2_fx + 2 * atanh_fx (fx_div (y - fx_one) (y + fx_one)).

Definition one32 : spec_float := S754_finite false 8388608 (-23).

(** Arguments of magnitude above 128 are outside what the series are used
    for: [sinf] and [cosf] give NaN there, [expf] its limit. *)
Definition small (x : Z) : bool := Z.abs x <=? 128 * fx_one.

Definition ref_sinf (x : spec_float) : spec_float :=
  match x with
  | S754_zero _ => x
  | S754_finite _ _ _ =>
      if small (to_fx x) then round32 (sin_fx (to_fx x)) else S754_nan
  | _ => S754_nan
  end.

Definition ref_cosf (x : spec_float) : spec_float :=
  match x with
  | S754_zero _ => one32
  | S754_finite _ _ _ =>
      if small (to_fx x) then round32 (cos_fx (to_fx x)) else S754_nan
  | _ => S754_nan
  end.

Definition exp_round (t : Z) : spec_float :=
  if small t then round32 (exp_fx t)
  else if 0 <=? t then S754_infinity false else S754_zero false.

Definition ref_expf (x : spec_float) : spec_float :=
  match x with
  | S754_zero _ => one32
  | S754_infinity true => S754_zero false
  | S754_infinity false => x
  | S754_nan => x
  | S754_finite _ _ _ => exp_round (to_fx x)
  end.

Definition ref_logf (x : spec_float) : spec_float :=
  match x with
  | S754_zero _ => S754_infinity true
  | S754_infinity false => x
  | S754_finite false m e => round32 (ln_fx m e)
  | _ => S754_nan
  end.

(** [Some n] when [y] is the integer [n], [|n| <= 64]. *)
Definition small_integer (y : spec_float) : option Z :=
  match y with
  | S754_zero _ => Some 0
  | S754_finite _ _ _ =>
      let v := to_fx y in
      if (Z.land v (fx_one - 1) =? 0) && (Z.abs v <=? 64 * fx_one)
      then Some (Z.shiftr v frac_bits) else None
  | _ => None
  end.

(** [x^n] for an integer [n], exactly, then rounded. *)
Definition int_pow (s : bool) (m : positive) (e n : Z) : spec_float :=
  let p := S754_finite (s && Z.odd n)
             (Pos.pow m (Z.to_pos (Z.abs n))) (e * Z.abs n) in
  if n <? 0 then SFdiv prec32 emax32 (exact_Z 1) p
  else round_to prec32 emax32 p.

Definition ref_powf (x y : spec_float) : spec_float :=
  match small_integer y, x with
  | Some Z0, _ => one32
  | Some _, S754_nan => S754_nan
  | Some n, S754_finite s m e => int_pow s m e n
  | Some n, S754_zero s =>
      if n <? 0 then S754_infinity (s && Z.odd n) else S754_zero (s && Z.odd n)
  | Some n, S754_infinity s =>
      if n <? 0 then S754_zero (s && Z.odd n) else S754_infinity (s && Z.odd n)
  | None, S754_finite false m e =>
      match y with
      | S754_finite _ _ _ => exp_round (fx_mul (to_fx y) (ln_fx m e))
      | _ => S754_nan
      end
  | None, _ => S754_nan
  end.

Definition ref_libm : libm :=
  Libm ref_sinf ref_cosf ref_logf ref_expf ref_powf.

End RefLibm.

(** The executable binary32 environment. *)
Definition b32 : FloatEnv spec_float := B32.env RefLibm.ref_libm.

(* ================================================================== *)
(** * Instance 2: the formulas over the real numbers                    *)
(* ================================================================== *)

Module RealSem.
Local Open Scope R_scope.

Definition ltb (x y : R) : bool := if Rlt_dec x y then true else false.
Definition leb (x y : R) : bool := if Rle_dec x y then true else false.
Definition eqb (x y : R) : bool := if Req_dec_T x y then true else false.

(** [pow]: the square is the product; other exponents go through
    [exp (y * ln x)]. *)
Definition pow (x y : R) : R :=
  if Req_dec_T y 2 then x * x else Rpower x y.

Definition env : FloatEnv R := {|
  fadd := Rplus;
  fsub := Rminus;
  fmul := Rmult;
  fdiv := Rdiv;
  fneg := Ropp;
  dsub := Rminus;
  flt := ltb;
  fle := leb;
  feq := eqb;
  of_int := IZR;
  flit := Q2R;
  dlit := Q2R;
  d2f := fun x => x;
  fabs := Rabs;
  sqrtf := sqrt;
  sinf := sin;
  cosf := cos;
  logf := ln;
  expf := exp;
  powf := pow
|}.
End RealSem.

(* ================================================================== *)
(** * Facts about loops over the buffer                                 *)
(* ================================================================== *)

Lemma for_loop_S (S : Type) (n : nat) (body : nat -> S -> S) (s : S) :
  for_loop (Datatypes.S n) body s = body n (for_loop n body s).
Proof.
  unfold for_loop. rewrite seq_S, fold_left_app. reflexivity.
Qed.

Lemma for_loop_ext (S : Type) (n : nat) (body body' : nat -> S -> S) (s : S) :
  (forall i t, i < n -> body i t = body' i t) ->
  for_loop n body s = for_loop n body' s.
Proof.
  induction n as [|n IH]; intros Hb; [reflexivity|].
  rewrite !for_loop_S, IH by (intros; apply Hb; lia).
  apply Hb; lia.
Qed.

Lemma nth_tabulate (A : Type) (n : nat) (f : nat -> A) (d : A) (i : nat) :
  i < n -> nth i (tabulate n f) d = f i.
Proof.
  intros Hi. unfold tabulate.
  rewrite (nth_indep _ d (f 0)) by (rewrite length_map, length_seq; exact Hi).
  rewrite map_nth, seq_nth by exact Hi. reflexivity.
Qed.

Lemma length_tabulate (A : Type) (n : nat) (f : nat -> A) :
  length (tabulate n f) = n.
Proof. unfold tabulate. rewrite length_map, length_seq. reflexivity. Qed.

(** Two cells of the buffer with the same flat index are the same cell. *)
Lemma cell_index_inj (P AngTot : Z) (k i j k' i' j' : nat) :
  i < Z.to_nat AngTot -> j < Z.to_nat P ->
  i' < Z.to_nat AngTot -> j' < Z.to_nat P ->
  cell_index P AngTot k i j = cell_index P AngTot k' i' j' ->
  k = k' /\ i = i' /\ j = j'.
Proof.
  unfold cell_index.
  generalize (Z.to_nat P) (Z.to_nat AngTot). intros p q Hi Hj Hi' Hj' E.
  assert (E' : (k * q + i) * p + j = (k' * q + i') * p + j') by lia.
  assert (E1 : k * q + i = k' * q + i') by nia.
  assert (k = k') by nia.
  subst k'. split; [reflexivity|]. split; nia.
Qed.

(** Every index a kernel forms is inside a buffer of [N*AngTot*P] cells. *)
Lemma cell_index_lt (N P AngTot : Z) (k i j : nat) :
  k < Z.to_nat N -> i < Z.to_nat AngTot -> j < Z.to_nat P ->
  cell_index P AngTot k i j < Z.to_nat N * Z.to_nat AngTot * Z.to_nat P.
Proof.
  unfold cell_index.
  generalize (Z.to_nat N) (Z.to_nat P) (Z.to_nat AngTot). intros n p q Hk Hi Hj.
  assert (k * p * q + i * p + j = (k * q + i) * p + j) as -> by lia.
  assert ((k * q + i) + 1 <= n * q) by nia.
  nia.
Qed.

Section LoopFacts.
Context {F : Type} `{FloatEnv F}.

(** What one kernel does to one cell: nothing, or [+= v]. *)
Definition add_opt (o : option F) (x : F) : F :=
  match o with Some v => fadd x v | None => x end.

(** [eff f m o]: whatever the buffer, [f] changes cell [m] by [o] and
    by nothing else; a cell that does not exist still does not. *)
Definition eff (f : list F -> list F) (m : nat) (o : option F) : Prop :=
  forall A, nth_error (f A) m = option_map (add_opt o) (nth_error A m).

Lemma eff_id (m : nat) : eff (fun A => A) m None.
Proof. intros A. destruct (nth_error A m); reflexivity. Qed.

Lemma eff_cell_add_same (idx : nat) (v : F) :
  eff (fun A => cell_add A idx v) idx (Some v).
Proof.
  intros A. revert idx. induction A as [|x A IH]; intros [|idx]; simpl;
    try reflexivity. apply IH.
Qed.

Lemma eff_cell_add_other (idx m : nat) (v : F) :
  m <> idx -> eff (fun A => cell_add A idx v) m None.
Proof.
  intros Hne A. revert idx m Hne.
  induction A as [|x A IH]; intros [|idx] [|m] Hne; simpl;
    try reflexivity; try congruence.
  - destruct (nth_error A m); reflexivity.
  - apply IH. congruence.
Qed.

Lemma eff_then_none (f g : list F -> list F) (m : nat) (o : option F) :
  eff f m o -> eff g m None -> eff (fun A => g (f A)) m o.
Proof.
  intros Hf Hg A. rewrite Hg, Hf.
  destruct (nth_error A m); reflexivity.
Qed.

Lemma eff_none_then (f g : list F -> list F) (m : nat) (o : option F) :
  eff f m None -> eff g m o -> eff (fun A => g (f A)) m o.
Proof.
  intros Hf Hg A. rewrite Hg, Hf.
  destruct (nth_error A m); reflexivity.
Qed.

Lemma eff_ext (f g : list F -> list F) (m : nat) (o : option F) :
  (forall A, f A = g A) -> eff f m o -> eff g m o.
Proof. intros E Hf A. rewrite <- E. apply Hf. Qed.

(** A loop none of whose iterations touches cell [m]. *)
Lemma eff_for_loop_none (n : nat) (body : nat -> list F -> list F) (m : nat) :
  (forall i, i < n -> eff (body i) m None) ->
  eff (for_loop n body) m None.
Proof.
  induction n as [|n IH]; intros Hb.
  - apply eff_id.
  - apply eff_ext with (f := fun A => body n (for_loop n body A)).
    + intros A. symmetry. apply for_loop_S.
    + apply eff_then_none; [apply IH; intros; apply Hb; lia | apply Hb; lia].
Qed.

(** A loop exactly one of whose iterations touches cell [m]. *)
Lemma eff_for_loop_one (n : nat) (body : nat -> list F -> list F)
    (m i : nat) (o : option F) :
  i < n -> eff (body i) m o ->
  (forall i', i' < n -> i' <> i -> eff (body i') m None) ->
  eff (for_loop n body) m o.
Proof.
  induction n as [|n IH]; intros Hi Hbi Hb; [lia|].
  apply eff_ext with (f := fun A => body n (for_loop n body A)).
  { intros A. symmetry. apply for_loop_S. }
  destruct (Nat.eq_dec i n) as [->|Hne].
  - apply eff_none_then; [|exact Hbi].
    apply eff_for_loop_none. intros i' Hi'. apply Hb; lia.
  - apply eff_then_none.
    + apply IH; [lia | exact Hbi | intros; apply Hb; lia].
    + apply Hb; lia.
Qed.

Lemma eff_length (f : list F -> list F) (A : list F) :
  (forall m, exists o, eff f m o) -> length (f A) = length A.
Proof.
  intros Hf.
  assert (Hle : forall m, m < length (f A) <-> m < length A).
  { intros m. destruct (Hf m) as [o Ho]. specialize (Ho A).
    rewrite <- !nth_error_Some, Ho.
    destruct (nth_error A m); simpl; split; congruence. }
  destruct (Nat.lt_trichotomy (length (f A)) (length A)) as [Hl|[Hl|Hl]];
    [|exact Hl|].
  - apply Hle in Hl. lia.
  - apply Hle in Hl. lia.
Qed.
End LoopFacts.

(* ================================================================== *)
(** * What each kernel adds to one cell                                 *)
(* ================================================================== *)

(** The quantities of the angle and detector loops, as functions of the
    loop counters; [aa] and [bb] are the two coefficients of [cos_2] and
    [sin_2] in [delta1]. *)
Section Contributions.
Context {F : Type} `{FloatEnv F}.
Local Open Scope fl_scope.
Variables (N P AngTot : Z) (Th : list F).
Variables (x00 y00 phi_rot_radian : F).

Definition sin_2_at (i : nat) : F :=
  powf (sinf (rd (AnglesRad Th AngTot) i + phi_rot_radian)) (of_int 2).
Definition cos_2_at (i : nat) : F :=
  powf (cosf (rd (AnglesRad Th AngTot) i + phi_rot_radian)) (of_int 2).
Definition delta1_at (aa bb : F) (i : nat) : F :=
  f1 / (aa * cos_2_at i + bb * sin_2_at i).
Definition AA2_at (i : nat) : F :=
  (- x00) * cosf (rd (AnglesRad Th AngTot) i)
  + y00 * sinf (rd (AnglesRad Th AngTot) i).
Definition AA3_at (i j : nat) : F :=
  powf (rd (Sinorange_P_Ar N P) j - AA2_at i) (of_int 2).
(** The normalised squared distance [AA6] of cell [(i, j)]. *)
Definition AA6_at (aa bb : F) (i j : nat) : F :=
  AA3_at i j * delta1_at aa bb i.

(** The 2D formulas, given the intensity and the two semi-axis values
    that the slice loop hands to the angle loop. *)
Definition gaussian_2D (C0 a1 b1 : F) (i j : nat) : option F :=
  let AA5 := (of_int N / f2) * (C0 * sqrtf a1 * sqrtf b1 / f2)
             * sqrtf (d2f M_PI / logf f2) in
  Some (AA5 * sqrtf (delta1_at a1 b1 i)
        * expf ((C1 * AA3_at i j) * delta1_at a1 b1 i)).

Definition parabola_2D (C00 a1 b1 : F) (i j : nat) : option F :=
  let AA5 := (of_int N / f2) * ((d2f M_PI / f2) * C00 * sqrtf a1 * sqrtf b1) in
  if AA6_at a1 b1 i j <? f1
  then Some (AA5 * sqrtf (delta1_at a1 b1 i) * (f1 - AA6_at a1 b1 i j))
  else None.

Definition disk_2D (C0 a b : F) (i j : nat) : option F :=
  let AA5 := of_int N * C0 * a * b in
  if AA6_at (a * a) (b * b) i j <? f1
  then Some (AA5 * sqrtf (delta1_at (a * a) (b * b) i)
             * sqrtf (f1 - AA6_at (a * a) (b * b) i j))
  else None.

Definition parabola1_2D (C00 a1 b1 : F) (i j : nat) : option F :=
  let AA5 := (of_int N / f2)
             * (f4 * ((f0_25 * sqrtf a1 * sqrtf b1 * C00) / f2_5)) in
  if AA6_at (f0_25 * a1) (f0_25 * b1) i j <? f1
  then Some (AA5 * sqrtf (delta1_at (f0_25 * a1) (f0_25 * b1) i)
             * (f1 - AA6_at (f0_25 * a1) (f0_25 * b1) i j))
  else None.

Definition cone_2D (C00 a1 b1 : F) (i j : nat) : option F :=
  let AA5 := (of_int N / f2) * (sqrtf a1 * sqrtf b1 * C00) in
  Some (cone_value (AA5 * sqrtf (delta1_at a1 b1 i)) (AA6_at a1 b1 i j)).

(** The slice test [Zdel2[k] <= 1] and the factor
    [powf(1.0f - Zdel2[k], 2)]. *)
Definition in_extent (zdel2 : list F) (k : nat) : bool :=
  rd zdel2 k <=? of_int 1.
Definition shrink (zdel2 : list F) (k : nat) : F :=
  powf (f1 - rd zdel2 k) (of_int 2).

(** What each kernel adds to cell [(k, i, j)]; [None] when the cell is
    not written. *)
Definition gaussian_contrib (C0 a1 b1 : F) (k i j : nat) : option F :=
  gaussian_2D C0 a1 b1 i j.

Definition parabola_contrib (C0 a b : F) (zdel2 : list F) (k i j : nat)
    : option F :=
  if in_extent zdel2 k
  then parabola_2D (C0 * shrink zdel2 k) (a * shrink zdel2 k)
                   (b * shrink zdel2 k) i j
  else None.

Definition disk_contrib (C0 a b : F) (zdel2 : list F) (k i j : nat)
    : option F :=
  if in_extent zdel2 k then disk_2D C0 a b i j else None.

Definition parabola1_contrib (C0 a b : F) (zdel2 : list F) (k i j : nat)
    : option F :=
  if in_extent zdel2 k
  then parabola1_2D (C0 * shrink zdel2 k) (a * shrink zdel2 k)
                    (b * shrink zdel2 k) i j
  else None.

Definition cone_contrib (C0 a b : F) (zdel2 : list F) (k i j : nat)
    : option F :=
  if in_extent zdel2 k
  then cone_2D (C0 * shrink zdel2 k) (a * shrink zdel2 k)
               (b * shrink zdel2 k) i j
  else None.
End Contributions.

Section RectangleContribution.
Context {F : Type} `{FloatEnv F}.
Local Open Scope fl_scope.

(** The rectangle's cell value, as a function of the angle [ksi00] the
    angle loop selected. *)
Definition rectangle_2D (N P : Z) (CenTypeIn : Z)
    (C0 x0 y0 a b phi_rot_radian : F) (ksi00 : F) (j : nat) : F :=
  (of_int N / f2)
  * rect_SS b a C0 (rect_x11 CenTypeIn N y0) (rect_y11 CenTypeIn N x0)
      (rect_ksi1 phi_rot_radian) ksi00 (rd (Sinorange_P_Ar N P) j).

Definition rectangle_contrib (N P AngTot : Z) (Th : list F) (CenTypeIn : Z)
    (C0 x0 y0 a b c phi_rot_radian : F) (zdel : list F) (k i j : nat)
    : option F :=
  if fabs (rd zdel k) <? f0_5 * c
  then Some (rectangle_2D N P CenTypeIn C0 x0 y0 a b phi_rot_radian
               (rd (AnglesRad Th AngTot) (Z.to_nat AngTot - 1 - i)) j)
  else None.
End RectangleContribution.

(** Discharges [eff f m None] for loops that only write other cells. *)
Ltac eff_untouched :=
  repeat first
    [ apply eff_id
    | apply eff_for_loop_none; intros ? ?; cbv beta zeta
    | match goal with
      | |- eff (fun A => if ?c then _ else _) _ _ => destruct c
      | |- eff (fun A => cell_add _ _ _) (cell_index _ _ _ _ _) None =>
          apply eff_cell_add_other; intros E;
          apply cell_index_inj in E; [ lia | lia .. ]
      end ].

(** Enters the iteration [i] of the outermost loop of the goal. *)
Ltac eff_enter x Hx :=
  apply (@eff_for_loop_one _ _ _ _ _ x);
  [ exact Hx | cbv beta zeta | intros; cbv beta zeta; eff_untouched ].

Section KernelCells.
Context {F : Type} `{FloatEnv F}.
Variables (N P AngTot : Z) (Th : list F).
Variables (C0 a b x00 y00 phi : F) (zdel2 : list F).
Variables (k i j : nat).
Hypothesis Hk : k < Z.to_nat N.
Hypothesis Hi : i < Z.to_nat AngTot.
Hypothesis Hj : j < Z.to_nat P.

Lemma kernel_gaussian_cell (a1 b1 : F) :
  eff (kernel_gaussian N P AngTot Th C0 x00 y00 phi a1 b1)
      (cell_index P AngTot k i j)
      (gaussian_contrib N P AngTot Th x00 y00 phi C0 a1 b1 k i j).
Proof.
  unfold kernel_gaussian.
  eff_enter k Hk. eff_enter i Hi. eff_enter j Hj.
  apply eff_cell_add_same.
Qed.

Lemma kernel_parabola_cell :
  eff (kernel_parabola N P AngTot Th C0 a b x00 y00 phi zdel2)
      (cell_index P AngTot k i j)
      (parabola_contrib N P AngTot Th x00 y00 phi C0 a b zdel2 k i j).
Proof.
  unfold kernel_parabola.
  eff_enter k Hk. unfold parabola_contrib, in_extent.
  destruct (fle _ _); [|apply eff_id].
  eff_enter i Hi. eff_enter j Hj.
  unfold parabola_2D, AA6_at, AA3_at, AA2_at, delta1_at, sin_2_at,
    cos_2_at, shrink.
  destruct (flt _ _); [apply eff_cell_add_same | apply eff_id].
Qed.

Lemma kernel_disk_cell :
  eff (kernel_disk N P AngTot Th C0 a b x00 y00 phi zdel2)
      (cell_index P AngTot k i j)
      (disk_contrib N P AngTot Th x00 y00 phi C0 a b zdel2 k i j).
Proof.
  unfold kernel_disk. cbv zeta.
  eff_enter k Hk. unfold disk_contrib, in_extent.
  destruct (fle _ _); [|apply eff_id].
  eff_enter i Hi. eff_enter j Hj.
  unfold disk_2D, AA6_at, AA3_at, AA2_at, delta1_at, sin_2_at, cos_2_at.
  destruct (flt _ _); [apply eff_cell_add_same | apply eff_id].
Qed.

Lemma kernel_parabola1_cell :
  eff (kernel_parabola1 N P AngTot Th C0 a b x00 y00 phi zdel2)
      (cell_index P AngTot k i j)
      (parabola1_contrib N P AngTot Th x00 y00 phi C0 a b zdel2 k i j).
Proof.
  unfold kernel_parabola1.
  eff_enter k Hk. unfold parabola1_contrib, in_extent.
  destruct (fle _ _); [|apply eff_id].
  eff_enter i Hi. eff_enter j Hj.
  unfold parabola1_2D, AA6_at, AA3_at, AA2_at, delta1_at, sin_2_at,
    cos_2_at, shrink.
  destruct (flt _ _); [apply eff_cell_add_same | apply eff_id].
Qed.

Lemma kernel_cone_cell :
  eff (kernel_cone N P AngTot Th C0 a b x00 y00 phi zdel2)
      (cell_index P AngTot k i j)
      (cone_contrib N P AngTot Th x00 y00 phi C0 a b zdel2 k i j).
Proof.
  unfold kernel_cone.
  eff_enter k Hk. unfold cone_contrib, in_extent.
  destruct (fle _ _); [|apply eff_id].
  eff_enter i Hi. eff_enter j Hj.
  apply eff_cell_add_same.
Qed.

Lemma kernel_rectangle_cell (CenTypeIn : Z) (x0 y0 c : F) (zdel : list F) :
  eff (kernel_rectangle N P AngTot Th CenTypeIn C0 x0 y0 a b c phi zdel)
      (cell_index P AngTot k i j)
      (rectangle_contrib N P AngTot Th CenTypeIn C0 x0 y0 a b c phi zdel
         k i j).
Proof.
  unfold kernel_rectangle. cbv zeta.
  eff_enter k Hk. unfold rectangle_contrib.
  destruct (flt _ _); [|apply eff_id].
  eff_enter i Hi. eff_enter j Hj.
  apply eff_cell_add_same.
Qed.
End KernelCells.

(* ================================================================== *)
(** * What a call and a whole model add to one cell                     *)
(* ================================================================== *)

Section CallCells.
Context {F : Type} `{FloatEnv F}.

(** The contribution of one call of [buildSino3D_core_single] to cell
    [(k, i, j)]. *)
Definition contribution (a1 b1 : F) (N P : Z) (Th : list F)
    (AngTot CenTypeIn Object : Z) (C0 x0 y0 z0 a b c psi_gr1 : F)
    (k i j : nat) : option F :=
  let x00 := centre00 CenTypeIn N x0 in
  let y00 := centre00 CenTypeIn N y0 in
  let phi := phi_rot_radian_of psi_gr1 in
  let zdel2 := Zdel2 N z0 (c2_of Object c) in
  if (Object =? 1)%Z then
    gaussian_contrib N P AngTot Th x00 y00 phi C0 a1 b1 k i j
  else if (Object =? 2)%Z then
    parabola_contrib N P AngTot Th x00 y00 phi C0 a b zdel2 k i j
  else if (Object =? 3)%Z then
    disk_contrib N P AngTot Th x00 y00 phi C0 a b zdel2 k i j
  else if (Object =? 4)%Z then
    parabola1_contrib N P AngTot Th x00 y00 phi C0 a b zdel2 k i j
  else if (Object =? 5)%Z then
    cone_contrib N P AngTot Th x00 y00 phi C0 a b zdel2 k i j
  else if (Object =? 6)%Z then
    rectangle_contrib N P AngTot Th CenTypeIn C0 x0 y0 a b c phi
      (Zdel N z0) k i j
  else None.

Lemma core_single_cell (a1 b1 : F) (N P : Z) (Th : list F)
    (AngTot CenTypeIn Object : Z)
    (C0 x0 y0 z0 a b c psi_gr1 psi_gr2 psi_gr3 : F) (k i j : nat) :
  k < Z.to_nat N -> i < Z.to_nat AngTot -> j < Z.to_nat P ->
  eff (fun A => buf (buildSino3D_core_single a1 b1 A N P Th AngTot
                       CenTypeIn Object C0 x0 y0 z0 a b c
                       psi_gr1 psi_gr2 psi_gr3))
      (cell_index P AngTot k i j)
      (contribution a1 b1 N P Th AngTot CenTypeIn Object
         C0 x0 y0 z0 a b c psi_gr1 k i j).
Proof.
  intros Hk Hi Hj. unfold buildSino3D_core_single, contribution. cbv zeta.
  repeat match goal with
         | |- context [(Object =? ?n)%Z] => destruct (Object =? n)%Z
         end; simpl buf.
  - apply kernel_gaussian_cell; assumption.
  - apply kernel_parabola_cell; assumption.
  - apply kernel_disk_cell; assumption.
  - apply kernel_parabola1_cell; assumption.
  - apply kernel_cone_cell; assumption.
  - apply kernel_rectangle_cell; assumption.
  - apply eff_id.
Qed.
End CallCells.

Section ModelCells.
Context {F : Type} `{FloatEnv F}.
Variable parameters_check3D : F -> F -> F -> F -> F -> F -> F -> Z.
Variable indeterminate : nat -> F * F.
Variables (N P : Z) (Th : list F) (AngTot CenTypeIn : Z).

(** The contribution of the [ii]-th component: that of its call, when the
    parameter check lets the call happen. *)
Definition component_contrib (ii : nat) (cm : component F) (k i j : nat)
    : option F :=
  if (parameters_check3D (c_C0 cm) (c_pos5 cm) (c_pos4 cm) (c_z0 cm)
        (c_a cm) (c_b cm) (c_c cm) =? 0)%Z
  then contribution (fst (indeterminate ii)) (snd (indeterminate ii))
         N P Th AngTot CenTypeIn (c_Object cm) (c_C0 cm) (c_pos5 cm)
         (c_pos4 cm) (c_z0 cm) (c_a cm) (c_b cm) (c_c cm) (c_psi_gr1 cm)
         k i j
  else None.

Fixpoint model_contribs (ii : nat) (cms : list (component F)) (k i j : nat)
    : list (option F) :=
  match cms with
  | [] => []
  | cm :: rest =>
      component_contrib ii cm k i j :: model_contribs (S ii) rest k i j
  end.

(** [x += v1; x += v2; ...] in the order of the list. *)
Definition accumulate (os : list (option F)) (x : F) : F :=
  fold_left (fun acc o => add_opt o acc) os x.

Lemma component_step_cell (ii : nat) (cm : component F)
    (out : list (event F)) (k i j : nat) :
  k < Z.to_nat N -> i < Z.to_nat AngTot -> j < Z.to_nat P ->
  eff (fun A => fst (component_step parameters_check3D indeterminate
                       N P Th AngTot CenTypeIn ii cm (A, out)))
      (cell_index P AngTot k i j) (component_contrib ii cm k i j).
Proof.
  intros Hk Hi Hj A. unfold component_step, component_contrib. cbv zeta.
  destruct (parameters_check3D _ _ _ _ _ _ _ =? 0)%Z; simpl fst.
  - apply (core_single_cell _ _ _ _ _ _ _ _ _ _ _ _ _ _ _ _ _ _ Hk Hi Hj).
  - apply eff_id.
Qed.

Lemma components_loop_cell (cms : list (component F)) (ii : nat)
    (A : list F) (out : list (event F)) (k i j : nat) :
  k < Z.to_nat N -> i < Z.to_nat AngTot -> j < Z.to_nat P ->
  nth_error (fst (components_loop parameters_check3D indeterminate
                    N P Th AngTot CenTypeIn ii cms (A, out)))
            (cell_index P AngTot k i j)
  = option_map (accumulate (model_contribs ii cms k i j))
      (nth_error A (cell_index P AngTot k i j)).
Proof.
  intros Hk Hi Hj. revert ii A out.
  induction cms as [|cm rest IH]; intros ii A out;
    cbn [components_loop model_contribs].
  - cbn [fst]. destruct (nth_error A _); reflexivity.
  - rewrite (surjective_pairing
               (component_step parameters_check3D indeterminate
                  N P Th AngTot CenTypeIn ii cm (A, out))).
    rewrite IH, (component_step_cell ii cm out Hk Hi Hj A).
    destruct (nth_error A _); reflexivity.
Qed.

Lemma buildSino3D_core_cell (cms : list (component F)) (A : list F)
    (k i j : nat) :
  k < Z.to_nat N -> i < Z.to_nat AngTot -> j < Z.to_nat P ->
  nth_error (buf (buildSino3D_core parameters_check3D indeterminate
                    A N P Th AngTot CenTypeIn cms))
            (cell_index P AngTot k i j)
  = option_map (accumulate (model_contribs 0 cms k i j))
      (nth_error A (cell_index P AngTot k i j)).
Proof.
  intros Hk Hi Hj. unfold buildSino3D_core.
  pose proof (components_loop_cell cms 0 A [] Hk Hi Hj) as E.
  destruct (components_loop parameters_check3D indeterminate
              N P Th AngTot CenTypeIn 0 cms (A, [])) as [A' out].
  exact E.
Qed.
End ModelCells.

(* ================================================================== *)
(** * Concrete data for the closed evaluations                          *)
(* ================================================================== *)

Module Sample.
Import B32.

Definition finite (x : spec_float) : bool :=
  match x with
  | S754_zero _ | S754_finite _ _ _ => true
  | _ => false
  end.
Definition extent_ok (x : spec_float) : bool :=
  finite x && ltb (S754_zero false) x.
Definition centre_ok (x : spec_float) : bool :=
  leb (SFabs x) (S754_finite false 1 1).

(** Modelled from the spec: [parameters_check3D], which
    buildPhantom3D_core.h declares and whose definition is not among the
    files this development covers.  Section 4.2: a primitive fails when an
    extent is non-positive or not finite, or when its centre lies beyond the
    margin (taken as 2) of the normalised domain.  The result is 0 for a
    primitive that passes. *)
Definition parameters_check3D (C0 x0 y0 z0 a b c : spec_float) : Z :=
  if extent_ok a && extent_ok b && extent_ok c
     && centre_ok x0 && centre_ok y0 && centre_ok z0
  then 0%Z else (-1)%Z.

(** The uninitialised locals hold 1.0f in every call. *)
Definition stack_ones (ii : nat) : spec_float * spec_float :=
  (RefLibm.one32, RefLibm.one32).

(** Decimal literals as binary32 numbers. *)
Definition fl (q : Q) : spec_float := round_Q prec32 emax32 q.

Definition zeros (n : nat) : list spec_float := repeat (fl 0) n.
End Sample.

Module SampleModels.
Import Sample.

(** A disk of semi-axes 0.5 centred on the axis of rotation, and a
    component with the unknown tag 7. *)
Definition disk : component spec_float :=
  Component 3 (fl 1) (fl (-0.5)) (fl (-0.5)) (fl (-0.5))
    (fl 0.5) (fl 0.5) (fl 1) (fl 0) (fl 0) (fl 0).
Definition tag7 : component spec_float :=
  Component 7 (fl 1) (fl (-0.5)) (fl (-0.5)) (fl (-0.5))
    (fl 0.5) (fl 0.5) (fl 1) (fl 0) (fl 0) (fl 0).

(** [N = 2], [P = 3], one projection angle of 0 degrees, "astra"
    centring, a zeroed buffer of [2*1*3] cells. *)
Definition run (cms : list (component spec_float)) : outcome spec_float :=
  @buildSino3D_core _ b32 parameters_check3D stack_ones
    (zeros 6) 2 3 [fl 0] 1 1 cms.
End SampleModels.

(* ================================================================== *)
(** * C1: a component with an unknown shape tag                         *)
(* ================================================================== *)

Section UnknownShape.
Context {F : Type} `{FloatEnv F}.
Variable parameters_check3D : F -> F -> F -> F -> F -> F -> F -> Z.
Variable indeterminate : nat -> F * F.
Variables (N P : Z) (Th : list F) (AngTot CenTypeIn : Z).

Lemma components_loop_app (pre post : list (component F)) (ii : nat)
    (st : list F * list (event F)) :
  components_loop parameters_check3D indeterminate N P Th AngTot CenTypeIn
    ii (pre ++ post) st
  = components_loop parameters_check3D indeterminate N P Th AngTot CenTypeIn
      (ii + length pre) post
      (components_loop parameters_check3D indeterminate N P Th AngTot
         CenTypeIn ii pre st).
Proof.
  revert ii st. induction pre as [|cm pre IH]; intros ii st; simpl.
  - rewrite Nat.add_0_r. reflexivity.
  - rewrite IH. f_equal. lia.
Qed.

Lemma core_single_unknown (a1 b1 : F) (A : list F) (Object : Z)
    (C0 x0 y0 z0 a b c p1 p2 p3 : F) :
  (Object < 1 \/ 6 < Object)%Z ->
  buildSino3D_core_single a1 b1 A N P Th AngTot CenTypeIn Object
    C0 x0 y0 z0 a b c p1 p2 p3
  = Outcome (of_int 0) A [No_such_object].
Proof.
  intros HO. unfold buildSino3D_core_single. cbv zeta.
  repeat match goal with
         | |- context [(Object =? ?n)%Z] =>
             destruct (Z.eqb_spec Object n); [lia|]
         end.
  reflexivity.
Qed.

(** The lines printed for a component with an unknown tag. *)
Definition unknown_lines (cm : component F) : list (event F) :=
  [Object_parameters (c_Object cm) (c_C0 cm) (c_pos5 cm) (c_pos4 cm)
     (c_z0 cm) (c_a cm) (c_b cm) (c_c cm)
     (c_psi_gr1 cm) (c_psi_gr2 cm) (c_psi_gr3 cm);
   No_such_object].

(** C1, amended.  For a component whose shape tag is not one of 1..6 and
    whose parameters pass the check, [buildSino3D_core_single] prints "No
    such object exist!", returns 0 and leaves the buffer as it is; the
    component loop drops that result and processes the components after
    it exactly as it would from the state reached before it. *)
Theorem C1_unknown_shape_is_skipped
    (pre post : list (component F)) (bad : component F) (A : list F) :
  (c_Object bad < 1 \/ 6 < c_Object bad)%Z ->
  parameters_check3D (c_C0 bad) (c_pos5 bad) (c_pos4 bad) (c_z0 bad)
    (c_a bad) (c_b bad) (c_c bad) = 0%Z ->
  (forall a1 b1 A0,
     buildSino3D_core_single a1 b1 A0 N P Th AngTot CenTypeIn (c_Object bad)
       (c_C0 bad) (c_pos5 bad) (c_pos4 bad) (c_z0 bad) (c_a bad) (c_b bad)
       (c_c bad) (c_psi_gr1 bad) (c_psi_gr2 bad) (c_psi_gr3 bad)
     = Outcome (of_int 0) A0 [No_such_object])
  /\ components_loop parameters_check3D indeterminate N P Th AngTot CenTypeIn
       0 (pre ++ bad :: post) (A, [])
     = components_loop parameters_check3D indeterminate N P Th AngTot
         CenTypeIn (S (length pre)) post
         (fst (components_loop parameters_check3D indeterminate N P Th
                 AngTot CenTypeIn 0 pre (A, [])),
          snd (components_loop parameters_check3D indeterminate N P Th
                 AngTot CenTypeIn 0 pre (A, []))
          ++ unknown_lines bad).
Proof.
  intros HO Hchk. split.
  - intros a1 b1 A0. apply core_single_unknown. exact HO.
  - rewrite components_loop_app. simpl.
    destruct (components_loop parameters_check3D indeterminate N P Th
                AngTot CenTypeIn 0 pre (A, [])) as [A1 out1].
    unfold component_step at 1. cbv zeta. rewrite Hchk. simpl Z.eqb. cbv iota.
    rewrite core_single_unknown by exact HO.
    simpl. unfold unknown_lines. rewrite <- app_assoc. reflexivity.
Qed.
End UnknownShape.

(** The theorem applied to the model [tag7; disk]. *)
Lemma C1_unknown_shape_is_skipped_witness :
  components_loop (H := b32) Sample.parameters_check3D Sample.stack_ones
    2 3 [Sample.fl 0] 1 1 0 ([] ++ SampleModels.tag7 :: [SampleModels.disk])
    (Sample.zeros 6, [])
  = components_loop (H := b32) Sample.parameters_check3D Sample.stack_ones
      2 3 [Sample.fl 0] 1 1 1 [SampleModels.disk]
      (Sample.zeros 6, [] ++ unknown_lines SampleModels.tag7).
Proof.
  apply (C1_unknown_shape_is_skipped (H := b32) Sample.parameters_check3D
           Sample.stack_ones 2 3 [Sample.fl 0] 1 1
           [] [SampleModels.disk] SampleModels.tag7 (Sample.zeros 6)).
  - right. vm_compute. reflexivity.
  - vm_compute. reflexivity.
Defined.

(** C1 as stated fails: in the model [tag7; disk] the disk, which comes
    after the component with the unknown tag, is processed and adds 1.0 to
    cell (slice 0, angle 0, detector 1) of the zeroed buffer; the run prints
    the message and carries on. *)
Lemma C1_unknown_shape_not_fatal :
  nth_error (buf (SampleModels.run [SampleModels.tag7; SampleModels.disk]))
    (cell_index 3 1 0 0 1) = Some (Sample.fl 1)
  /\ nth_error (Sample.zeros 6) (cell_index 3 1 0 0 1) = Some (Sample.fl 0)
  /\ Sample.fl 1 <> Sample.fl 0
  /\ buf (SampleModels.run [SampleModels.tag7; SampleModels.disk])
     = buf (SampleModels.run [SampleModels.disk])
  /\ stdout (SampleModels.run [SampleModels.tag7; SampleModels.disk])
     = unknown_lines SampleModels.tag7
       ++ stdout (SampleModels.run [SampleModels.disk]).
Proof.
  repeat split; try (vm_compute; reflexivity).
  vm_compute. discriminate.
Qed.

(* ================================================================== *)
(** * C2: contributions are added, one primitive after the other        *)
(* ================================================================== *)

Section Additivity.
Context {F : Type} `{FloatEnv F}.
Variable parameters_check3D : F -> F -> F -> F -> F -> F -> F -> Z.
Variable indeterminate : nat -> F * F.
Variables (N P : Z) (Th : list F) (AngTot CenTypeIn : Z).

Let run := buildSino3D_core parameters_check3D indeterminate.
Let contrib := component_contrib parameters_check3D indeterminate
                 N P Th AngTot CenTypeIn.
Let cells : nat := Z.to_nat N * Z.to_nat AngTot * Z.to_nat P.

(** A primitive has no support in a cell when it leaves the cell alone or
    adds 0.0f to it. *)
Definition no_support (o : option F) : Prop := o = None \/ o = Some f0.

(** The three facts about adding zero that superposition needs.  They
    hold over the reals and in IEEE arithmetic (where [0.0f + x] is never
    the negative zero). *)
Definition zero_laws : Prop :=
  fadd f0 f0 = f0
  /\ (forall x, fadd (fadd f0 x) f0 = fadd f0 x)
  /\ (forall x, fadd f0 (fadd f0 x) = fadd f0 x).

Lemma superposition_cell (oA oB : option F) :
  zero_laws -> no_support oA \/ no_support oB ->
  add_opt oB (add_opt oA f0) = fadd (add_opt oA f0) (add_opt oB f0).
Proof.
  intros (L1 & L2 & L3) [[-> | ->] | [-> | ->]]; simpl.
  - destruct oB as [v|]; simpl; [rewrite L3 | rewrite L1]; reflexivity.
  - rewrite !L1. destruct oB as [v|]; simpl; [rewrite L3 | rewrite L1];
      reflexivity.
  - destruct oA as [v|]; simpl; [rewrite L2 | rewrite L1]; reflexivity.
  - rewrite L1. reflexivity.
Qed.

(** C2.  (1) A call changes a cell by [+= v] or not at all.  (2) After a
    whole model every cell holds its initial value with the contributions
    of the primitives added to it one after the other, in model order.
    (3) With the zero laws, for two primitives of disjoint support the run
    of [A; B] on a zeroed buffer is the cell-wise sum of the runs of [A]
    and of [B]. *)
Theorem C2_contributions_are_added :
  (forall ii cm out A k i j,
     k < Z.to_nat N -> i < Z.to_nat AngTot -> j < Z.to_nat P ->
     nth_error (fst (component_step parameters_check3D indeterminate
                       N P Th AngTot CenTypeIn ii cm (A, out)))
               (cell_index P AngTot k i j)
     = option_map (add_opt (contrib ii cm k i j))
         (nth_error A (cell_index P AngTot k i j)))
  /\ (forall cms A k i j,
        k < Z.to_nat N -> i < Z.to_nat AngTot -> j < Z.to_nat P ->
        nth_error (buf (run A N P Th AngTot CenTypeIn cms))
                  (cell_index P AngTot k i j)
        = option_map (accumulate (model_contribs parameters_check3D
                                    indeterminate N P Th AngTot CenTypeIn
                                    0 cms k i j))
            (nth_error A (cell_index P AngTot k i j)))
  /\ (forall cA cB : component F,
        zero_laws ->
        indeterminate 1 = indeterminate 0 ->
        (forall k i j,
           k < Z.to_nat N -> i < Z.to_nat AngTot -> j < Z.to_nat P ->
           no_support (contrib 0 cA k i j)
           \/ no_support (contrib 0 cB k i j)) ->
        forall k i j,
          k < Z.to_nat N -> i < Z.to_nat AngTot -> j < Z.to_nat P ->
          exists xa xb,
            nth_error (buf (run (repeat f0 cells) N P Th AngTot CenTypeIn
                              [cA])) (cell_index P AngTot k i j) = Some xa
            /\ nth_error (buf (run (repeat f0 cells) N P Th AngTot CenTypeIn
                                 [cB])) (cell_index P AngTot k i j) = Some xb
            /\ nth_error (buf (run (repeat f0 cells) N P Th AngTot CenTypeIn
                                 [cA; cB])) (cell_index P AngTot k i j)
               = Some (fadd xa xb)).
Proof.
  split; [|split].
  - intros ii cm out A k i j Hk Hi Hj.
    apply (component_step_cell parameters_check3D indeterminate
             N P Th AngTot CenTypeIn ii cm out Hk Hi Hj A).
  - intros cms A k i j Hk Hi Hj. apply buildSino3D_core_cell; assumption.
  - intros cA cB Hz Hind Hdis k i j Hk Hi Hj.
    assert (Hcell : nth_error (repeat f0 cells) (cell_index P AngTot k i j)
                    = Some f0).
    { apply nth_error_repeat. apply cell_index_lt; assumption. }
    exists (add_opt (contrib 0 cA k i j) f0),
           (add_opt (contrib 0 cB k i j) f0).
    unfold run.
    rewrite !buildSino3D_core_cell, Hcell by assumption.
    cbn [model_contribs accumulate fold_left option_map].
    repeat split.
    assert (E : component_contrib parameters_check3D indeterminate
                  N P Th AngTot CenTypeIn 1 cB k i j = contrib 0 cB k i j).
    { unfold contrib, component_contrib. rewrite Hind. reflexivity. }
    rewrite E. f_equal.
    apply superposition_cell; [exact Hz|]. apply Hdis; assumption.
Qed.
End Additivity.

(** The zero laws in binary32, whatever the libm. *)
Lemma b32_zero_laws (L : B32.libm) : zero_laws (H := B32.env L).
Proof.
  unfold zero_laws.
  change (@f0 _ (B32.env L)) with (S754_zero false).
  change (@fadd _ (B32.env L)) with (SFadd B32.prec32 B32.emax32).
  split; [reflexivity|].
  split; intros [[]|[]| |[] m e]; reflexivity.
Qed.

Module SampleSlabs.
Import Sample.

(** Two disks of thickness 0.5 around the slices -1 and 0: with [N = 2]
    the first meets slice 0 only, the second slice 1 only. *)
Definition diskA : component spec_float :=
  Component 3 (fl 1) (fl (-0.5)) (fl (-0.5)) (fl (-1))
    (fl 0.5) (fl 0.5) (fl 0.5) (fl 0) (fl 0) (fl 0).
Definition diskB : component spec_float :=
  Component 3 (fl 2) (fl (-0.5)) (fl (-0.5)) (fl 0)
    (fl 0.5) (fl 0.5) (fl 0.5) (fl 0) (fl 0) (fl 0).
End SampleSlabs.

(** The superposition part of C2 applied to the two disks. *)
Lemma C2_contributions_are_added_witness :
  exists xa xb,
    nth_error (buf (SampleModels.run [SampleSlabs.diskA]))
      (cell_index 3 1 0 0 1) = Some xa
    /\ nth_error (buf (SampleModels.run [SampleSlabs.diskB]))
         (cell_index 3 1 0 0 1) = Some xb
    /\ nth_error (buf (SampleModels.run [SampleSlabs.diskA; SampleSlabs.diskB]))
         (cell_index 3 1 0 0 1) = Some (fadd (FloatEnv := b32) xa xb).
Proof.
  refine (proj2 (proj2 (C2_contributions_are_added (H := b32)
            Sample.parameters_check3D Sample.stack_ones 2 3 [Sample.fl 0] 1 1))
            SampleSlabs.diskA SampleSlabs.diskB _ _ _ 0 0 1 _ _ _).
  - apply b32_zero_laws.
  - reflexivity.
  - intros k i j Hk Hi Hj.
    destruct k as [|[|k]]; [right | left | simpl in Hk; lia];
      left; vm_compute; reflexivity.
  - simpl; lia.
  - simpl; lia.
  - simpl; lia.
Defined.

(* ================================================================== *)
(** * C3: no contribution at or beyond the edge                         *)
(* ================================================================== *)

(** [x >= y] excludes [x < y]. *)
Class FloatOrder (F : Type) {E : FloatEnv F} : Prop := {
  ge_not_lt : forall x y : F, fge x y = true -> flt x y = false
}.

Lemma b32_compare_antisym (x y : spec_float) :
  B32.compare x y = option_map CompOpp (B32.compare y x).
Proof.
  destruct x as [[]|[]| |[] m e], y as [[]|[]| |[] m' e']; try reflexivity;
    unfold B32.compare; rewrite (Z.min_comm e' e), (Z.compare_antisym _ _);
    reflexivity.
Qed.

#[export] Instance b32_order (L : B32.libm) : FloatOrder (E := B32.env L).
Proof.
  constructor. intros x y. unfold fge. cbn [fle flt B32.env].
  unfold B32.leb, B32.ltb. rewrite (b32_compare_antisym x y).
  destruct (B32.compare y x) as [[]|]; simpl; congruence.
Qed.

#[export] Instance real_order : FloatOrder (E := RealSem.env).
Proof.
  constructor. intros x y. unfold fge. cbn [fle flt RealSem.env].
  unfold RealSem.leb, RealSem.ltb.
  destruct (Rle_dec y x), (Rlt_dec x y); try congruence. lra.
Qed.

Section Edge.
Context {F : Type} `{FloatOrder F}.
Local Open Scope fl_scope.

(** The normalised squared distance [AA6] that the kernel of [Object]
    (2, 3 or 4) computes for cell [(k, i, j)]. *)
Definition dist2 (N P : Z) (Th : list F) (AngTot CenTypeIn Object : Z)
    (x0 y0 z0 a b c psi_gr1 : F) (k i j : nat) : F :=
  let x00 := centre00 CenTypeIn N x0 in
  let y00 := centre00 CenTypeIn N y0 in
  let phi := phi_rot_radian_of psi_gr1 in
  let s := shrink (Zdel2 N z0 (c2_of Object c)) k in
  if (Object =? 3)%Z then
    AA6_at N P AngTot Th x00 y00 phi (a * a) (b * b) i j
  else if (Object =? 4)%Z then
    AA6_at N P AngTot Th x00 y00 phi (f0_25 * (a * s)) (f0_25 * (b * s)) i j
  else
    AA6_at N P AngTot Th x00 y00 phi (a * s) (b * s) i j.

(** C3.  For the two parabolas and the elliptical disk, a cell whose
    normalised squared distance is at least 1 is not written: after the
    call it holds what it held before. *)
Theorem C3_no_contribution_beyond_edge
    (a1 b1 : F) (A : list F) (N P : Z) (Th : list F)
    (AngTot CenTypeIn Object : Z)
    (C0 x0 y0 z0 a b c psi_gr1 psi_gr2 psi_gr3 : F) (k i j : nat) :
  (Object = 2 \/ Object = 3 \/ Object = 4)%Z ->
  k < Z.to_nat N -> i < Z.to_nat AngTot -> j < Z.to_nat P ->
  (dist2 N P Th AngTot CenTypeIn Object x0 y0 z0 a b c psi_gr1 k i j
     >=? f1) = true ->
  contribution a1 b1 N P Th AngTot CenTypeIn Object C0 x0 y0 z0 a b c
    psi_gr1 k i j = None
  /\ nth_error (buf (buildSino3D_core_single a1 b1 A N P Th AngTot CenTypeIn
                       Object C0 x0 y0 z0 a b c psi_gr1 psi_gr2 psi_gr3))
               (cell_index P AngTot k i j)
     = nth_error A (cell_index P AngTot k i j).
Proof.
  intros HO Hk Hi Hj Hge.
  assert (Hc : contribution a1 b1 N P Th AngTot CenTypeIn Object C0 x0 y0 z0
                 a b c psi_gr1 k i j = None).
  { apply ge_not_lt in Hge. revert Hge. unfold contribution, dist2. cbv zeta.
    destruct HO as [-> | [-> | ->]]; simpl Z.eqb; cbv iota; intros Hlt.
    - unfold parabola_contrib, parabola_2D.
      destruct (in_extent _ _); [|reflexivity]. cbv zeta.
      rewrite Hlt. reflexivity.
    - unfold disk_contrib, disk_2D.
      destruct (in_extent _ _); [|reflexivity]. cbv zeta.
      rewrite Hlt. reflexivity.
    - unfold parabola1_contrib, parabola1_2D.
      destruct (in_extent _ _); [|reflexivity]. cbv zeta.
      rewrite Hlt. reflexivity. }
  split; [exact Hc|].
  rewrite (@core_single_cell F E a1 b1 N P Th AngTot CenTypeIn Object
             C0 x0 y0 z0 a b c psi_gr1 psi_gr2 psi_gr3 k i j Hk Hi Hj A), Hc.
  destruct (nth_error A _); reflexivity.
Qed.
End Edge.

(** C3 applied to the sample disk: the detector cell at offset 1 lies at
    normalised squared distance 4. *)
Lemma C3_no_contribution_beyond_edge_witness :
  nth_error
    (buf (buildSino3D_core_single (H := b32) RefLibm.one32 RefLibm.one32
            (Sample.zeros 6) 2 3 [Sample.fl 0] 1 1 3
            (Sample.fl 1) (Sample.fl (-0.5)) (Sample.fl (-0.5))
            (Sample.fl (-0.5)) (Sample.fl 0.5) (Sample.fl 0.5) (Sample.fl 1)
            (Sample.fl 0) (Sample.fl 0) (Sample.fl 0)))
    (cell_index 3 1 0 0 0)
  = nth_error (Sample.zeros 6) (cell_index 3 1 0 0 0).
Proof.
  refine (proj2 (@C3_no_contribution_beyond_edge _ b32 _
            RefLibm.one32 RefLibm.one32 (Sample.zeros 6) 2 3 [Sample.fl 0]
            1 1 3 (Sample.fl 1) (Sample.fl (-0.5)) (Sample.fl (-0.5))
            (Sample.fl (-0.5)) (Sample.fl 0.5) (Sample.fl 0.5) (Sample.fl 1)
            (Sample.fl 0) (Sample.fl 0) (Sample.fl 0) 0 0 0 _ _ _ _ _)).
  - right; left; reflexivity.
  - simpl; lia.
  - simpl; lia.
  - simpl; lia.
  - vm_compute. reflexivity.
Defined.

(* ================================================================== *)
(** * C4: the slice loop and the shrink factor                          *)
(* ================================================================== *)

Section SliceModulation.
Context {F : Type} `{FloatEnv F}.
Local Open Scope fl_scope.
Variables (a1 b1 : F) (N P : Z) (Th : list F) (AngTot CenTypeIn : Z).
Variables (C0 x0 y0 z0 a b c psi_gr1 psi_gr2 psi_gr3 : F).

Let x00 := centre00 CenTypeIn N x0.
Let y00 := centre00 CenTypeIn N y0.
Let phi := phi_rot_radian_of psi_gr1.

(** C4, amended.  [Zdel2[k]] is [c2 * (X[k] - z0)^2] with [c2 = 1/(c*c)],
    and [c2 = 4 * (1/(c*c))] for Object 4.  For the parabola (2), the
    sharp parabola (4) and the cone (5), a slice with [Zdel2[k] <= 1] hands
    [a], [b] and [C0], each multiplied by [(1 - Zdel2[k])^2], to the 2D
    formula; for the elliptical disk (3) such a slice hands [a], [b] and
    [C0] unchanged.  For all four a slice that fails the test leaves each
    of its cells as it was. *)
Theorem C4_slice_modulation (Object : Z) (A : list F) (k i j : nat) :
  k < Z.to_nat N -> i < Z.to_nat AngTot -> j < Z.to_nat P ->
  (Object = 2 \/ Object = 3 \/ Object = 4 \/ Object = 5)%Z ->
  let c2 := if (Object =? 4)%Z then f4 * (f1 / (c * c)) else f1 / (c * c) in
  let zdel2 := Zdel2 N z0 c2 in
  let s := powf (f1 - rd zdel2 k) (of_int 2) in
  let o :=
    if rd zdel2 k <=? of_int 1 then
      if (Object =? 2)%Z then
        parabola_2D N P AngTot Th x00 y00 phi (C0 * s) (a * s) (b * s) i j
      else if (Object =? 3)%Z then
        disk_2D N P AngTot Th x00 y00 phi C0 a b i j
      else if (Object =? 4)%Z then
        parabola1_2D N P AngTot Th x00 y00 phi (C0 * s) (a * s) (b * s) i j
      else
        cone_2D N P AngTot Th x00 y00 phi (C0 * s) (a * s) (b * s) i j
    else None in
  rd zdel2 k = c2 * powf (rd (Tomorange_X_Ar N) k - z0) (of_int 2)
  /\ nth_error (buf (buildSino3D_core_single a1 b1 A N P Th AngTot CenTypeIn
                       Object C0 x0 y0 z0 a b c psi_gr1 psi_gr2 psi_gr3))
               (cell_index P AngTot k i j)
     = option_map (add_opt o) (nth_error A (cell_index P AngTot k i j)).
Proof.
  intros Hk Hi Hj HO c2 zdel2 s o. split.
  - unfold zdel2, Zdel2, Zdel, rd at 1 2.
    rewrite !nth_tabulate by exact Hk. reflexivity.
  - rewrite (@core_single_cell F H a1 b1 N P Th AngTot CenTypeIn Object
               C0 x0 y0 z0 a b c psi_gr1 psi_gr2 psi_gr3 k i j Hk Hi Hj A).
    f_equal. f_equal. unfold contribution, o, s, zdel2, c2, c2_of. cbv zeta.
    destruct HO as [-> | [-> | [-> | ->]]]; reflexivity.
Qed.
End SliceModulation.

(** C4 applied to the sample disk. *)
Lemma C4_slice_modulation_witness :
  nth_error
    (buf (buildSino3D_core_single (H := b32) RefLibm.one32 RefLibm.one32
            (Sample.zeros 6) 2 3 [Sample.fl 0] 1 1 3
            (Sample.fl 1) (Sample.fl (-0.5)) (Sample.fl (-0.5))
            (Sample.fl (-0.5)) (Sample.fl 0.5) (Sample.fl 0.5) (Sample.fl 1)
            (Sample.fl 0) (Sample.fl 0) (Sample.fl 0)))
    (cell_index 3 1 0 0 1)
  = Some (Sample.fl 1).
Proof.
  rewrite (proj2 (@C4_slice_modulation _ b32 RefLibm.one32 RefLibm.one32
             2 3 [Sample.fl 0] 1 1
             (Sample.fl 1) (Sample.fl (-0.5)) (Sample.fl (-0.5))
             (Sample.fl (-0.5)) (Sample.fl 0.5) (Sample.fl 0.5) (Sample.fl 1)
             (Sample.fl 0) (Sample.fl 0) (Sample.fl 0) 3 (Sample.zeros 6)
             0 0 1 ltac:(simpl; lia) ltac:(simpl; lia) ltac:(simpl; lia)
             ltac:(right; left; reflexivity))).
  vm_compute. reflexivity.
Defined.

(** C4 as stated fails for the elliptical disk.  The sample disk
    ([a = b = 0.5], [C0 = 1], [c = 1], [z0 = -0.5]) meets slice 0 at
    [Zdel2 = 0.25], where the shrink factor is 0.5625; the cell on the axis
    receives 1.0, the value of the 2D formula for the unscaled [a], [b],
    [C0], and not the value for the rescaled ones. *)
Lemma C4_disk_is_not_rescaled :
  rd (H := b32)
    (Zdel2 (H := b32) 2 (Sample.fl (-0.5)) (c2_of (H := b32) 3 (Sample.fl 1))) 0
  = Sample.fl 0.25
  /\ shrink (H := b32)
       (Zdel2 (H := b32) 2 (Sample.fl (-0.5)) (c2_of (H := b32) 3 (Sample.fl 1)))
       0 = Sample.fl 0.5625
  /\ nth_error (buf (SampleModels.run [SampleModels.disk]))
       (cell_index 3 1 0 0 1) = Some (Sample.fl 1)
  /\ disk_2D (H := b32) 2 3 1 [Sample.fl 0] (Sample.fl 0) (Sample.fl 0)
       (Sample.fl 0) (Sample.fl 1) (Sample.fl 0.5) (Sample.fl 0.5) 0 1
     = Some (Sample.fl 1)
  /\ disk_2D (H := b32) 2 3 1 [Sample.fl 0] (Sample.fl 0) (Sample.fl 0)
       (Sample.fl 0)
       (fmul (FloatEnv := b32) (Sample.fl 1) (Sample.fl 0.5625))
       (fmul (FloatEnv := b32) (Sample.fl 0.5) (Sample.fl 0.5625))
       (fmul (FloatEnv := b32) (Sample.fl 0.5) (Sample.fl 0.5625)) 0 1
     <> Some (Sample.fl 1).
Proof.
  repeat split; try (vm_compute; reflexivity).
  vm_compute. discriminate.
Qed.

(* ================================================================== *)
(** * C5: the rectangle seen along one of its sides                     *)
(* ================================================================== *)

Section RectangleGuard.
Context {F : Type} `{FloatEnv F}.

(** The last statement of the detector loop wins: whenever [PC >= QP] the
    value added is built from [SS = 0.0f]. *)
Lemma rect_SS_zero (xwid ywid C0 x11 y11 ksi1 ksi00 p00 : F) :
  fge (fst (rect_PC_QP xwid ywid x11 y11 ksi1 ksi00 p00))
      (snd (rect_PC_QP xwid ywid x11 y11 ksi1 ksi00 p00)) = true ->
  rect_SS xwid ywid C0 x11 y11 ksi1 ksi00 p00 = f0.
Proof.
  unfold rect_SS, rect_PC_QP. cbv zeta.
  destruct (fgt ksi00 (d2f M_PI)); cbn [fst snd]; intros ->; reflexivity.
Qed.
End RectangleGuard.

Module RealFacts.
Local Open Scope R_scope.

Lemma Q2R_M_PI_pos : 0 < Q2R M_PI_lit.
Proof. unfold Q2R, M_PI_lit; simpl. lra. Qed.
Lemma Q2R_0 : Q2R 0 = 0.
Proof. unfold Q2R; simpl. lra. Qed.
Lemma Q2R_1 : Q2R 1 = 1.
Proof. unfold Q2R; simpl. lra. Qed.
Lemma Q2R_2 : Q2R 2 = 2.
Proof. unfold Q2R; simpl. lra. Qed.
Lemma Q2R_half : Q2R (1 # 2) = / 2.
Proof. unfold Q2R; simpl. lra. Qed.

Lemma ltb_true (x y : R) : x < y -> RealSem.ltb x y = true.
Proof.
  intros. unfold RealSem.ltb. destruct (Rlt_dec x y); [reflexivity|lra].
Qed.
Lemma ltb_false (x y : R) : y <= x -> RealSem.ltb x y = false.
Proof.
  intros. unfold RealSem.ltb. destruct (Rlt_dec x y); [lra|reflexivity].
Qed.

End RealFacts.

Section RectanglePlateau.
Context {F : Type} `{FloatEnv F}.
Local Open Scope fl_scope.

(** [CF] and [SF] (lines 278-297): the cosine and sine of the folded
    angle [FI] between the projection and the rectangle.  They depend on
    the projection angle and on the rotation, not on the detector
    offset. *)
Definition rect_CF_SF (ksi1 ksi00 : F) : F * F :=
  let PI2 := d2f M_PI * f0_5 in
  let ksi := if ksi00 >? d2f M_PI then ksi00 - d2f M_PI else ksi00 in
  let FI :=
    if (ksi - ksi1) <? f0 then d2f M_PI + ksi - ksi1 else ksi - ksi1 in
  let FI := if FI >? PI2 then d2f M_PI - FI else FI in
  (cosf FI, sinf FI).

(** Between the two slopes, [PC < QP] and [QM = QP + PC] not above
    [ywid], the statements of lines 324-330 leave [SS = xwid/CF*C0]. *)
Lemma rect_SS_plateau (xwid ywid C0 x11 y11 ksi1 ksi00 p00 : F) :
  fge (fst (rect_PC_QP xwid ywid x11 y11 ksi1 ksi00 p00))
      (snd (rect_PC_QP xwid ywid x11 y11 ksi1 ksi00 p00)) = false ->
  fgt (snd (rect_PC_QP xwid ywid x11 y11 ksi1 ksi00 p00)
       + fst (rect_PC_QP xwid ywid x11 y11 ksi1 ksi00 p00)) ywid = false ->
  rect_SS xwid ywid C0 x11 y11 ksi1 ksi00 p00
  = xwid / fst (rect_CF_SF ksi1 ksi00) * C0.
Proof.
  unfold rect_SS, rect_PC_QP, rect_CF_SF. cbv zeta.
  destruct (fgt ksi00 (d2f M_PI)); cbn [fst snd]; intros -> ->; reflexivity.
Qed.

End RectanglePlateau.


(** Rotation 0 at projection angle 0 degrees in binary32: both angles
    are 0 in radians, [CF] is 1 and [SF] is 0 exactly, and the operands
    of the edge test are [P0/1],
    [P0 = fabs(p - (-x11*0 + y11*1))], and [ywid*0.5 + xwid*0.5*0]. *)
Lemma rect_axis_binary32 (xwid ywid x11 y11 p00 : spec_float) :
  rect_ksi1 (H := b32) (phi_rot_radian_of (H := b32) (Sample.fl 0))
  = S754_zero false
  /\ fmul (FloatEnv := b32) (Sample.fl 0)
       (fdiv (FloatEnv := b32) (d2f (FloatEnv := b32) (M_PI (H := b32)))
          (f180 (H := b32)))
     = S754_zero false
  /\ rect_CF_SF (H := b32)
    (rect_ksi1 (H := b32) (phi_rot_radian_of (H := b32) (Sample.fl 0)))
    (fmul (FloatEnv := b32) (Sample.fl 0)
       (fdiv (FloatEnv := b32) (d2f (FloatEnv := b32) (M_PI (H := b32)))
          (f180 (H := b32))))
  = (RefLibm.one32, S754_zero false)
  /\ rect_PC_QP (H := b32) xwid ywid x11 y11
       (S754_zero false) (S754_zero false) p00
     = (fdiv (FloatEnv := b32)
          (fabs (FloatEnv := b32)
             (fsub (FloatEnv := b32) p00
                (fadd (FloatEnv := b32)
                   (fmul (FloatEnv := b32) (fneg (FloatEnv := b32) x11)
                      (S754_zero false))
                   (fmul (FloatEnv := b32) y11 RefLibm.one32))))
          RefLibm.one32,
        fadd (FloatEnv := b32)
          (fmul (FloatEnv := b32) ywid (Sample.fl 0.5))
          (fmul (FloatEnv := b32)
             (fmul (FloatEnv := b32) xwid (Sample.fl 0.5))
             (S754_zero false))).
Proof.
  split; [vm_compute; reflexivity|].
  split; [vm_compute; reflexivity|].
  split; [vm_compute; reflexivity|].
  unfold rect_PC_QP. cbv zeta.
  change (fgt (H := b32) (S754_zero false)
            (d2f (FloatEnv := b32) (M_PI (H := b32)))) with false.
  cbv iota.
  reflexivity.
Qed.

Section RectangleFlatTop.
Context {F : Type} `{FloatEnv F}.
Local Open Scope fl_scope.

(** C5, amended.  In every arithmetic, binary32 included: for a
    rectangle, in a slice inside the slab ([fabs(Zdel[k]) < 0.5*c] as
    computed), the kernel adds [(N/2)*SS] to the detector cell, where the
    tests are made on the computed [PC = P0/CF] and
    [QP = ywid*0.5 + xwid*0.5*(SF/CF)], [P0 = fabs(p - XSYC)], with
    [ywid = a] and [xwid = b].  (1) Whenever [PC >= QP], [SS] is [0.0f].
    (2) Whenever [PC < QP] and [QP + PC] is not above [a], [SS] is
    [b/CF*C0]: the same value for every such detector cell of the angle,
    the flat top; its height is [b*C0/CF] scaled by [N/2], not [a*C0].
    (3) With rotation 0 at projection angle 0 degrees binary32 computes
    [CF = 1] and [SF = 0] exactly, so that the plateau is
    [(N/2)*(b/1*C0)] and the edge test compares [P0/1], with
    [P0 = fabs(p - (-x11*0 + y11*1))], against [a*0.5 + b*0.5*0]. *)
Theorem C5_rectangle_flat_top
    (a1 b1 : F) (A : list F) (N P : Z) (Th : list F) (AngTot CenTypeIn : Z)
    (C0 x0 y0 z0 a b c psi_gr1 psi_gr2 psi_gr3 : F) (k i j : nat) :
  k < Z.to_nat N -> i < Z.to_nat AngTot -> j < Z.to_nat P ->
  (fabs (rd (Zdel N z0) k) <? f0_5 * c) = true ->
  (fge (fst (rect_PC_QP b a (rect_x11 CenTypeIn N y0)
               (rect_y11 CenTypeIn N x0)
               (rect_ksi1 (phi_rot_radian_of psi_gr1))
               (rd (AnglesRad Th AngTot) (Z.to_nat AngTot - 1 - i))
               (rd (Sinorange_P_Ar N P) j)))
       (snd (rect_PC_QP b a (rect_x11 CenTypeIn N y0)
               (rect_y11 CenTypeIn N x0)
               (rect_ksi1 (phi_rot_radian_of psi_gr1))
               (rd (AnglesRad Th AngTot) (Z.to_nat AngTot - 1 - i))
               (rd (Sinorange_P_Ar N P) j))) = true ->
   nth_error
     (buf (buildSino3D_core_single a1 b1 A N P Th AngTot CenTypeIn 6
             C0 x0 y0 z0 a b c psi_gr1 psi_gr2 psi_gr3))
     (cell_index P AngTot k i j)
   = option_map (fun v => v + (of_int N / f2) * f0)
       (nth_error A (cell_index P AngTot k i j)))
  /\ (fge (fst (rect_PC_QP b a (rect_x11 CenTypeIn N y0)
                  (rect_y11 CenTypeIn N x0)
                  (rect_ksi1 (phi_rot_radian_of psi_gr1))
                  (rd (AnglesRad Th AngTot) (Z.to_nat AngTot - 1 - i))
                  (rd (Sinorange_P_Ar N P) j)))
          (snd (rect_PC_QP b a (rect_x11 CenTypeIn N y0)
                  (rect_y11 CenTypeIn N x0)
                  (rect_ksi1 (phi_rot_radian_of psi_gr1))
                  (rd (AnglesRad Th AngTot) (Z.to_nat AngTot - 1 - i))
                  (rd (Sinorange_P_Ar N P) j))) = false ->
      fgt (snd (rect_PC_QP b a (rect_x11 CenTypeIn N y0)
                  (rect_y11 CenTypeIn N x0)
                  (rect_ksi1 (phi_rot_radian_of psi_gr1))
                  (rd (AnglesRad Th AngTot) (Z.to_nat AngTot - 1 - i))
                  (rd (Sinorange_P_Ar N P) j))
           + fst (rect_PC_QP b a (rect_x11 CenTypeIn N y0)
                    (rect_y11 CenTypeIn N x0)
                    (rect_ksi1 (phi_rot_radian_of psi_gr1))
                    (rd (AnglesRad Th AngTot) (Z.to_nat AngTot - 1 - i))
                    (rd (Sinorange_P_Ar N P) j))) a = false ->
      nth_error
        (buf (buildSino3D_core_single a1 b1 A N P Th AngTot CenTypeIn 6
                C0 x0 y0 z0 a b c psi_gr1 psi_gr2 psi_gr3))
        (cell_index P AngTot k i j)
      = option_map
          (fun v =>
             v + (of_int N / f2)
                 * (b / fst (rect_CF_SF
                               (rect_ksi1 (phi_rot_radian_of psi_gr1))
                               (rd (AnglesRad Th AngTot)
                                  (Z.to_nat AngTot - 1 - i)))
                    * C0))
          (nth_error A (cell_index P AngTot k i j)))
  /\ (forall xwid ywid x11 y11 p00 : spec_float,
        rect_ksi1 (H := b32) (phi_rot_radian_of (H := b32) (Sample.fl 0))
        = S754_zero false
        /\ fmul (FloatEnv := b32) (Sample.fl 0)
             (fdiv (FloatEnv := b32)
                (d2f (FloatEnv := b32) (M_PI (H := b32)))
                (f180 (H := b32)))
           = S754_zero false
        /\ rect_CF_SF (H := b32)
          (rect_ksi1 (H := b32)
             (phi_rot_radian_of (H := b32) (Sample.fl 0)))
          (fmul (FloatEnv := b32) (Sample.fl 0)
             (fdiv (FloatEnv := b32)
                (d2f (FloatEnv := b32) (M_PI (H := b32)))
                (f180 (H := b32))))
        = (RefLibm.one32, S754_zero false)
        /\ rect_PC_QP (H := b32) xwid ywid x11 y11
             (S754_zero false) (S754_zero false) p00
           = (fdiv (FloatEnv := b32)
                (fabs (FloatEnv := b32)
                   (fsub (FloatEnv := b32) p00
                      (fadd (FloatEnv := b32)
                         (fmul (FloatEnv := b32)
                            (fneg (FloatEnv := b32) x11) (S754_zero false))
                         (fmul (FloatEnv := b32) y11 RefLibm.one32))))
                RefLibm.one32,
              fadd (FloatEnv := b32)
                (fmul (FloatEnv := b32) ywid (Sample.fl 0.5))
                (fmul (FloatEnv := b32)
                   (fmul (FloatEnv := b32) xwid (Sample.fl 0.5))
                   (S754_zero false)))).
Proof.
  intros Hk Hi Hj Hslab.
  pose proof (@core_single_cell F _ a1 b1 N P Th AngTot CenTypeIn 6
                C0 x0 y0 z0 a b c psi_gr1 psi_gr2 psi_gr3 k i j Hk Hi Hj A)
    as Hcell.
  unfold contribution in Hcell. cbv zeta in Hcell.
  simpl Z.eqb in Hcell. cbv iota in Hcell.
  unfold rectangle_contrib in Hcell. rewrite Hslab in Hcell.
  unfold rectangle_2D in Hcell.
  split; [|split].
  - intros Hout. rewrite Hcell, (rect_SS_zero _ _ _ _ _ _ _ _ Hout).
    reflexivity.
  - intros Hin Hflat.
    rewrite Hcell, (rect_SS_plateau _ _ _ _ _ _ _ _ Hin Hflat).
    reflexivity.
  - apply rect_axis_binary32.
Qed.
End RectangleFlatTop.

(** C5 applied in binary32 to the rectangle with [a = 1], [b = 0.25],
    [C0 = 1], rotation 0, seen at 0 degrees, [N = 4], [P = 7]: the
    detector cell at the projected centre, in the slice through the
    rectangle, lies on the plateau. *)
Lemma C5_rectangle_flat_top_witness :
  nth_error
    (buf (buildSino3D_core_single (H := b32) RefLibm.one32 RefLibm.one32
            (Sample.zeros 28) 4 7 [Sample.fl 0] 1 1 6
            (Sample.fl 1) (Sample.fl (-0.125)) (Sample.fl 0) (Sample.fl 0)
            (Sample.fl 1) (Sample.fl 0.25) (Sample.fl 1)
            (Sample.fl 0) (Sample.fl 0) (Sample.fl 0)))
    (cell_index 7 1 2 0 3)
  = option_map
      (fun v =>
         fadd (FloatEnv := b32) v
           (fmul (FloatEnv := b32)
              (fdiv (FloatEnv := b32) (of_int (FloatEnv := b32) 4)
                 (f2 (H := b32)))
              (fmul (FloatEnv := b32)
                 (fdiv (FloatEnv := b32) (Sample.fl 0.25)
                    (fst (rect_CF_SF (H := b32)
                            (rect_ksi1 (H := b32)
                               (phi_rot_radian_of (H := b32) (Sample.fl 0)))
                            (rd (H := b32)
                               (AnglesRad (H := b32) [Sample.fl 0] 1)
                               (Z.to_nat 1 - 1 - 0)))))
                 (Sample.fl 1))))
      (nth_error (Sample.zeros 28) (cell_index 7 1 2 0 3)).
Proof.
  refine (proj1 (proj2 (@C5_rectangle_flat_top _ b32
            RefLibm.one32 RefLibm.one32 (Sample.zeros 28) 4 7 [Sample.fl 0]
            1 1 (Sample.fl 1) (Sample.fl (-0.125)) (Sample.fl 0)
            (Sample.fl 0) (Sample.fl 1) (Sample.fl 0.25) (Sample.fl 1)
            (Sample.fl 0) (Sample.fl 0) (Sample.fl 0) 2 0 3 _ _ _ _)) _ _).
  - simpl; lia.
  - simpl; lia.
  - simpl; lia.
  - vm_compute. reflexivity.
  - vm_compute. reflexivity.
  - vm_compute. reflexivity.
Defined.

Module SampleRectangle.
Import Sample.

(** A rectangle with [a = 1], [b = 0.25], intensity 1 and thickness 1,
    rotation 0, placed so that its projected centre [y11] is the detector
    offset 0. *)
Definition slab : component spec_float :=
  Component 6 (fl 1) (fl 0) (fl (-0.125)) (fl 0)
    (fl 1) (fl 0.25) (fl 1) (fl 0) (fl 0) (fl 0).

(** [N = 4], [P = 7], one projection angle of 0 degrees, "astra"
    centring, a zeroed buffer of [4*1*7] cells. *)
Definition run (cms : list (component spec_float)) : outcome spec_float :=
  @buildSino3D_core _ b32 parameters_check3D stack_ones
    (zeros 28) 4 7 [fl 0] 1 1 cms.

(** The detector offset of cell 2, 0.46666667. *)
Definition p2 : spec_float := S754_finite false 15658734 (-25).
End SampleRectangle.

(** C5 as stated fails.  For the rectangle with [a = 1], [b = 0.25] and
    [C0 = 1], [N = 4], in the slice through the rectangle, the detector cell
    at the projected centre and the cell at offset 0.4667 both receive 0.5,
    that is [(N/2) * b * C0]: this is neither [a * C0 = 1] nor
    [b * C0 = 0.25], and the second cell is farther than [b/2] from the
    centre and is not zero. *)
Lemma C5_plateau_is_not_width_times_intensity :
  rd (H := b32) (Sinorange_P_Ar (H := b32) 4 7) 2 = SampleRectangle.p2
  /\ rd (H := b32) (Sinorange_P_Ar (H := b32) 4 7) 3 = Sample.fl 0
  /\ rect_y11 (H := b32) 1 4 (Sample.fl (-0.125)) = Sample.fl 0
  /\ flt (FloatEnv := b32) (Sample.fl 0.125) SampleRectangle.p2 = true
  /\ flt (FloatEnv := b32) SampleRectangle.p2 (Sample.fl 0.5) = true
  /\ nth_error (buf (SampleRectangle.run [SampleRectangle.slab]))
       (cell_index 7 1 2 0 2) = Some (Sample.fl 0.5)
  /\ nth_error (buf (SampleRectangle.run [SampleRectangle.slab]))
       (cell_index 7 1 2 0 3) = Some (Sample.fl 0.5)
  /\ fmul (FloatEnv := b32) (Sample.fl 1) (Sample.fl 1) = Sample.fl 1
  /\ fmul (FloatEnv := b32) (Sample.fl 0.25) (Sample.fl 1) = Sample.fl 0.25
  /\ Sample.fl 0.5 <> Sample.fl 1
  /\ Sample.fl 0.5 <> Sample.fl 0.25
  /\ Sample.fl 0.5 <> Sample.fl 0.
Proof.
  repeat split; try (vm_compute; reflexivity); vm_compute; discriminate.
Qed.

(** The edge is decided on the rounded offset.  For the rectangle with
    [a = 15658734 * 2^-24], [b = 0.25] and [x0 = -(0.125 - 2^-27)],
    [N = 4], [P = 7], the projected centre is [y11 = 2^-26] and the
    detector cell 2 lies at [p = a/2]: the exact distance [p - y11],
    formed here in binary64 without rounding, is below [a/2], binary32
    rounds it to [a/2], and the cell receives 0. *)
Lemma C5_edge_is_tested_on_the_rounded_offset :
  rd (H := b32) (Sinorange_P_Ar (H := b32) 4 7) 2
  = S754_finite false 15658734 (-25)
  /\ rect_y11 (H := b32) 1 4 (S754_finite true 16777215 (-27))
     = S754_finite false 8388608 (-49)
  /\ B32.ltb
       (SFabs (SFsub B32.prec64 B32.emax64
                 (S754_finite false 15658734 (-25))
                 (S754_finite false 8388608 (-49))))
       (S754_finite false 15658734 (-25)) = true
  /\ fabs (FloatEnv := b32)
       (fsub (FloatEnv := b32) (S754_finite false 15658734 (-25))
          (S754_finite false 8388608 (-49)))
     = S754_finite false 15658734 (-25)
  /\ nth_error
       (buf (buildSino3D_core_single (H := b32) RefLibm.one32 RefLibm.one32
               (Sample.zeros 28) 4 7 [Sample.fl 0] 1 1 6
               (Sample.fl 1) (S754_finite true 16777215 (-27)) (Sample.fl 0)
               (Sample.fl 0) (S754_finite false 15658734 (-24))
               (Sample.fl 0.25) (Sample.fl 1)
               (Sample.fl 0) (Sample.fl 0) (Sample.fl 0)))
       (cell_index 7 1 2 0 2) = Some (Sample.fl 0)
  /\ nth_error
       (buf (buildSino3D_core_single (H := b32) RefLibm.one32 RefLibm.one32
               (Sample.zeros 28) 4 7 [Sample.fl 0] 1 1 6
               (Sample.fl 1) (S754_finite true 16777215 (-27)) (Sample.fl 0)
               (Sample.fl 0) (S754_finite false 15658734 (-24))
               (Sample.fl 0.25) (Sample.fl 1)
               (Sample.fl 0) (Sample.fl 0) (Sample.fl 0)))
       (cell_index 7 1 2 0 3) = Some (Sample.fl 0.5).
Proof. repeat split; vm_compute; reflexivity. Qed.

(* ================================================================== *)
(** * C6: the cone near its edge, in binary32                           *)
(* ================================================================== *)

Section ConeLocals.
Context {F : Type} `{FloatEnv F}.
Local Open Scope fl_scope.

(** [pps2] after lines 226-231 and [ty1] of line 233. *)
Definition cone_pps2 (AA6 : F) : F :=
  if AA6 <? f1 then
    if AA6 <? dsub f1 EPS then sqrtf (fabs (f1 - AA6)) else f0
  else f0.
Definition cone_ty1 (AA6 : F) : F :=
  (f1 + cone_pps2 AA6) / (f1 - cone_pps2 AA6).
End ConeLocals.

Module ConeEdge.
Import B32.

(** The three normalised squared distances, as binary32 numbers:
    [1 - 1e-7] is [1 - 2^-23] and [1 - 1e-12] is [1.0f]. *)
Definition d_centre : spec_float := Sample.fl 0.
Definition d_near : spec_float := Sample.fl (1 - 1e-7).
Definition d_edge : spec_float := Sample.fl (1 - 1e-12).

(** [ty1] at [d_near], and the binary32 numbers within 16 units in the
    last place of its logarithm, 0.00069057936. *)
Definition ty1_near : spec_float := S754_finite false 8394403 (-23).
Definition log_near (n : Z) : spec_float :=
  S754_finite false (Z.to_pos (11864063 + n)) (-34).

(** A libm whose [logf] is constant. *)
Definition const_log (v : spec_float) : libm :=
  Libm RefLibm.ref_sinf RefLibm.ref_cosf (fun _ => v)
    RefLibm.ref_expf RefLibm.ref_powf.

(** The cone's cell value depends on the libm through one call of
    [logf]. *)
Lemma cone_value_logf_only (L L' : libm) (first_dr AA6 : spec_float) :
  l_logf L (cone_ty1 (H := env L) AA6)
  = l_logf L' (cone_ty1 (H := env L) AA6) ->
  cone_value (H := env L) first_dr AA6
  = cone_value (H := env L') first_dr AA6.
Proof.
  intros E. unfold cone_value, cone_ty1, cone_pps2 in *.
  unfold fgt, fne, f0, f1, f0_5, EPS in *.
  cbn [fadd fsub fmul fdiv dsub flt fle feq flit dlit fabs sqrtf logf env]
    in *.
  rewrite E. reflexivity.
Qed.

Lemma ty1_at_near (L : libm) : cone_ty1 (H := env L) d_near = ty1_near.
Proof. vm_compute. reflexivity. Qed.

Lemma ty1_at_edge (L : libm) : cone_ty1 (H := env L) d_edge = RefLibm.one32.
Proof. vm_compute. reflexivity. Qed.

Definition offsets : list Z := map (fun k => (Z.of_nat k - 16)%Z) (seq 0 33).

Lemma offsets_complete (n : Z) : (-16 <= n <= 16)%Z -> In n offsets.
Proof.
  intros Hn. unfold offsets. apply in_map_iff.
  exists (Z.to_nat (n + 16)). split; [lia|]. apply in_seq. lia.
Qed.

Lemma negative_for_all_offsets :
  forallb (fun n =>
             ltb (cone_value (H := env (const_log (log_near n)))
                    RefLibm.one32 d_near)
                 (S754_zero false))
          offsets = true.
Proof. vm_compute. reflexivity. Qed.
End ConeEdge.

(** C6 fails on the code.  In binary32, for every libm whose [logf] is
    within 16 units in the last place at the one argument the cone passes
    to it and has [logf(1) = 0], the cone's cell value for [first_dr = 1] is
    1 at [d^2 = 0], negative at [d^2 = 1 - 1e-7] and 0 at [d^2 = 1 - 1e-12]:
    it rises between the second and the third point. *)
Theorem C6_cone_edge_rises (L : B32.libm) (n : Z) :
  (-16 <= n <= 16)%Z ->
  B32.l_logf L ConeEdge.ty1_near = ConeEdge.log_near n ->
  B32.l_logf L RefLibm.one32 = S754_zero false ->
  cone_value (H := B32.env L) RefLibm.one32 ConeEdge.d_centre = RefLibm.one32
  /\ flt (FloatEnv := B32.env L)
       (cone_value (H := B32.env L) RefLibm.one32 ConeEdge.d_near)
       (S754_zero false) = true
  /\ cone_value (H := B32.env L) RefLibm.one32 ConeEdge.d_edge
     = S754_zero false
  /\ flt (FloatEnv := B32.env L)
       (cone_value (H := B32.env L) RefLibm.one32 ConeEdge.d_near)
       (cone_value (H := B32.env L) RefLibm.one32 ConeEdge.d_edge) = true.
Proof.
  intros Hn Hlog Hlog1.
  assert (Hnear : flt (FloatEnv := B32.env L)
                    (cone_value (H := B32.env L) RefLibm.one32 ConeEdge.d_near)
                    (S754_zero false) = true).
  { rewrite (@ConeEdge.cone_value_logf_only L
               (ConeEdge.const_log (ConeEdge.log_near n))).
    - pose proof ConeEdge.negative_for_all_offsets as Hall.
      rewrite forallb_forall in Hall.
      apply (Hall n), ConeEdge.offsets_complete, Hn.
    - rewrite ConeEdge.ty1_at_near. exact Hlog. }
  assert (Hedge : cone_value (H := B32.env L) RefLibm.one32 ConeEdge.d_edge
                  = S754_zero false).
  { rewrite (@ConeEdge.cone_value_logf_only L
               (ConeEdge.const_log (S754_zero false))).
    - vm_compute. reflexivity.
    - rewrite ConeEdge.ty1_at_edge. exact Hlog1. }
  split; [vm_compute; reflexivity|].
  split; [exact Hnear|]. split; [exact Hedge|].
  rewrite Hedge. exact Hnear.
Qed.

(** The reference libm is one such libm. *)
Lemma C6_cone_edge_rises_witness :
  flt (FloatEnv := b32)
    (cone_value (H := b32) RefLibm.one32 ConeEdge.d_near)
    (cone_value (H := b32) RefLibm.one32 ConeEdge.d_edge) = true.
Proof.
  refine (proj2 (proj2 (proj2
            (@C6_cone_edge_rises RefLibm.ref_libm 0 _ _ _)))).
  - lia.
  - vm_compute. reflexivity.
  - vm_compute. reflexivity.
Defined.

Module SampleCone.
Import Sample.

(** The line "Object : 5 1.0 -0.5 -0.5 0.0 1.0000001 1.0 0.5 0 0 0": a
    cone whose [a] is the binary32 successor of 1. *)
Definition cone : component spec_float :=
  Component 5 (fl 1) (fl (-0.5)) (fl (-0.5)) (fl 0)
    (fl 1.0000001) (fl 1) (fl 0.5) (fl 0) (fl 0) (fl 0).
End SampleCone.

(** The same in a run of the kernel ([N = 2], [P = 3], angle 0): in slice 1
    the detector cell at offset 1 has [AA6 = 1 - 2^-23] and receives
    -12763135 * 2^-49, about -2.27e-8, while the centre cell receives
    0.99999994. *)
Lemma C6_cone_cell_is_negative :
  AA6_at (H := b32) 2 3 1 [Sample.fl 0] (Sample.fl 0) (Sample.fl 0)
    (Sample.fl 0) (Sample.fl 1.0000001) (Sample.fl 1) 0 0 = ConeEdge.d_near
  /\ nth_error (buf (SampleModels.run [SampleCone.cone]))
       (cell_index 3 1 1 0 0) = Some (S754_finite true 12763135 (-49))
  /\ nth_error (buf (SampleModels.run [SampleCone.cone]))
       (cell_index 3 1 1 0 1) = Some (S754_finite false 16777215 (-24))
  /\ flt (FloatEnv := b32) (S754_finite true 12763135 (-49))
       (S754_zero false) = true.
Proof. repeat split; vm_compute; reflexivity. Qed.

(* ================================================================== *)
(** * C7: the three grid arrays                                         *)
(* ================================================================== *)

Section GridLengths.
Context {F : Type} `{FloatEnv F}.

End GridLengths.

Module GridB32.
(** The sizes [lo .. hi], for the checks in binary32. *)
Definition sizes (lo hi : Z) : list Z :=
  map Z.of_nat (seq (Z.to_nat lo) (Z.to_nat (hi - lo + 1))).




(** The two arrays with [Pmax], [H_p] and [H_x] evaluated once. *)
Definition offsets (N P : Z) : list spec_float :=
  let pmax := Sinorange_Pmax (H := b32) N P in
  let hp := H_p (H := b32) N P in
  tabulate (Z.to_nat P)
    (fun i => fsub (FloatEnv := b32) pmax
                (fmul (FloatEnv := b32)
                   (of_int (FloatEnv := b32) (Z.of_nat i)) hp)).










End GridB32.

Section GridArrays.
Context {F : Type} `{FloatEnv F}.
Local Open Scope fl_scope.


End GridArrays.



(* ================================================================== *)
(** * C8: the centring convention                                       *)
(* ================================================================== *)

Module CentringB32.
(** The sizes up to 4096, for the check in binary32. *)
Definition sizes : list Z := map Z.of_nat (seq 1 (Z.to_nat 4096)).

Lemma sizes_complete (N : Z) : (1 <= N <= 4096)%Z -> In N sizes.
Proof.
  intros HN. unfold sizes. apply in_map_iff.
  exists (Z.to_nat N). split; [lia|]. apply in_seq. lia.
Qed.

Lemma steps_differ :
  forallb (fun N => negb (feq (FloatEnv := b32) (H_x (H := b32) N)
                            (fmul (FloatEnv := b32) (f0_5 (H := b32)) (H_x (H := b32) N))))
          sizes = true.
Proof. vm_compute. reflexivity. Qed.
End CentringB32.

Section Centring.
Context {F : Type} `{FloatEnv F}.
Local Open Scope fl_scope.

Lemma core_single_same_centres
    (a1 b1 : F) (A : list F) (N P : Z) (Th : list F) (AngTot Object : Z)
    (C0 z0 a b c p1 p2 p3 : F) (t t' : Z) (x0 y0 x0' y0' : F) :
  (Object <> 6%Z ->
     centre00 t N x0 = centre00 t' N x0'
     /\ centre00 t N y0 = centre00 t' N y0') ->
  (Object = 6%Z ->
     rect_x11 t N y0 = rect_x11 t' N y0'
     /\ rect_y11 t N x0 = rect_y11 t' N x0') ->
  buildSino3D_core_single a1 b1 A N P Th AngTot t Object
    C0 x0 y0 z0 a b c p1 p2 p3
  = buildSino3D_core_single a1 b1 A N P Th AngTot t' Object
      C0 x0' y0' z0 a b c p1 p2 p3.
Proof.
  intros Hother Hrect. unfold buildSino3D_core_single. cbv zeta.
  destruct (Z.eq_dec Object 6) as [->|Hne].
  - simpl Z.eqb. cbv iota. unfold kernel_rectangle. cbv zeta.
    destruct (Hrect eq_refl) as [-> ->]. reflexivity.
  - destruct (Hother Hne) as [-> ->].
    apply Z.eqb_neq in Hne. rewrite Hne. reflexivity.
Qed.
End Centring.

(** C8.  The grid arrays are functions of [N], [P] and the angles alone.
    A call depends on the centring convention only through the shifted
    centre: [x0 + H_x] and [y0 + H_x] for "radon" ([CenTypeIn = 0]),
    [x0 + 0.5*H_x] and [y0 + 0.5*H_x] for "astra" (any other value), and for
    the rectangle [-2*y0 - H_x], [2*x0 + H_x] against [-2*y0 - 0.5*H_x],
    [2*x0 + 0.5*H_x]; two calls whose shifted centres agree return the same
    result.  The full step and the half step differ: over the reals for
    every [N > 0], and in binary32 for every [N] from 1 to 4096. *)
Theorem C8_centring_moves_the_centre_only :
  (forall (F : Type) (H : FloatEnv F)
          (a1 b1 : F) (A : list F) (N P : Z) (Th : list F) (AngTot Object : Z)
          (C0 z0 a b c p1 p2 p3 : F) (t t' : Z) (x0 y0 x0' y0' : F),
     (Object <> 6%Z ->
        centre00 t N x0 = centre00 t' N x0'
        /\ centre00 t N y0 = centre00 t' N y0') ->
     (Object = 6%Z ->
        rect_x11 t N y0 = rect_x11 t' N y0'
        /\ rect_y11 t N x0 = rect_y11 t' N x0') ->
     buildSino3D_core_single a1 b1 A N P Th AngTot t Object
       C0 x0 y0 z0 a b c p1 p2 p3
     = buildSino3D_core_single a1 b1 A N P Th AngTot t' Object
         C0 x0' y0' z0 a b c p1 p2 p3)
  /\ (forall (F : Type) (H : FloatEnv F) (N t : Z) (x0 : F),
        centre00 0 N x0 = fadd x0 (H_x N)
        /\ (t <> 0%Z -> centre00 t N x0 = fadd x0 (fmul f0_5 (H_x N)))
        /\ rect_x11 0 N x0 = fsub (fmul (fneg f2) x0) (H_x N)
        /\ rect_y11 0 N x0 = fadd (fmul f2 x0) (H_x N)
        /\ (t <> 0%Z ->
            rect_x11 t N x0 = fsub (fmul (fneg f2) x0) (fmul f0_5 (H_x N))
            /\ rect_y11 t N x0 = fadd (fmul f2 x0) (fmul f0_5 (H_x N))))
  /\ (forall (N : Z) (x0 : R),
        (0 < N)%Z ->
        H_x (H := RealSem.env) N <> (/ 2 * H_x (H := RealSem.env) N)%R
        /\ centre00 (H := RealSem.env) 0 N x0
           <> centre00 (H := RealSem.env) 1 N x0)
  /\ (forall N : Z,
        (1 <= N <= 4096)%Z ->
        feq (FloatEnv := b32) (H_x (H := b32) N)
          (fmul (FloatEnv := b32) (f0_5 (H := b32)) (H_x (H := b32) N)) = false).
Proof.
  split; [|split; [|split]].
  - intros. apply core_single_same_centres; assumption.
  - intros F H N t x0. unfold centre00, rect_x11, rect_y11.
    change (0 =? 0)%Z with true. cbv iota.
    split; [reflexivity|]. split.
    { intros Ht. apply Z.eqb_neq in Ht. rewrite Ht. reflexivity. }
    split; [reflexivity|]. split; [reflexivity|].
    intros Ht. apply Z.eqb_neq in Ht. rewrite Ht. split; reflexivity.
  - intros N x0 HN.
    assert (HN0 : (0 < IZR N)%R) by (apply IZR_lt; lia).
    assert (Hx : H_x (H := RealSem.env) N = (2 / IZR N)%R).
    { unfold H_x, Tomorange_Xmin, Tomorange_Xmax, f1.
      cbn [fsub fdiv fneg of_int flit RealSem.env].
      rewrite RealFacts.Q2R_1. unfold Rdiv. ring. }
    assert (Hpos : (0 < 2 / IZR N)%R) by (apply Rdiv_lt_0_compat; lra).
    split.
    + rewrite Hx. lra.
    + unfold centre00, f0_5.
      change (0 =? 0)%Z with true. change (1 =? 0)%Z with false. cbv iota.
      cbn [fadd fmul flit RealSem.env]. rewrite Hx, RealFacts.Q2R_half. lra.
  - intros N HN.
    pose proof CentringB32.steps_differ as Hall.
    rewrite forallb_forall in Hall.
    apply negb_true_iff, (Hall N), CentringB32.sizes_complete, HN.
Qed.

(** C8 applied to the sample disk: "radon" centring with centre (0, 0) and
    "astra" centring with centre (0.5, 0.5) shift the centre to (1, 1) for
    [N = 2], and give the same result. *)
Lemma C8_centring_moves_the_centre_only_witness :
  buildSino3D_core_single (H := b32) RefLibm.one32 RefLibm.one32
    (Sample.zeros 6) 2 3 [Sample.fl 0] 1 0 3
    (Sample.fl 1) (Sample.fl 0) (Sample.fl 0) (Sample.fl (-0.5))
    (Sample.fl 0.5) (Sample.fl 0.5) (Sample.fl 1)
    (Sample.fl 0) (Sample.fl 0) (Sample.fl 0)
  = buildSino3D_core_single (H := b32) RefLibm.one32 RefLibm.one32
      (Sample.zeros 6) 2 3 [Sample.fl 0] 1 1 3
      (Sample.fl 1) (Sample.fl 0.5) (Sample.fl 0.5) (Sample.fl (-0.5))
      (Sample.fl 0.5) (Sample.fl 0.5) (Sample.fl 1)
      (Sample.fl 0) (Sample.fl 0) (Sample.fl 0).
Proof.
  apply (proj1 C8_centring_moves_the_centre_only).
  - intros _. split; vm_compute; reflexivity.
  - intros HO. discriminate HO.
Defined.

(* ================================================================== *)
(** * C9: what the result is a function of                              *)
(* ================================================================== *)

Module SampleGaussian.
Import Sample.

(** The blob "Object : 1 1.0 -0.5 -0.5 0.0 0.5 0.5 1.0 0 0 0" with
    [N = 2], [P = 3], one angle of 0 degrees and a zeroed buffer, run with
    the given contents of the two uninitialised locals. *)
Definition run (a1 b1 : spec_float) : list spec_float :=
  buf (buildSino3D_core_single (H := b32) a1 b1 (zeros 6) 2 3 [fl 0] 1 1 1
         (fl 1) (fl (-0.5)) (fl (-0.5)) (fl 0) (fl 0.5) (fl 0.5) (fl 1)
         (fl 0) (fl 0) (fl 0)).
End SampleGaussian.

(** C9 fails on the code for Object 1.  (1) For every other shape tag the
    result of a call is a function of the arguments: it does not depend on
    what the uninitialised locals [a1], [b1] hold.  (2) The blob kernel
    never reads the extents [a] and [b].  (3) It reads [a1] and [b1]
    instead: the same blob on the same zeroed buffer gives 1.0645 in the
    centre cell when both hold 1.0f, and twice that when both hold 4.0f. *)
Theorem C9_gaussian_reads_uninitialised_locals :
  (forall (F : Type) (H : FloatEnv F) (a1 b1 a1' b1' : F) (A : list F)
          (N P : Z) (Th : list F) (AngTot CenTypeIn Object : Z)
          (C0 x0 y0 z0 a b c p1 p2 p3 : F),
     Object <> 1%Z ->
     buildSino3D_core_single a1 b1 A N P Th AngTot CenTypeIn Object
       C0 x0 y0 z0 a b c p1 p2 p3
     = buildSino3D_core_single a1' b1' A N P Th AngTot CenTypeIn Object
         C0 x0 y0 z0 a b c p1 p2 p3)
  /\ (forall (F : Type) (H : FloatEnv F) (a1 b1 : F) (A : list F)
             (N P : Z) (Th : list F) (AngTot CenTypeIn : Z)
             (C0 x0 y0 z0 a b a' b' c p1 p2 p3 : F),
        buildSino3D_core_single a1 b1 A N P Th AngTot CenTypeIn 1
          C0 x0 y0 z0 a b c p1 p2 p3
        = buildSino3D_core_single a1 b1 A N P Th AngTot CenTypeIn 1
            C0 x0 y0 z0 a' b' c p1 p2 p3)
  /\ nth_error (SampleGaussian.run (Sample.fl 1) (Sample.fl 1)) 1
     = Some (S754_finite false 8929396 (-23))
  /\ nth_error (SampleGaussian.run (Sample.fl 4) (Sample.fl 4)) 1
     = Some (S754_finite false 8929396 (-22))
  /\ SampleGaussian.run (Sample.fl 1) (Sample.fl 1)
     <> SampleGaussian.run (Sample.fl 4) (Sample.fl 4).
Proof.
  split; [|split; [|split; [|split]]].
  - intros F H a1 b1 a1' b1' A N P Th AngTot CenTypeIn Object
      C0 x0 y0 z0 a b c p1 p2 p3 HO.
    unfold buildSino3D_core_single. cbv zeta.
    apply Z.eqb_neq in HO. rewrite HO. reflexivity.
  - intros. reflexivity.
  - vm_compute. reflexivity.
  - vm_compute. reflexivity.
  - vm_compute. discriminate.
Qed.

(** Part (1) applied to the sample disk. *)
Lemma C9_gaussian_reads_uninitialised_locals_witness :
  buildSino3D_core_single (H := b32) (Sample.fl 1) (Sample.fl 1)
    (Sample.zeros 6) 2 3 [Sample.fl 0] 1 1 3
    (Sample.fl 1) (Sample.fl (-0.5)) (Sample.fl (-0.5)) (Sample.fl (-0.5))
    (Sample.fl 0.5) (Sample.fl 0.5) (Sample.fl 1)
    (Sample.fl 0) (Sample.fl 0) (Sample.fl 0)
  = buildSino3D_core_single (H := b32) (Sample.fl 4) (Sample.fl 4)
      (Sample.zeros 6) 2 3 [Sample.fl 0] 1 1 3
      (Sample.fl 1) (Sample.fl (-0.5)) (Sample.fl (-0.5)) (Sample.fl (-0.5))
      (Sample.fl 0.5) (Sample.fl 0.5) (Sample.fl 1)
      (Sample.fl 0) (Sample.fl 0) (Sample.fl 0).
Proof.
  apply (proj1 C9_gaussian_reads_uninitialised_locals). discriminate.
Defined.

(* ================================================================== *)
(** * C10: which input angle an output angle index uses                 *)
(* ================================================================== *)

Section AngleOrder.
Context {F : Type} `{FloatEnv F}.
Local Open Scope fl_scope.

Lemma AnglesRad_rd (Th : list F) (AngTot : Z) (i : nat) :
  i < Z.to_nat AngTot ->
  rd (AnglesRad Th AngTot) i = rd Th i * (d2f M_PI / f180).
Proof.
  intros Hi. unfold rd at 1, AnglesRad. rewrite nth_tabulate by exact Hi.
  reflexivity.
Qed.

(** What a call leaves in a cell depends on the angle list through one
    entry only: [Th[AngTot-1-i]] for the rectangle, [Th[i]] for every
    other shape. *)
Lemma contribution_angle (a1 b1 : F) (N P : Z) (Th Th' : list F)
    (AngTot CenTypeIn Object : Z) (C0 x0 y0 z0 a b c psi_gr1 : F)
    (k i j : nat) :
  i < Z.to_nat AngTot ->
  rd Th (if (Object =? 6)%Z then Z.to_nat AngTot - 1 - i else i)
  = rd Th' (if (Object =? 6)%Z then Z.to_nat AngTot - 1 - i else i) ->
  contribution a1 b1 N P Th AngTot CenTypeIn Object
    C0 x0 y0 z0 a b c psi_gr1 k i j
  = contribution a1 b1 N P Th' AngTot CenTypeIn Object
      C0 x0 y0 z0 a b c psi_gr1 k i j.
Proof.
  intros Hi.
  assert (Hrev : Z.to_nat AngTot - 1 - i < Z.to_nat AngTot) by lia.
  unfold contribution. cbv zeta.
  destruct (Z.eqb_spec Object 6) as [->|HO]; intros E.
  - simpl Z.eqb. cbv iota. unfold rectangle_contrib.
    rewrite (@AnglesRad_rd Th AngTot _ Hrev),
      (@AnglesRad_rd Th' AngTot _ Hrev), E.
    reflexivity.
  - unfold gaussian_contrib, parabola_contrib, disk_contrib,
      parabola1_contrib, cone_contrib, gaussian_2D, parabola_2D, disk_2D,
      parabola1_2D, cone_2D, AA6_at, AA3_at, AA2_at, delta1_at, sin_2_at,
      cos_2_at.
    rewrite !(@AnglesRad_rd Th AngTot _ Hi), !(@AnglesRad_rd Th' AngTot _ Hi),
      E.
    reflexivity.
Qed.

(** C10.  After a call for the rectangle, a cell of output angle index
    [i] in a slice inside the slab holds its earlier value plus
    [(N/2)*SS], where [SS] is the value of the detector-loop body at the
    angle [Th[AngTot-1-i]], converted to radians; a cell outside the slab
    is unchanged.  So for the rectangle the cell depends on the angle
    list through the entry [AngTot-1-i] only, whereas for every other
    shape it depends on it through the entry [i] only. *)
Theorem C10_rectangle_reverses_the_angles
    (a1 b1 : F) (A : list F) (N P : Z) (Th Th' : list F)
    (AngTot CenTypeIn Object : Z)
    (C0 x0 y0 z0 a b c psi_gr1 psi_gr2 psi_gr3 : F) (k i j : nat) :
  k < Z.to_nat N -> i < Z.to_nat AngTot -> j < Z.to_nat P ->
  (Object = 6%Z ->
     nth_error
       (buf (buildSino3D_core_single a1 b1 A N P Th AngTot CenTypeIn Object
               C0 x0 y0 z0 a b c psi_gr1 psi_gr2 psi_gr3))
       (cell_index P AngTot k i j)
     = option_map
         (fun v =>
            if fabs (rd (Zdel N z0) k) <? f0_5 * c
            then v + (of_int N / f2)
                     * rect_SS b a C0 (rect_x11 CenTypeIn N y0)
                         (rect_y11 CenTypeIn N x0)
                         (rect_ksi1 (phi_rot_radian_of psi_gr1))
                         (rd Th (Z.to_nat AngTot - 1 - i)
                          * (d2f M_PI / f180))
                         (rd (Sinorange_P_Ar N P) j)
            else v)
         (nth_error A (cell_index P AngTot k i j)))
  /\ (Object = 6%Z ->
      rd Th (Z.to_nat AngTot - 1 - i) = rd Th' (Z.to_nat AngTot - 1 - i) ->
      nth_error
        (buf (buildSino3D_core_single a1 b1 A N P Th AngTot CenTypeIn Object
                C0 x0 y0 z0 a b c psi_gr1 psi_gr2 psi_gr3))
        (cell_index P AngTot k i j)
      = nth_error
          (buf (buildSino3D_core_single a1 b1 A N P Th' AngTot CenTypeIn
                  Object C0 x0 y0 z0 a b c psi_gr1 psi_gr2 psi_gr3))
          (cell_index P AngTot k i j))
  /\ (Object <> 6%Z ->
      rd Th i = rd Th' i ->
      nth_error
        (buf (buildSino3D_core_single a1 b1 A N P Th AngTot CenTypeIn Object
                C0 x0 y0 z0 a b c psi_gr1 psi_gr2 psi_gr3))
        (cell_index P AngTot k i j)
      = nth_error
          (buf (buildSino3D_core_single a1 b1 A N P Th' AngTot CenTypeIn
                  Object C0 x0 y0 z0 a b c psi_gr1 psi_gr2 psi_gr3))
          (cell_index P AngTot k i j)).
Proof.
  intros Hk Hi Hj.
  assert (Hrev : Z.to_nat AngTot - 1 - i < Z.to_nat AngTot) by lia.
  assert (Hcell : forall T,
            nth_error
              (buf (buildSino3D_core_single a1 b1 A N P T AngTot CenTypeIn
                      Object C0 x0 y0 z0 a b c psi_gr1 psi_gr2 psi_gr3))
              (cell_index P AngTot k i j)
            = option_map
                (add_opt (contribution a1 b1 N P T AngTot CenTypeIn Object
                            C0 x0 y0 z0 a b c psi_gr1 k i j))
                (nth_error A (cell_index P AngTot k i j))).
  { intros T.
    apply (@core_single_cell F _ a1 b1 N P T AngTot CenTypeIn Object
             C0 x0 y0 z0 a b c psi_gr1 psi_gr2 psi_gr3 k i j Hk Hi Hj A). }
  split; [|split].
  - intros ->. rewrite Hcell. unfold contribution. cbv zeta.
    simpl Z.eqb. cbv iota. unfold rectangle_contrib, rectangle_2D.
    rewrite (@AnglesRad_rd Th AngTot _ Hrev).
    destruct (fabs (rd (Zdel N z0) k) <? f0_5 * c);
      destruct (nth_error A _); reflexivity.
  - intros HO E. rewrite !Hcell.
    rewrite (@contribution_angle a1 b1 N P Th Th' AngTot CenTypeIn Object
               C0 x0 y0 z0 a b c psi_gr1 k i j Hi); [reflexivity|].
    rewrite HO. simpl Z.eqb. cbv iota. exact E.
  - intros HO E. rewrite !Hcell.
    rewrite (@contribution_angle a1 b1 N P Th Th' AngTot CenTypeIn Object
               C0 x0 y0 z0 a b c psi_gr1 k i j Hi); [reflexivity|].
    apply Z.eqb_neq in HO. rewrite HO. exact E.
Qed.
End AngleOrder.

Module SampleAngles.
Import Sample.
(** A rectangle with [a = 1], [b = 0.25] and a disk with semi-axes 0.5
    and 0.25, both through slice 2 of [N = 4]; [P = 7], two angles,
    "astra" centring, a zeroed buffer of [4*2*7] cells. *)
Definition run (Th : list spec_float) (Object : Z) : list spec_float :=
  buf (buildSino3D_core_single (H := b32) RefLibm.one32 RefLibm.one32
         (zeros 56) 4 7 Th 2 1 Object
         (fl 1) (fl (-0.125)) (fl 0) (fl 0)
         (fl 1) (fl 0.25) (fl 1) (fl 0) (fl 0) (fl 0)).
End SampleAngles.

(** C10 applied in binary32 to the angle lists [0; 90] and [45; 90],
    which agree at index 1 only: the rectangle's cell of output angle 0
    is the same for both.  The reversal can be seen in the buffer: with
    the list [0; 90] the rectangle's row 0 is the row that the list
    [90; 90] gives and not the one that [0; 0] gives, while for the disk
    it is the other way round. *)
Lemma C10_rectangle_reverses_the_angles_witness :
  nth_error (SampleAngles.run [Sample.fl 0; Sample.fl 90] 6)
    (cell_index 7 2 2 0 3)
  = nth_error (SampleAngles.run [Sample.fl 45; Sample.fl 90] 6)
      (cell_index 7 2 2 0 3)
  /\ nth_error (SampleAngles.run [Sample.fl 0; Sample.fl 90] 6)
       (cell_index 7 2 2 0 3)
     = nth_error (SampleAngles.run [Sample.fl 90; Sample.fl 90] 6)
         (cell_index 7 2 2 0 3)
  /\ nth_error (SampleAngles.run [Sample.fl 0; Sample.fl 90] 6)
       (cell_index 7 2 2 0 3)
     <> nth_error (SampleAngles.run [Sample.fl 0; Sample.fl 0] 6)
          (cell_index 7 2 2 0 3)
  /\ nth_error (SampleAngles.run [Sample.fl 0; Sample.fl 90] 3)
       (cell_index 7 2 2 0 3)
     = nth_error (SampleAngles.run [Sample.fl 0; Sample.fl 0] 3)
         (cell_index 7 2 2 0 3)
  /\ nth_error (SampleAngles.run [Sample.fl 0; Sample.fl 90] 3)
       (cell_index 7 2 2 0 3)
     <> nth_error (SampleAngles.run [Sample.fl 90; Sample.fl 90] 3)
          (cell_index 7 2 2 0 3).
Proof.
  split; [|split; [|split; [|split]]].
  - refine (proj1 (proj2 (@C10_rectangle_reverses_the_angles _ b32
              RefLibm.one32 RefLibm.one32 (Sample.zeros 56) 4 7
              [Sample.fl 0; Sample.fl 90] [Sample.fl 45; Sample.fl 90] 2 1 6
              (Sample.fl 1) (Sample.fl (-0.125)) (Sample.fl 0) (Sample.fl 0)
              (Sample.fl 1) (Sample.fl 0.25) (Sample.fl 1)
              (Sample.fl 0) (Sample.fl 0) (Sample.fl 0) 2 0 3 _ _ _)) _ _).
    + simpl; lia.
    + simpl; lia.
    + simpl; lia.
    + reflexivity.
    + reflexivity.
  - vm_compute. reflexivity.
  - vm_compute. discriminate.
  - vm_compute. reflexivity.
  - vm_compute. discriminate.
Defined.


(* ================================================================== *)
(** * Further properties of buildSino3D_core_single and the loop        *)
(* ================================================================== *)

(** Discharges [eff f m None] for a cell [m] at or above the bound
    [N*AngTot*P], which hypothesis [Hm] states. *)
Ltac eff_outside N Hm :=
  repeat first
    [ apply eff_id
    | apply eff_for_loop_none; intros ? ?; cbv beta zeta
    | match goal with
      | |- eff (fun A => if ?c then _ else _) _ _ => destruct c
      | |- eff (fun A => cell_add _ (cell_index _ _ _ _ _) _) ?m None =>
          apply eff_cell_add_other; intros E;
          apply (Nat.lt_irrefl m);
          eapply Nat.lt_le_trans; [|exact Hm];
          rewrite E; apply (@cell_index_lt N); assumption
      end ].

(** The flat index [(k)*P*AngTot + (i)*P + (j)] as the source forms it,
    in [int]: [None] when one of the four operations overflows. *)
Definition fits_int (z : Z) : bool :=
  (-2147483648 <=? z)%Z && (z <=? 2147483647)%Z.
Definition int_op (z : Z) : option Z := if fits_int z then Some z else None.
Definition int_cell_index (P AngTot : Z) (k i j : nat) : option Z :=
  match int_op (Z.of_nat k * P) with
  | Some kP =>
      match int_op (kP * AngTot) with
      | Some kPA =>
          match int_op (Z.of_nat i * P) with
          | Some iP =>
              match int_op (kPA + iP) with
              | Some s => int_op (s + Z.of_nat j)
              | None => None
              end
          | None => None
          end
      | None => None
      end
  | None => None
  end.

Lemma int_op_fits (z : Z) :
  (0 <= z <= 2147483647)%Z -> int_op z = Some z.
Proof.
  intros Hz. unfold int_op, fits_int.
  destruct (Z.leb_spec (-2147483648) z), (Z.leb_spec z 2147483647);
    try lia. reflexivity.
Qed.

Lemma int_cell_index_exact (N P AngTot : Z) (k i j : nat) :
  (Z.of_nat (Z.to_nat N * Z.to_nat AngTot * Z.to_nat P) <= 2147483647)%Z ->
  k < Z.to_nat N -> i < Z.to_nat AngTot -> j < Z.to_nat P ->
  int_cell_index P AngTot k i j = Some (Z.of_nat (cell_index P AngTot k i j)).
Proof.
  intros Hsize Hk Hi Hj.
  pose proof (@cell_index_lt N P AngTot k i j Hk Hi Hj) as Hlt.
  unfold cell_index in *. unfold int_cell_index.
  assert (HP : P = Z.of_nat (Z.to_nat P)) by lia.
  assert (HA : AngTot = Z.of_nat (Z.to_nat AngTot)) by lia.
  revert Hsize Hlt Hk Hi Hj. rewrite HP, HA, !Nat2Z.id.
  generalize (Z.to_nat N) (Z.to_nat P) (Z.to_nat AngTot).
  clear HP HA. intros n p q Hsize Hlt Hk Hi Hj.
  assert (H1 : k * p <= k * p * q) by nia.
  rewrite (@int_op_fits (Z.of_nat k * Z.of_nat p)%Z) by nia.
  rewrite (@int_op_fits (Z.of_nat k * Z.of_nat p * Z.of_nat q)%Z) by nia.
  rewrite (@int_op_fits (Z.of_nat i * Z.of_nat p)%Z) by nia.
  rewrite (@int_op_fits (Z.of_nat k * Z.of_nat p * Z.of_nat q
                         + Z.of_nat i * Z.of_nat p)%Z) by nia.
  rewrite int_op_fits by nia.
  f_equal. lia.
Qed.

Section WritesInBounds.
Context {F : Type} `{FloatEnv F}.
Variable parameters_check3D : F -> F -> F -> F -> F -> F -> F -> Z.
Variable indeterminate : nat -> F * F.

Lemma core_single_outside (a1 b1 : F) (N P : Z) (Th : list F)
    (AngTot CenTypeIn Object : Z)
    (C0 x0 y0 z0 a b c psi_gr1 psi_gr2 psi_gr3 : F) (m : nat) :
  Z.to_nat N * Z.to_nat AngTot * Z.to_nat P <= m ->
  eff (fun A => buf (buildSino3D_core_single a1 b1 A N P Th AngTot
                       CenTypeIn Object C0 x0 y0 z0 a b c
                       psi_gr1 psi_gr2 psi_gr3))
      m None.
Proof.
  intros Hm. unfold buildSino3D_core_single. cbv zeta.
  repeat match goal with
         | |- context [(Object =? ?n)%Z] => destruct (Object =? n)%Z
         end; simpl buf;
    unfold kernel_gaussian, kernel_parabola, kernel_disk, kernel_parabola1,
      kernel_cone, kernel_rectangle; cbv zeta; eff_outside N Hm.
Qed.

(** X1.  When the [N*AngTot*P] cells of the output can be counted in
    [int], every flat index [(k)*P*AngTot + (i)*P + (j)] the kernels form
    is computed without overflow and lies below [N*AngTot*P], and the
    whole of a run writes only such cells: whatever the model, a cell at
    or above that index holds afterwards what it held before. *)
Theorem writes_stay_below_the_bound (A : list F) (N P : Z) (Th : list F)
    (AngTot CenTypeIn : Z) (cms : list (component F)) :
  (Z.of_nat (Z.to_nat N * Z.to_nat AngTot * Z.to_nat P) <= 2147483647)%Z ->
  (forall k i j, k < Z.to_nat N -> i < Z.to_nat AngTot -> j < Z.to_nat P ->
     int_cell_index P AngTot k i j
     = Some (Z.of_nat (cell_index P AngTot k i j))
     /\ cell_index P AngTot k i j
        < Z.to_nat N * Z.to_nat AngTot * Z.to_nat P)
  /\ (forall m, Z.to_nat N * Z.to_nat AngTot * Z.to_nat P <= m ->
        nth_error (buf (buildSino3D_core parameters_check3D indeterminate
                          A N P Th AngTot CenTypeIn cms)) m
        = nth_error A m).
Proof.
  intros Hsize. split.
  - intros k i j Hk Hi Hj. split.
    + apply (@int_cell_index_exact N); assumption.
    + apply (@cell_index_lt N); assumption.
  - intros m Hm. unfold buildSino3D_core.
    assert (Hloop : forall cms ii A out,
              nth_error (fst (components_loop parameters_check3D
                                indeterminate N P Th AngTot CenTypeIn ii cms
                                (A, out))) m
              = nth_error A m).
    { clear A cms. induction cms as [|cm rest IH]; intros ii A out;
        cbn [components_loop]; [reflexivity|].
      rewrite (surjective_pairing
                 (component_step parameters_check3D indeterminate
                    N P Th AngTot CenTypeIn ii cm (A, out))), IH.
      unfold component_step. cbv zeta.
      destruct (parameters_check3D _ _ _ _ _ _ _ =? 0)%Z; cbn [fst];
        [|reflexivity].
      rewrite (@core_single_outside _ _ N P Th AngTot CenTypeIn _ _ _ _ _ _
                 _ _ _ _ _ m Hm A).
      destruct (nth_error A m); reflexivity. }
    specialize (Hloop cms 0 A []).
    destruct (components_loop parameters_check3D indeterminate
                N P Th AngTot CenTypeIn 0 cms (A, [])) as [A' out].
    exact Hloop.
Qed.
End WritesInBounds.

(** Applied to the sample disk and a buffer with two spare cells. *)
Lemma writes_stay_below_the_bound_witness :
  nth_error (buf (buildSino3D_core (H := b32) Sample.parameters_check3D
                    Sample.stack_ones (Sample.zeros 8) 2 3 [Sample.fl 0] 1 1
                    [SampleModels.disk])) 7
  = nth_error (Sample.zeros 8) 7.
Proof.
  refine (proj2 (@writes_stay_below_the_bound _ b32
                   Sample.parameters_check3D Sample.stack_ones
                   (Sample.zeros 8) 2 3 [Sample.fl 0] 1 1
                   [SampleModels.disk] _) 7 _).
  - simpl. lia.
  - simpl. lia.
Defined.

(* ------------------------------------------------------------------ *)
(** ** A component that fails the parameter check                       *)
(* ------------------------------------------------------------------ *)

Section RejectedComponent.
Context {F : Type} `{FloatEnv F}.
Variable parameters_check3D : F -> F -> F -> F -> F -> F -> F -> Z.
Variable indeterminate : nat -> F * F.
Variables (N P : Z) (Th : list F) (AngTot CenTypeIn : Z).

(** The lines printed for a component that fails the check. *)
Definition rejected_lines (cm : component F) : list (event F) :=
  [Object_parameters (c_Object cm) (c_C0 cm) (c_pos5 cm) (c_pos4 cm)
     (c_z0 cm) (c_a cm) (c_b cm) (c_c cm)
     (c_psi_gr1 cm) (c_psi_gr2 cm) (c_psi_gr3 cm);
   Prematurely_terminated].

(** X2.  A component for which [parameters_check3D] does not return 0 is
    printed, followed by "Function prematurely terminated, not all objects
    included"; the buffer is not touched and, in spite of the message, the
    loop goes on: the components after it are processed from the state
    reached before it. *)
Theorem rejected_component_is_skipped
    (pre post : list (component F)) (bad : component F) (A : list F) :
  parameters_check3D (c_C0 bad) (c_pos5 bad) (c_pos4 bad) (c_z0 bad)
    (c_a bad) (c_b bad) (c_c bad) <> 0%Z ->
  components_loop parameters_check3D indeterminate N P Th AngTot CenTypeIn
    0 (pre ++ bad :: post) (A, [])
  = components_loop parameters_check3D indeterminate N P Th AngTot
      CenTypeIn (S (length pre)) post
      (fst (components_loop parameters_check3D indeterminate N P Th
              AngTot CenTypeIn 0 pre (A, [])),
       snd (components_loop parameters_check3D indeterminate N P Th
              AngTot CenTypeIn 0 pre (A, []))
       ++ rejected_lines bad).
Proof.
  intros Hchk. rewrite components_loop_app. cbn [components_loop Nat.add].
  destruct (components_loop parameters_check3D indeterminate N P Th
              AngTot CenTypeIn 0 pre (A, [])) as [A1 out1].
  unfold component_step at 1. cbv zeta.
  destruct (Z.eqb_spec
              (parameters_check3D (c_C0 bad) (c_pos5 bad) (c_pos4 bad)
                 (c_z0 bad) (c_a bad) (c_b bad) (c_c bad)) 0) as [E|_];
    [contradiction|].
  cbn [fst snd]. unfold rejected_lines. rewrite <- app_assoc. reflexivity.
Qed.
End RejectedComponent.

Module SampleRejected.
Import Sample.
(** A disk whose first extent is 0. *)
Definition flat : component spec_float :=
  Component 3 (fl 1) (fl (-0.5)) (fl (-0.5)) (fl (-0.5))
    (fl 0) (fl 0.5) (fl 1) (fl 0) (fl 0) (fl 0).
End SampleRejected.

(** The theorem applied to the model [flat; disk]. *)
Lemma rejected_component_is_skipped_witness :
  components_loop (H := b32) Sample.parameters_check3D Sample.stack_ones
    2 3 [Sample.fl 0] 1 1 0 ([] ++ SampleRejected.flat :: [SampleModels.disk])
    (Sample.zeros 6, [])
  = components_loop (H := b32) Sample.parameters_check3D Sample.stack_ones
      2 3 [Sample.fl 0] 1 1 1 [SampleModels.disk]
      (Sample.zeros 6, [] ++ rejected_lines SampleRejected.flat).
Proof.
  apply (rejected_component_is_skipped (H := b32) Sample.parameters_check3D
           Sample.stack_ones 2 3 [Sample.fl 0] 1 1
           [] [SampleModels.disk] SampleRejected.flat (Sample.zeros 6)).
  vm_compute. discriminate.
Defined.

(* ------------------------------------------------------------------ *)
(** ** The gaussian has no extent along z                               *)
(* ------------------------------------------------------------------ *)

Section GaussianSlices.
Context {F : Type} `{FloatEnv F}.

(** X3.  The branch of Object 1 has no test on [Zdel2[k]] and no factor that
    depends on [k]: two slices that start equal at detector cell [(i, j)]
    are equal there after the call, wherever the centre [z0] lies and
    whatever the extents [a], [b], [c] and the second and third rotation
    angles are. *)
Theorem gaussian_is_the_same_in_every_slice
    (a1 b1 : F) (A : list F) (N P : Z) (Th : list F) (AngTot CenTypeIn : Z)
    (C0 x0 y0 psi_gr1 : F)
    (z0 a b c p2 p3 z0' a' b' c' p2' p3' : F) (k k' i j : nat) :
  k < Z.to_nat N -> k' < Z.to_nat N ->
  i < Z.to_nat AngTot -> j < Z.to_nat P ->
  nth_error A (cell_index P AngTot k i j)
  = nth_error A (cell_index P AngTot k' i j) ->
  nth_error (buf (buildSino3D_core_single a1 b1 A N P Th AngTot CenTypeIn 1
                    C0 x0 y0 z0 a b c psi_gr1 p2 p3))
            (cell_index P AngTot k i j)
  = nth_error (buf (buildSino3D_core_single a1 b1 A N P Th AngTot CenTypeIn 1
                      C0 x0 y0 z0' a' b' c' psi_gr1 p2' p3'))
              (cell_index P AngTot k' i j).
Proof.
  intros Hk Hk' Hi Hj HA.
  rewrite (@core_single_cell _ _ a1 b1 N P Th AngTot CenTypeIn 1
             C0 x0 y0 z0 a b c psi_gr1 p2 p3 k i j Hk Hi Hj A).
  rewrite (@core_single_cell _ _ a1 b1 N P Th AngTot CenTypeIn 1
             C0 x0 y0 z0' a' b' c' psi_gr1 p2' p3' k' i j Hk' Hi Hj A).
  rewrite HA. reflexivity.
Qed.
End GaussianSlices.

(** Slices 0 and 1 of a zeroed buffer, with the centre at z0 = -0.5 and
    extent 1 in one call and at z0 = 5 with extent 0.25 in the other. *)
Lemma gaussian_is_the_same_in_every_slice_witness :
  nth_error (buf (buildSino3D_core_single (H := b32)
                    RefLibm.one32 RefLibm.one32 (Sample.zeros 6) 2 3
                    [Sample.fl 0] 1 1 1 (Sample.fl 1) (Sample.fl 0)
                    (Sample.fl 0) (Sample.fl (-0.5)) (Sample.fl 1)
                    (Sample.fl 1) (Sample.fl 1) (Sample.fl 0) (Sample.fl 0)
                    (Sample.fl 0)))
            (cell_index 3 1 0 0 1)
  = nth_error (buf (buildSino3D_core_single (H := b32)
                      RefLibm.one32 RefLibm.one32 (Sample.zeros 6) 2 3
                      [Sample.fl 0] 1 1 1 (Sample.fl 1) (Sample.fl 0)
                      (Sample.fl 0) (Sample.fl 5) (Sample.fl 0.25)
                      (Sample.fl 0.25) (Sample.fl 0.25) (Sample.fl 0)
                      (Sample.fl 0) (Sample.fl 0)))
              (cell_index 3 1 1 0 1).
Proof.
  apply (@gaussian_is_the_same_in_every_slice _ b32); simpl; try lia.
  reflexivity.
Defined.

(* ------------------------------------------------------------------ *)
(** ** The rectangle: stores that never reach the buffer                *)
(* ------------------------------------------------------------------ *)

Section RectangleDeadStores.
Context {F : Type} `{FloatEnv F}.
Local Open Scope fl_scope.

(** The detector-loop body of the rectangle with the statements of lines
    300-313 and 318-323 taken out (the first value of [SS], the two blocks
    for [fabs(CF) <= EPS] and [fabs(SF) <= EPS], and the first
    [if (QM > ywid)] block): what is left of lines 276-330. *)
Definition rect_SS_last_block (xwid ywid C0 x11 y11 ksi1 ksi00 p00 : F) : F :=
  let PI2 := d2f M_PI * f0_5 in
  let p := p00 in
  let ksi := ksi00 in
  let '(ksi, p) :=
    if ksi >? d2f M_PI then (ksi - d2f M_PI, - p00) else (ksi, p) in
  let C := cosf ksi in
  let S := sinf ksi in
  let XSYC := (- x11) * S + y11 * C in
  let A2 := xwid * f0_5 in
  let B2 := ywid * f0_5 in
  let FI :=
    if (ksi - ksi1) <? f0 then d2f M_PI + ksi - ksi1 else ksi - ksi1 in
  let FI := if FI >? PI2 then d2f M_PI - FI else FI in
  let CF := cosf FI in
  let SF := sinf FI in
  let P0 := fabs (p - XSYC) in
  let TF := SF / CF in
  let PC := P0 / CF in
  let QP := B2 + A2 * TF in
  let QM := QP + PC in
  let SS :=
    if QM >? ywid then
      (let DEL := P0 + B2 * CF in
       if DEL >? A2 * SF then (QP - PC) / SF * C0 else ywid / SF * C0)
    else xwid / CF * C0 in
  if PC >=? QP then f0 else SS.

(** X4.  The second [if (QM > ywid) ... else ...] statement (lines 324-329)
    assigns [SS] on both of its branches, so nothing stored in [SS] before
    it is ever added to the buffer: in particular the values chosen for a
    projection along one of the rectangle's axes, [fabs(CF) <= EPS] or
    [fabs(SF) <= EPS], are overwritten by [xwid/CF*C0] or a quotient by
    [SF].  The kernel computes the same buffer with those lines removed. *)
Theorem rectangle_axis_cases_are_overwritten
    (N P AngTot : Z) (Th : list F) (CenTypeIn : Z)
    (C0 x0 y0 a b c phi_rot_radian : F) (zdel A : list F) :
  (forall xwid ywid x11 y11 ksi1 ksi00 p00,
     rect_SS xwid ywid C0 x11 y11 ksi1 ksi00 p00
     = rect_SS_last_block xwid ywid C0 x11 y11 ksi1 ksi00 p00)
  /\ kernel_rectangle N P AngTot Th CenTypeIn C0 x0 y0 a b c
       phi_rot_radian zdel A
     = for_loop (Z.to_nat N) (fun k A =>
         if fabs (rd zdel k) <? f0_5 * c then
           for_loop (Z.to_nat AngTot) (fun i A =>
             for_loop (Z.to_nat P) (fun j A =>
               cell_add A (cell_index P AngTot k i j)
                 ((of_int N / f2)
                  * rect_SS_last_block b a C0 (rect_x11 CenTypeIn N y0)
                      (rect_y11 CenTypeIn N x0) (rect_ksi1 phi_rot_radian)
                      (rd (AnglesRad Th AngTot) ((Z.to_nat AngTot - 1) - i))
                      (rd (Sinorange_P_Ar N P) j))) A) A
         else A) A.
Proof.
  assert (E : forall xwid ywid x11 y11 ksi1 ksi00 p00,
             rect_SS xwid ywid C0 x11 y11 ksi1 ksi00 p00
             = rect_SS_last_block xwid ywid C0 x11 y11 ksi1 ksi00 p00).
  { intros. unfold rect_SS, rect_SS_last_block.
    destruct (ksi00 >? d2f M_PI); cbv zeta; reflexivity. }
  split; [exact E|].
  unfold kernel_rectangle. cbv zeta.
  apply for_loop_ext. intros k A0 _.
  destruct (fabs (rd zdel k) <? f0_5 * c); [|reflexivity].
  apply for_loop_ext. intros i A1 _.
  apply for_loop_ext. intros j A2 _.
  rewrite E. reflexivity.
Qed.
End RectangleDeadStores.

(* ================================================================== *)
(** * DeformObject_C.c: perspective deformation of an image             *)
(* ================================================================== *)

(** The file computes in [double].  The operations it uses: *)
Class DoubleEnv (D : Type) : Type := {
  d_add : D -> D -> D;
  d_sub : D -> D -> D;
  d_mul : D -> D -> D;
  d_div : D -> D -> D;
  d_neg : D -> D;
  d_cos : D -> D;
  d_sin : D -> D;
  d_floor : D -> D;
  d_of_int : Z -> D;          (* (double)i *)
  d_of_Q : Q -> D;            (* a constant; 1.0f, -1.0f, 180.0f are exact *)
  d_to_int : D -> option Z    (* (int)x: the value truncated towards 0;
                                 undefined, here [None], when that is not
                                 an int *)
}.

Declare Scope dbl_scope.
Delimit Scope dbl_scope with dbl.
Notation "x + y" := (d_add x y) : dbl_scope.
Notation "x - y" := (d_sub x y) : dbl_scope.
Notation "x * y" := (d_mul x y) : dbl_scope.
Notation "x / y" := (d_div x y) : dbl_scope.
Notation "- x" := (d_neg x) : dbl_scope.

Module Deform.

(** What makes a run undefined in C. *)
Inductive fault : Type :=
| Read_past_Tomorange_X_Ar (idx : Z)
| Read_past_A (idx : Z)
| Write_past_B (idx : Z)
| Read_past_B (idx : Z)
| Cast_out_of_int              (* (int)i0 with i0 outside the int range *)
| Int_overflow.                (* signed overflow in int arithmetic *)

Inductive result (T : Type) : Type :=
| Done (t : T)
| Fault (f : fault).
Arguments Done {T} t.
Arguments Fault {T} f.

Definition bind {S T : Type} (r : result S) (k : S -> result T) : result T :=
  match r with
  | Done s => k s
  | Fault f => Fault f
  end.

Notation "x <- r ;; k" := (bind r (fun x => k))
  (at level 61, r at next level, right associativity).

(** [for (i = 0; i < n; i++) body], stopping at the first fault. *)
Fixpoint for_loop_r {S : Type} (n : nat) (body : nat -> S -> result S)
    (s : S) : result S :=
  match n with
  | O => Done s
  | Datatypes.S n' => s' <- for_loop_r n' body s ;; body n' s'
  end.

Definition INT_MIN : Z := -2147483648.
Definition INT_MAX : Z := 2147483647.
Definition int_ok (z : Z) : bool := (INT_MIN <=? z)%Z && (z <=? INT_MAX)%Z.

(** The result of an [int] operation whose mathematical value is [z]. *)
Definition int_val (z : Z) : result Z :=
  if int_ok z then Done z else Fault Int_overflow.

(** [(i)*dimY + (j)] in [int]. *)
Definition flat_index (i dimY j : Z) : result Z :=
  p <- int_val (i * dimY) ;; int_val (p + j).

Section Model.
Context {D : Type} `{DoubleEnv D}.
Local Open Scope dbl_scope.

Definition d0 : D := d_of_Q 0.
Definition d1 : D := d_of_Q 1.
Definition d180 : D := d_of_Q 180.
Definition M_PI : D := d_of_Q M_PI_lit.

(** [arr[idx]]; [mk] names the array in the fault. *)
Definition read (mk : Z -> fault) (arr : list D) (idx : Z) : result D :=
  if (idx <? 0)%Z then Fault (mk idx)
  else match nth_error arr (Z.to_nat idx) with
       | Some v => Done v
       | None => Fault (mk idx)
       end.

(** [B[idx] = v]. *)
Fixpoint store (B : list D) (idx : nat) (v : D) : option (list D) :=
  match B, idx with
  | [], _ => None
  | _ :: B', O => Some (v :: B')
  | x :: B', Datatypes.S idx' =>
      match store B' idx' v with
      | Some B'' => Some (x :: B'')
      | None => None
      end
  end.

Definition write (B : list D) (idx : Z) (v : D) : result (list D) :=
  if (idx <? 0)%Z then Fault (Write_past_B idx)
  else match store B (Z.to_nat idx) v with
       | Some B' => Done B'
       | None => Fault (Write_past_B idx)
       end.

(** Lines 95-111: the point [(xi, xj)] = [(Tomorange_X_Ar[i],
    Tomorange_X_Ar[j])] rotated by [angleRad], scaled along x by
    [(1 - yy*RFP)^2] (forward, [DeformType == 0]) or by its inverse
    (any other [DeformType]), and rotated back: [(xPersp, yPersp)]. *)
Definition persp (DeformType : Z) (RFP angleRad xi xj : D) : D * D :=
  let xx := xi * d_cos angleRad + xj * d_sin angleRad in
  let yy := (- xi) * d_sin angleRad + xj * d_cos angleRad in
  if (DeformType =? 0)%Z then
    let xPersp1 := xx * (d1 - yy * RFP) in
    let yPersp1 := yy in
    (xPersp1 * (d1 - yPersp1 * RFP) * d_cos angleRad
       - yPersp1 * d_sin angleRad,
     xPersp1 * (d1 - yPersp1 * RFP) * d_sin angleRad
       + yPersp1 * d_cos angleRad)
  else
    let xPersp1 := xx / (d1 - yy * RFP) in
    let yPersp1 := yy in
    (xPersp1 / (d1 - yPersp1 * RFP) * d_cos angleRad
       - yPersp1 * d_sin angleRad,
     xPersp1 / (d1 - yPersp1 * RFP) * d_sin angleRad
       + yPersp1 * d_cos angleRad).

(** One of the four guarded reads of lines 130-133: [0.0f] unless the
    guard holds. *)
Definition corner (A : list D) (guard : bool) (row dimY col : Z) : result D :=
  if guard then idx <- flat_index row dimY col ;; read Read_past_A A idx
  else Done d0.

(** Lines 114-135: bilinear interpolation of [A] at the grid position
    [(ll, mm)].  All four guards compare the column with [dimX]. *)
Definition interpolate (A : list D) (dimX dimY : Z) (ll mm : D) : result D :=
  let i0 := d_floor ll in
  let j0 := d_floor mm in
  let u := ll - i0 in
  let v := mm - j0 in
  match d_to_int i0, d_to_int j0 with
  | Some i2, Some j2 =>
      i1 <- int_val (i2 + 1) ;;
      j1 <- int_val (j2 + 1) ;;
      a <- corner A ((0 <=? i2)%Z && (i2 <? dimX)%Z
                     && (0 <=? j2)%Z && (j2 <? dimX)%Z) i2 dimY j2 ;;
      b <- corner A ((0 <=? i2)%Z && (i2 <? dimX - 1)%Z
                     && (0 <=? j2)%Z && (j2 <? dimX)%Z) i1 dimY j2 ;;
      c <- corner A ((0 <=? i2)%Z && (i2 <? dimX)%Z
                     && (0 <=? j2)%Z && (j2 <? dimX - 1)%Z) i2 dimY j1 ;;
      d <- corner A ((0 <=? i2)%Z && (i2 <? dimX - 1)%Z
                     && (0 <=? j2)%Z && (j2 <? dimX - 1)%Z) i1 dimY j1 ;;
      Done ((d1 - u) * (d1 - v) * a + u * (d1 - v) * b
            + (d1 - u) * v * c + u * v * d)
  | _, _ => Fault Cast_out_of_int
  end.

(** The value the loop body stores in [B[(i)*dimY + (j)]]
    (lines 95-135). *)
Definition Deform_cell (A Tomorange_X_Ar : list D) (H_x RFP angleRad : D)
    (DeformType dimX dimY : Z) (i j : nat) : result D :=
  let Ar1step_inv := d1 / H_x in
  xi <- read Read_past_Tomorange_X_Ar Tomorange_X_Ar (Z.of_nat i) ;;
  xj <- read Read_past_Tomorange_X_Ar Tomorange_X_Ar (Z.of_nat j) ;;
  let '(xPersp, yPersp) := persp DeformType RFP angleRad xi xj in
  let ll := (xPersp - (- d1)) * Ar1step_inv in
  let mm := (yPersp - (- d1)) * Ar1step_inv in
  interpolate A dimX dimY ll mm.

(** The returned [double] and the array [B] points to afterwards. *)
Record deformed : Type := Deformed {
  d_ret : D;
  d_buf : list D
}.

(** [Deform_func] (lines 87-139). *)
Definition Deform_func (A B Tomorange_X_Ar : list D) (H_x RFP angleRad : D)
    (DeformType dimX dimY : Z) : result deformed :=
  B' <- for_loop_r (Z.to_nat dimX) (fun i B =>
          for_loop_r (Z.to_nat dimY) (fun j B =>
            v <- Deform_cell A Tomorange_X_Ar H_x RFP angleRad
                   DeformType dimX dimY i j ;;
            idx <- flat_index (Z.of_nat i) dimY (Z.of_nat j) ;;
            write B idx v) B) B ;;
  r <- read Read_past_B B' 0 ;;
  Done (Deformed r B').

(** [Tomorange_X_Ar] as [mexFunction] fills it (lines 70-76). *)
Definition Tomorange_Xmin : D := - d1.
Definition Tomorange_Xmax : D := d1.
Definition H_x (dimX : Z) : D :=
  (Tomorange_Xmax - Tomorange_Xmin) / d_of_int dimX.
Definition Tomorange_X_Ar (dimX : Z) : list D :=
  tabulate (Z.to_nat dimX)
    (fun i => Tomorange_Xmin + d_of_int (Z.of_nat i) * H_x dimX).

(** How a call of the MEX function ends. *)
Inductive mex_outcome : Type :=
| Mex_error_4_parameters      (* "Input of 4 parameters is required" *)
| Mex_no_output               (* returns with plhs[0] not assigned *)
| Mex_output (B : list D)
| Mex_fault (f : fault).

(** [mexFunction] (lines 43-83) for an input array of dimensions
    [dim_array] and data [A]; [RFP], [angle] and [DeformType] are the
    scalars of the other three arguments, the last one already converted
    to [int].  [mxCreateNumericArray] returns an array of [dimX*dimY]
    zeros. *)
Definition mexFunction (nrhs : Z) (dim_array : list Z) (A : list D)
    (RFP angle : D) (DeformType : Z) : mex_outcome :=
  if negb (nrhs =? 4)%Z then Mex_error_4_parameters
  else
    let dimX := nth 0 dim_array 0%Z in
    let dimY := nth 1 dim_array 0%Z in
    if (Z.of_nat (length dim_array) =? 2)%Z then
      let B := repeat d0 (Z.to_nat (dimX * dimY)) in
      let angleRad := angle * (M_PI / d180) in
      match Deform_func A B (Tomorange_X_Ar dimX) (H_x dimX) RFP angleRad
              DeformType dimX dimY with
      | Done r => Mex_output (d_buf r)
      | Fault f => Mex_fault f
      end
    else Mex_no_output.
End Model.
End Deform.

(** ** The arithmetic *)

(** IEEE-754 binary64, with [cos] and [sin] from the same series as the
    reference <math.h> above, rounded once to binary64. *)
Module B64.
Import B32.

Definition round64 (v : Z) : spec_float :=
  SFdiv prec64 emax64 (exact_Z v) (exact_Z RefLibm.fx_one).

Definition one64 : spec_float := S754_finite false 4503599627370496 (-52).

(** Below [2^-256] in magnitude the fixed-point value is 0; there
    [sin x] rounds to [x] and [cos x] to 1. *)
Definition ref_sin (x : spec_float) : spec_float :=
  match x with
  | S754_zero _ => x
  | S754_finite _ _ _ =>
      if (RefLibm.to_fx x =? 0)%Z then x
      else if RefLibm.small (RefLibm.to_fx x)
           then round64 (RefLibm.sin_fx (RefLibm.to_fx x)) else S754_nan
  | _ => S754_nan
  end.

Definition ref_cos (x : spec_float) : spec_float :=
  match x with
  | S754_zero _ => one64
  | S754_finite _ _ _ =>
      if RefLibm.small (RefLibm.to_fx x)
      then round64 (RefLibm.cos_fx (RefLibm.to_fx x)) else S754_nan
  | _ => S754_nan
  end.

(** [floor]: the largest integer not above [x]. *)
Definition floor (x : spec_float) : spec_float :=
  match x with
  | S754_finite s m e =>
      if (0 <=? e)%Z then x
      else
        let z := Z.shiftr (cond_Zopp s (Zpos m)) (- e) in
        if (z =? 0)%Z then S754_zero false
        else binary_normalize prec64 emax64 z 0 false
  | _ => x
  end.

(** [(int)x]: the value truncated towards zero, if it is an [int]. *)
Definition to_int (x : spec_float) : option Z :=
  match x with
  | S754_zero _ => Some 0%Z
  | S754_finite s m e =>
      let z := cond_Zopp s (Z.shiftl (Zpos m) e) in
      if Deform.int_ok z then Some z else None
  | _ => None
  end.

Definition env : DoubleEnv spec_float := {|
  d_add := SFadd prec64 emax64;
  d_sub := SFsub prec64 emax64;
  d_mul := SFmul prec64 emax64;
  d_div := SFdiv prec64 emax64;
  d_neg := SFopp;
  d_cos := ref_cos;
  d_sin := ref_sin;
  d_floor := floor;
  d_of_int := fun z => binary_normalize prec64 emax64 z 0 false;
  d_of_Q := round_Q prec64 emax64;
  d_to_int := to_int
|}.
End B64.


(** ** Facts about the loop of Deform_func *)

Section DeformFacts.
Context {D : Type} `{DoubleEnv D}.
Import Deform.

Lemma store_spec (B : list D) (idx : nat) (v : D) :
  idx < length B ->
  exists B', store B idx v = Some B'
    /\ length B' = length B
    /\ nth_error B' idx = Some v
    /\ (forall m, m <> idx -> nth_error B' m = nth_error B m).
Proof.
  revert idx. induction B as [|x B IH]; intros [|idx] Hlt; simpl in Hlt;
    try lia.
  - exists (v :: B). repeat split. intros [|m] Hm; [congruence|reflexivity].
  - destruct (IH idx) as (B' & E & HL & Hv & Ho); [lia|].
    exists (x :: B'). simpl. rewrite E. repeat split; simpl.
    + congruence.
    + exact Hv.
    + intros [|m] Hm; [reflexivity|]. simpl. apply Ho. congruence.
Qed.

Lemma store_Some_lt (B B' : list D) (idx : nat) (v : D) :
  store B idx v = Some B' -> idx < length B.
Proof.
  revert idx B'. induction B as [|x B IH]; intros [|idx] B' E; simpl in *;
    try discriminate; try lia.
  destruct (store B idx v) as [B''|] eqn:E'; [|discriminate].
  apply IH in E'. lia.
Qed.

Lemma write_Done (B B' : list D) (idx : Z) (v : D) :
  write B idx v = Done B' ->
  (0 <= idx)%Z /\ Z.to_nat idx < length B
  /\ length B' = length B
  /\ nth_error B' (Z.to_nat idx) = Some v
  /\ (forall m, m <> Z.to_nat idx -> nth_error B' m = nth_error B m).
Proof.
  unfold write. destruct (Z.ltb_spec idx 0); [discriminate|].
  destruct (store B (Z.to_nat idx) v) as [B1|] eqn:E; [|discriminate].
  intros E'; injection E' as <-.
  pose proof (store_Some_lt _ _ _ E) as Hlt.
  destruct (store_spec B v Hlt) as (B2 & E2 & HL & Hv & Ho).
  rewrite E in E2. injection E2 as <-. repeat split; assumption.
Qed.

Lemma write_total (B : list D) (idx : Z) (v : D) :
  (0 <= idx)%Z -> Z.to_nat idx < length B ->
  exists B', write B idx v = Done B'.
Proof.
  intros H0 Hlt. unfold write. destruct (Z.ltb_spec idx 0); [lia|].
  destruct (store_spec B v Hlt) as (B' & E & _). rewrite E. eauto.
Qed.

Lemma int_val_Done (z z' : Z) : int_val z = Done z' -> z' = z.
Proof. unfold int_val. destruct (int_ok z); congruence. Qed.

Lemma int_val_ok (z : Z) :
  (INT_MIN <= z <= INT_MAX)%Z -> int_val z = Done z.
Proof.
  intros Hz. unfold int_val, int_ok.
  destruct (Z.leb_spec INT_MIN z), (Z.leb_spec z INT_MAX); try lia.
  reflexivity.
Qed.

Lemma flat_index_Done (i dimY j idx : Z) :
  flat_index i dimY j = Done idx -> idx = (i * dimY + j)%Z.
Proof.
  unfold flat_index.
  destruct (int_val (i * dimY)) as [p|] eqn:E; simpl; [|discriminate].
  apply int_val_Done in E. subst p. apply int_val_Done.
Qed.

Lemma flat_index_ok (i dimX dimY j : Z) :
  (0 <= i < dimX)%Z -> (0 <= j < dimY)%Z -> (dimX * dimY <= INT_MAX)%Z ->
  flat_index i dimY j = Done (i * dimY + j)%Z
  /\ (0 <= i * dimY + j < dimX * dimY)%Z.
Proof.
  intros Hi Hj Hmax.
  assert (Hb : (0 <= i * dimY /\ i * dimY + dimY <= dimX * dimY)%Z) by nia.
  unfold flat_index, INT_MAX in *.
  rewrite int_val_ok by (unfold INT_MIN, INT_MAX; lia). simpl.
  rewrite int_val_ok by (unfold INT_MIN, INT_MAX; lia).
  split; [reflexivity | lia].
Qed.

Lemma index_to_nat (i j : nat) (dimY : Z) :
  j < Z.to_nat dimY ->
  Z.to_nat (Z.of_nat i * dimY + Z.of_nat j) = i * Z.to_nat dimY + j.
Proof. intros Hj. nia. Qed.

Variables (A X : list D) (H_x RFP angleRad : D) (DeformType dimX dimY : Z).

Let cell := Deform_cell A X H_x RFP angleRad DeformType dimX dimY.
Let body (i j : nat) (B : list D) : result (list D) :=
  v <- cell i j ;;
  idx <- flat_index (Z.of_nat i) dimY (Z.of_nat j) ;;
  write B idx v.
Let nY := Z.to_nat dimY.

Lemma inner_spec (i n : nat) (B0 B' : list D) :
  n <= nY ->
  for_loop_r n (body i) B0 = Done B' ->
  length B' = length B0
  /\ (forall j, j < n ->
        exists v, cell i j = Done v /\ nth_error B' (i * nY + j) = Some v)
  /\ (forall m, m < i * nY \/ i * nY + n <= m ->
        nth_error B' m = nth_error B0 m).
Proof.
  revert B'. induction n as [|n IH]; intros B' Hn; simpl.
  - intros E; injection E as <-. repeat split; intros; first [lia | reflexivity].
  - destruct (for_loop_r n (body i) B0) as [B1|] eqn:E1; simpl;
      [|discriminate].
    destruct (IH B1) as (HL & Hc & Hf); [lia | reflexivity |].
    unfold body at 1.
    destruct (cell i n) as [v|] eqn:Ev; simpl; [|discriminate].
    destruct (flat_index (Z.of_nat i) dimY (Z.of_nat n)) as [idx|] eqn:Ei;
      simpl; [|discriminate].
    apply flat_index_Done in Ei. subst idx. intros Ew.
    apply write_Done in Ew. destruct Ew as (_ & _ & HL' & Hv & Ho).
    rewrite (@index_to_nat i n dimY) in * by (unfold nY in Hn; lia).
    fold nY in Hv, Ho.
    repeat split.
    + congruence.
    + intros j Hj. destruct (Nat.eq_dec j n) as [->|Hne].
      * exists v. split; [exact Ev | exact Hv].
      * destruct (Hc j) as (w & Ew & Hw); [lia|].
        exists w. split; [exact Ew|]. rewrite Ho by lia. exact Hw.
    + intros m Hm. rewrite Ho by lia. apply Hf. lia.
Qed.

Lemma outer_spec (n : nat) (B0 B' : list D) :
  for_loop_r n (fun i B => for_loop_r nY (body i) B) B0 = Done B' ->
  length B' = length B0
  /\ (forall i j, i < n -> j < nY ->
        exists v, cell i j = Done v /\ nth_error B' (i * nY + j) = Some v)
  /\ (forall m, n * nY <= m -> nth_error B' m = nth_error B0 m).
Proof.
  revert B'. induction n as [|n IH]; intros B'; simpl.
  - intros E; injection E as <-. repeat split; intros; first [lia | reflexivity].
  - destruct (for_loop_r n _ B0) as [B1|] eqn:E1; simpl; [|discriminate].
    destruct (IH B1) as (HL & Hc & Hf); [reflexivity|].
    intros E2. apply inner_spec in E2; [|lia].
    destruct E2 as (HL2 & Hc2 & Hf2).
    repeat split.
    + congruence.
    + intros i j Hi Hj. destruct (Nat.eq_dec i n) as [->|Hne].
      * apply Hc2. exact Hj.
      * destruct (Hc i j) as (w & Ew & Hw); [lia | exact Hj |].
        exists w. split; [exact Ew|]. rewrite Hf2; [exact Hw|]. left. nia.
    + intros m Hm. rewrite Hf2 by (right; lia). apply Hf. lia.
Qed.

Lemma inner_total (i n : nat) (B0 : list D) :
  n <= nY -> (Z.of_nat i < dimX)%Z -> (dimX * dimY <= INT_MAX)%Z ->
  Z.to_nat (dimX * dimY) <= length B0 ->
  (forall j, j < nY -> exists v, cell i j = Done v) ->
  exists B', for_loop_r n (body i) B0 = Done B'.
Proof.
  intros Hn Hi Hmax HB Hcell. induction n as [|n IH]; simpl.
  - eauto.
  - destruct IH as (B1 & E1); [lia|]. rewrite E1. simpl.
    apply inner_spec in E1; [|lia]. destruct E1 as (HL & _).
    unfold body. destruct (Hcell n) as (v & Ev); [lia|]. rewrite Ev. simpl.
    destruct (@flat_index_ok (Z.of_nat i) dimX dimY (Z.of_nat n))
      as (Ei & Hb); [lia | unfold nY in Hn; lia | exact Hmax |].
    rewrite Ei. simpl. apply write_total; [lia|]. rewrite HL. lia.
Qed.

Lemma outer_total (n : nat) (B0 : list D) :
  n <= Z.to_nat dimX -> (dimX * dimY <= INT_MAX)%Z ->
  Z.to_nat (dimX * dimY) <= length B0 ->
  (forall i j, i < Z.to_nat dimX -> j < nY -> exists v, cell i j = Done v) ->
  exists B', for_loop_r n (fun i B => for_loop_r nY (body i) B) B0 = Done B'.
Proof.
  intros Hn Hmax HB Hcell. induction n as [|n IH]; simpl.
  - eauto.
  - destruct IH as (B1 & E1); [lia|]. rewrite E1. simpl.
    apply outer_spec in E1. destruct E1 as (HL & _).
    apply inner_total; [lia | lia | exact Hmax | rewrite HL; exact HB |].
    intros j Hj. apply Hcell; [lia | exact Hj].
Qed.
End DeformFacts.

Section DeformTheorems.
Context {D : Type} `{DoubleEnv D}.
Import Deform.

Lemma read_ok (mk : Z -> fault) (arr : list D) (idx : Z) :
  (0 <= idx)%Z -> Z.to_nat idx < length arr ->
  exists v, read mk arr idx = Done v
            /\ nth_error arr (Z.to_nat idx) = Some v.
Proof.
  intros H0 Hlt. unfold read. destruct (Z.ltb_spec idx 0); [lia|].
  destruct (nth_error arr (Z.to_nat idx)) as [v|] eqn:E; [eauto|].
  apply nth_error_None in E. lia.
Qed.

Lemma Deform_func_Done (A B X : list D) (H_x RFP angleRad : D)
    (DeformType dimX dimY : Z) (r : deformed) :
  Deform_func A B X H_x RFP angleRad DeformType dimX dimY = Done r ->
  length (d_buf r) = length B
  /\ (forall i j, i < Z.to_nat dimX -> j < Z.to_nat dimY ->
        exists v,
          Deform_cell A X H_x RFP angleRad DeformType dimX dimY i j = Done v
          /\ nth_error (d_buf r) (i * Z.to_nat dimY + j) = Some v)
  /\ (forall m, Z.to_nat dimX * Z.to_nat dimY <= m ->
        nth_error (d_buf r) m = nth_error B m)
  /\ nth_error (d_buf r) 0 = Some (d_ret r).
Proof.
  unfold Deform_func.
  destruct (for_loop_r (Z.to_nat dimX) _ B) as [B'|] eqn:E; simpl;
    [|discriminate].
  apply outer_spec in E. destruct E as (HL & Hc & Hf).
  unfold read. cbn [Z.ltb Z.compare Z.to_nat].
  destruct (nth_error B' 0) as [v0|] eqn:E0; cbn [bind]; [|discriminate].
  intros Er; injection Er as <-. cbn [d_buf d_ret].
  repeat split; assumption.
Qed.

(** X7.  [Deform_func] stores in every cell [(i, j)] of [B] the value
    [Deform_cell] computes from [A], the grid and the parameters alone:
    the result does not depend on what [B] held, nor on the order in which
    the iterations of the parallel loop run.  When every cell's value is
    defined and [B] has room for [dimX*dimY] cells, the call returns; it
    leaves the length of [B] and the cells from [dimX*dimY] on as they
    were, and returns [B[0]]. *)
Theorem Deform_func_fills_every_cell (A B X : list D) (H_x RFP angleRad : D)
    (DeformType dimX dimY : Z) :
  (0 < dimX)%Z -> (0 < dimY)%Z -> (dimX * dimY <= INT_MAX)%Z ->
  Z.to_nat (dimX * dimY) <= length B ->
  (forall i j, i < Z.to_nat dimX -> j < Z.to_nat dimY ->
     exists v,
       Deform_cell A X H_x RFP angleRad DeformType dimX dimY i j = Done v) ->
  exists r,
    Deform_func A B X H_x RFP angleRad DeformType dimX dimY = Done r
    /\ length (d_buf r) = length B
    /\ (forall i j, i < Z.to_nat dimX -> j < Z.to_nat dimY ->
          exists v,
            Deform_cell A X H_x RFP angleRad DeformType dimX dimY i j
            = Done v
            /\ nth_error (d_buf r) (i * Z.to_nat dimY + j) = Some v)
    /\ (forall m, Z.to_nat dimX * Z.to_nat dimY <= m ->
          nth_error (d_buf r) m = nth_error B m)
    /\ nth_error (d_buf r) 0 = Some (d_ret r).
Proof.
  intros HX HY Hmax HB Hcell.
  assert (Hr : exists r,
             Deform_func A B X H_x RFP angleRad DeformType dimX dimY
             = Done r).
  { unfold Deform_func.
    destruct (@outer_total _ _ A X H_x RFP angleRad DeformType dimX dimY
                (Z.to_nat dimX) B) as (B' & E);
      [lia | exact Hmax | exact HB | exact Hcell |].
    rewrite E. simpl.
    apply outer_spec in E. destruct E as (HL & _).
    destruct (@read_ok Read_past_B B' 0) as (v & Ev & _); [lia | |].
    { rewrite HL. simpl. nia. }
    rewrite Ev. simpl. eauto. }
  destruct Hr as (r & Er). exists r. split; [exact Er|].
  apply Deform_func_Done. exact Er.
Qed.

Lemma corner_ok (A : list D) (guard : bool) (row col dim : Z) :
  (dim * dim <= INT_MAX)%Z -> Z.to_nat (dim * dim) <= length A ->
  (guard = true -> (0 <= row < dim)%Z /\ (0 <= col < dim)%Z) ->
  exists v, corner A guard row dim col = Done v.
Proof.
  intros Hmax HA Hg. unfold corner. destruct guard; [|eauto].
  destruct Hg as (Hr & Hc); [reflexivity|].
  destruct (@flat_index_ok row dim dim col Hr Hc Hmax) as (E & Hb).
  rewrite E. simpl.
  destruct (@read_ok Read_past_A A (row * dim + col)%Z) as (v & Ev & _);
    [lia | lia | eauto].
Qed.

(** X8.  For a square image no array is read outside its bounds: with
    [dimX = dimY], the image [A] of [dimX*dimX] cells and the grid of
    [dimX] entries, computing a cell either succeeds or stops in the
    conversion of [floor(ll)], [floor(mm)] to [int] (or in the [+ 1] that
    follows it). *)
Theorem square_image_is_read_in_bounds (A X : list D) (H_x RFP angleRad : D)
    (DeformType dim : Z) (i j : nat) (f : fault) :
  (dim * dim <= INT_MAX)%Z ->
  Z.to_nat (dim * dim) <= length A -> Z.to_nat dim <= length X ->
  i < Z.to_nat dim -> j < Z.to_nat dim ->
  Deform_cell A X H_x RFP angleRad DeformType dim dim i j = Fault f ->
  f = Cast_out_of_int \/ f = Int_overflow.
Proof.
  intros Hmax HA HX Hi Hj. unfold Deform_cell. cbv zeta.
  destruct (@read_ok Read_past_Tomorange_X_Ar X (Z.of_nat i))
    as (xi & Exi & _); [lia | lia |].
  destruct (@read_ok Read_past_Tomorange_X_Ar X (Z.of_nat j))
    as (xj & Exj & _); [lia | lia |].
  rewrite Exi, Exj. simpl.
  destruct (persp DeformType RFP angleRad xi xj) as [xPersp yPersp].
  unfold interpolate. cbv zeta.
  destruct (d_to_int _) as [i2|]; [|intros E; injection E as <-; auto].
  destruct (d_to_int _) as [j2|]; [|intros E; injection E as <-; auto].
  unfold int_val at 1.
  destruct (int_ok (i2 + 1)); simpl; [|intros E; injection E as <-; auto].
  unfold int_val at 1.
  destruct (int_ok (j2 + 1)); simpl; [|intros E; injection E as <-; auto].
  repeat match goal with
  | |- bind (corner A ?g ?r dim ?c) _ = Fault f -> _ =>
      let v := fresh "v" in let E := fresh "E" in
      destruct (@corner_ok A g r c dim Hmax HA) as (v & E);
      [ rewrite !andb_true_iff, !Z.leb_le, !Z.ltb_lt; lia
      | rewrite E; simpl ]
  end.
  discriminate.
Qed.

Lemma length_Tomorange_X_Ar (dimX : Z) :
  length (Tomorange_X_Ar dimX) = Z.to_nat dimX.
Proof. unfold Tomorange_X_Ar. apply length_tabulate. Qed.

(** X9.  An image with more columns than rows cannot be deformed: the grid
    has [dimX] entries and the inner loop reads [Tomorange_X_Ar[j]] for
    every [j < dimY], so the call is undefined, whatever the image, the
    parameters and the arithmetic. *)
Theorem wide_image_is_read_past_the_grid (A : list D) (RFP angle : D)
    (DeformType dimX dimY : Z) :
  (0 < dimX < dimY)%Z ->
  (forall r, Deform_func A (repeat d0 (Z.to_nat (dimX * dimY)))
               (Tomorange_X_Ar dimX) (H_x dimX) RFP
               (d_mul angle (d_div M_PI d180)) DeformType dimX dimY
             <> Done r)
  /\ exists f,
       mexFunction 4 [dimX; dimY] A RFP angle DeformType = Mex_fault f.
Proof.
  intros Hd.
  assert (Hno : forall r,
             Deform_func A (repeat d0 (Z.to_nat (dimX * dimY)))
               (Tomorange_X_Ar dimX) (H_x dimX) RFP
               (d_mul angle (d_div M_PI d180)) DeformType dimX dimY
             <> Done r).
  { intros r Er. apply Deform_func_Done in Er.
    destruct Er as (_ & Hc & _).
    destruct (Hc 0 (Z.to_nat dimX)) as (v & Ev & _); [lia | lia |].
    revert Ev. unfold Deform_cell. cbv zeta.
    destruct (@read_ok Read_past_Tomorange_X_Ar (Tomorange_X_Ar dimX)
                (Z.of_nat 0)) as (xi & Exi & _);
      [lia | rewrite length_Tomorange_X_Ar; lia |].
    rewrite Exi. simpl.
    unfold read at 1.
    destruct (Z.ltb_spec (Z.of_nat (Z.to_nat dimX)) 0); [discriminate|].
    rewrite Nat2Z.id.
    destruct (nth_error (Tomorange_X_Ar dimX) (Z.to_nat dimX)) eqn:E;
      [|discriminate].
    assert (Hlt : Z.to_nat dimX < length (Tomorange_X_Ar dimX))
      by (apply nth_error_Some; congruence).
    rewrite length_Tomorange_X_Ar in Hlt. lia. }
  split; [exact Hno|].
  unfold mexFunction. simpl.
  destruct (Deform_func _ _ _ _ _ _ _ _ _) as [r|f] eqn:E.
  - exfalso. exact (Hno r eq_refl).
  - eauto.
Qed.

(** X10.  The guards of the four reads compare the column [j2] with [dimX],
    not with [dimY].  For an image with fewer columns than rows a position
    in the last row whose column lies in [dimY .. dimX-1] passes the first
    guard, and the read of [A[(i2)*dimY + (j2)]] is past the
    [dimX*dimY] cells of the image. *)
Theorem tall_image_guard_admits_a_read_past_A (A : list D)
    (dimX dimY j2 : Z) (ll mm : D) :
  (0 < dimY)%Z -> (dimX * dimY + dimX <= INT_MAX)%Z ->
  length A <= Z.to_nat (dimX * dimY) ->
  (dimY <= j2 < dimX)%Z ->
  d_to_int (d_floor ll) = Some (dimX - 1)%Z ->
  d_to_int (d_floor mm) = Some j2 ->
  interpolate A dimX dimY ll mm
  = Fault (Read_past_A ((dimX - 1) * dimY + j2)).
Proof.
  intros HY Hmax HA Hj Ei Ej. unfold interpolate. cbv zeta.
  rewrite Ei, Ej.
  assert (Hb : (0 <= (dimX - 1) * dimY
                /\ (dimX - 1) * dimY + dimY = dimX * dimY)%Z) by nia.
  assert (HX : (dimX <= dimX * dimY)%Z) by nia.
  unfold INT_MAX in *.
  rewrite !int_val_ok by (unfold INT_MIN, INT_MAX; lia). cbn [bind].
  destruct (Z.leb_spec 0 (dimX - 1)), (Z.ltb_spec (dimX - 1) dimX),
    (Z.leb_spec 0 j2), (Z.ltb_spec j2 dimX); try lia.
  cbn [andb]. unfold corner at 1, flat_index.
  rewrite !int_val_ok by (unfold INT_MIN, INT_MAX; lia). cbn [bind].
  rewrite int_val_ok by (unfold INT_MIN, INT_MAX; lia). cbn [bind].
  unfold read. destruct (Z.ltb_spec ((dimX - 1) * dimY + j2) 0); [lia|].
  destruct (nth_error A (Z.to_nat ((dimX - 1) * dimY + j2))) eqn:E;
    [|reflexivity].
  assert (Hlt : Z.to_nat ((dimX - 1) * dimY + j2) < length A)
    by (apply nth_error_Some; congruence).
  lia.
Qed.
End DeformTheorems.

Module SampleDeform.
Definition dbl (q : Q) : spec_float := B32.round_Q B32.prec64 B32.emax64 q.
(** A 2 x 2 image and its grid; 30 degrees in radians. *)
Definition image : list spec_float := [dbl 1; dbl 2; dbl 3; dbl 4].
Definition X2 : list spec_float := Deform.Tomorange_X_Ar (H := B64.env) 2.
Definition angleRad30 : spec_float :=
  d_mul (DoubleEnv := B64.env) (dbl 30)
    (d_div (DoubleEnv := B64.env) (Deform.M_PI (H := B64.env))
       (Deform.d180 (H := B64.env))).
End SampleDeform.

(** The 2 x 2 image deformed forward with [RFP = 0.1] at 30 degrees. *)
Lemma Deform_func_fills_every_cell_witness :
  exists r,
    Deform.Deform_func (H := B64.env) SampleDeform.image
      (repeat (SampleDeform.dbl 0) 4) SampleDeform.X2
      (Deform.H_x (H := B64.env) 2) (SampleDeform.dbl 0.1)
      SampleDeform.angleRad30 0 2 2 = Deform.Done r
    /\ length (Deform.d_buf r) = 4.
Proof.
  destruct (@Deform_func_fills_every_cell _ B64.env SampleDeform.image
              (repeat (SampleDeform.dbl 0) 4) SampleDeform.X2
              (Deform.H_x (H := B64.env) 2) (SampleDeform.dbl 0.1)
              SampleDeform.angleRad30 0 2 2) as (r & E & HL & _).
  - lia.
  - lia.
  - vm_compute. discriminate.
  - simpl. lia.
  - intros [|[|i]] [|[|j]] Hi Hj; simpl in Hi, Hj; try lia;
      vm_compute; eauto.
  - exists r. split; [exact E | exact HL].
Defined.

(** The inverse deformation with [RFP = -1] at angle 0 divides by 0 in
    cell (0, 0): the position is infinite and its conversion to [int] is
    the fault. *)
Lemma square_image_is_read_in_bounds_witness :
  Deform.Cast_out_of_int = Deform.Cast_out_of_int
  \/ Deform.Cast_out_of_int = Deform.Int_overflow.
Proof.
  apply (@square_image_is_read_in_bounds _ B64.env SampleDeform.image
           SampleDeform.X2 (Deform.H_x (H := B64.env) 2)
           (SampleDeform.dbl (-1)) (SampleDeform.dbl 0) 1 2 0 0
           Deform.Cast_out_of_int).
  - vm_compute. discriminate.
  - simpl. lia.
  - simpl. lia.
  - simpl. lia.
  - simpl. lia.
  - vm_compute. reflexivity.
Defined.

(** A 2 x 3 image. *)
Lemma wide_image_is_read_past_the_grid_witness :
  exists f,
    Deform.mexFunction (H := B64.env) 4 [2%Z; 3%Z]
      (repeat (SampleDeform.dbl 1) 6) (SampleDeform.dbl 0.1)
      (SampleDeform.dbl 30) 0 = Deform.Mex_fault f.
Proof.
  apply (@wide_image_is_read_past_the_grid _ B64.env). lia.
Defined.

(** A 3 x 2 image: position (2, 2) passes the guard and reads [A[6]]; the
    forward deformation with [RFP = 0.1] at 30 degrees reaches such a
    position. *)
Lemma tall_image_guard_admits_a_read_past_A_witness :
  Deform.interpolate (H := B64.env) (repeat (SampleDeform.dbl 1) 6) 3 2
    (SampleDeform.dbl 2) (SampleDeform.dbl 2)
  = Deform.Fault (Deform.Read_past_A ((3 - 1) * 2 + 2))
  /\ Deform.mexFunction (H := B64.env) 4 [3%Z; 2%Z]
       (repeat (SampleDeform.dbl 1) 6) (SampleDeform.dbl 0.1)
       (SampleDeform.dbl 30) 0
     = Deform.Mex_fault (Deform.Read_past_A 6).
Proof.
  split.
  - apply (@tall_image_guard_admits_a_read_past_A _ B64.env).
    + lia.
    + vm_compute. discriminate.
    + simpl. lia.
    + lia.
    + vm_compute. reflexivity.
    + vm_compute. reflexivity.
  - vm_compute. reflexivity.
Defined.

(* ================================================================== *)
(** * buildSino3D_core: reading the parameters file                     *)
(* ================================================================== *)

(** Lines 347-434.  The file is the list of the strings [fgets] returns,
    one per call: a line with its newline, or 199 characters of a longer
    one.  Once the list is exhausted [fgets] fails and [feof] holds. *)
Module ModelFile.
Import Strings.Ascii Strings.String.
Local Open Scope string_scope.

(** ** The two [sscanf] formats *)

(** [isspace] in the "C" locale. *)
Definition isspace (c : ascii) : bool :=
  let n := nat_of_ascii c in
  (n =? 32)%nat || ((9 <=? n)%nat && (n <=? 13)%nat).

Fixpoint skip_ws (s : string) : string :=
  match s with
  | String c r => if isspace c then skip_ws r else s
  | EmptyString => s
  end.

(** The longest prefix of at most [w] characters that satisfy [p], and
    what follows it. *)
Fixpoint span (w : nat) (p : ascii -> bool) (s : string) : string * string :=
  match w, s with
  | S w', String c r =>
      if p c then let '(tok, rest) := span w' p r in (String c tok, rest)
      else (EmptyString, s)
  | _, _ => (EmptyString, s)
  end.

(** A conversion that needs at least one character. *)
Definition nonempty (tr : string * string) : option (string * string) :=
  match fst tr with
  | EmptyString => None
  | _ => Some tr
  end.

(** [%15s]: white space is skipped, then up to 15 characters that are not
    white space. *)
Definition conv_s (s : string) : option (string * string) :=
  nonempty (span 15 (fun c => negb (isspace c)) (skip_ws s)).

(** [%15[^;]]: up to 15 characters other than ';', white space
    included. *)
Definition conv_set (s : string) : option (string * string) :=
  nonempty (span 15 (fun c => negb (Ascii.eqb c ";")) s).

(** The directive [" : "]: white space, a colon, white space. *)
Definition colon (s : string) : option string :=
  match skip_ws s with
  | String c r => if Ascii.eqb c ":" then Some (skip_ws r) else None
  | EmptyString => None
  end.

(** [n] conversions [%15s] in a row; the strings converted before the
    first failure, and the rest of the input if none failed. *)
Fixpoint convs_s (n : nat) (s : string) : list string * option string :=
  match n with
  | O => ([], Some s)
  | S n' =>
      match conv_s s with
      | Some (tok, rest) =>
          let '(toks, r) := convs_s n' rest in (tok :: toks, r)
      | None => ([], None)
      end
  end.

(** [sscanf(tempbuff, "%15s : %15[^;];", tmpstr1, tmpstr2)]: the strings
    assigned, in order; a conversion that fails ends the call and leaves
    its buffer and the later ones as they were. *)
Definition sscanf_2 (line : string) : list string :=
  match conv_s line with
  | None => []
  | Some (t1, r) =>
      match colon r with
      | None => [t1]
      | Some r =>
          match conv_set r with
          | None => [t1]
          | Some (t2, _) => [t1; t2]
          end
      end
  end.

(** The format of an object line: [%15s], [" : "], ten times [%15s] and
    [%15[^;]] after white space. *)
Definition sscanf_12 (line : string) : list string :=
  match conv_s line with
  | None => []
  | Some (t1, r) =>
      match colon r with
      | None => [t1]
      | Some r =>
          match convs_s 10 r with
          | (toks, None) => t1 :: toks
          | (toks, Some r) =>
              match conv_set (skip_ws r) with
              | None => t1 :: toks
              | Some (t12, _) => t1 :: toks ++ [t12]
              end
          end
      end
  end.

(** [tempbuff[0] == '#']. *)
Definition is_comment (l : string) : bool :=
  match l with
  | String c _ => Ascii.eqb c "#"
  | EmptyString => false
  end.

(** The buffers [tmpstr1] ... [tmpstr12] after a call that assigned
    [new]: the first [length new] of them are overwritten. *)
Definition assign (new old : list string) : list string :=
  new ++ skipn (List.length new) old.

(** [tmpstr<k>] as a C string. *)
Definition tmpstr (k : nat) (bufs : list string) : string :=
  nth (k - 1) bufs EmptyString.

(** What the function prints. *)
Inductive file_event (F : Type) : Type :=
| Selected_model (Model : Z)       (* "The selected Model : %i" *)
| Components_unknown               (* "The number of components is unknown!" *)
| Core (e : event F).              (* the lines of the component loop *)
Arguments Components_unknown {F}.

(** The returned [float], the buffer, the lines printed, and whether
    [fclose] was called. *)
Record file_outcome (F : Type) : Type := File_outcome {
  f_ret : F;
  f_buf : list F;
  f_stdout : list (file_event F);
  f_closed : bool
}.

Section Reader.
Context {F : Type} `{FloatEnv F}.
Variable parameters_check3D : F -> F -> F -> F -> F -> F -> F -> Z.
Variable indeterminate : nat -> F * F.

(** [atoi] and [atof] followed by the conversion to [float]. *)
Variable atoi : string -> Z.
Variable atof : string -> F.

Variables (N P : Z) (Th : list F) (AngTot CenTypeIn : Z).

(** The arguments of lines 407-417, read from [tmpstr2] ...
    [tmpstr12]. *)
Definition component_of (bufs : list string) : component F :=
  Component (atoi (tmpstr 2 bufs)) (atof (tmpstr 3 bufs))
    (atof (tmpstr 4 bufs)) (atof (tmpstr 5 bufs)) (atof (tmpstr 6 bufs))
    (atof (tmpstr 7 bufs)) (atof (tmpstr 8 bufs)) (atof (tmpstr 9 bufs))
    (atof (tmpstr 10 bufs)) (atof (tmpstr 11 bufs)) (atof (tmpstr 12 bufs)).

(** The loop over the components (lines 401-427), [n] iterations from
    [ii] on: each one reads a line if there is one, and processes the
    buffers if [tmpstr1] is "Object". *)
Fixpoint read_components (n ii : nat) (lines : list string)
    (bufs : list string) (st : list F * list (event F))
    : list F * list (event F) :=
  match n with
  | O => st
  | S n' =>
      let '(bufs, lines) :=
        match lines with
        | l :: rest => (assign (sscanf_12 l) bufs, rest)
        | [] => (bufs, [])
        end in
      let st :=
        if tmpstr 1 bufs =? "Object"
        then component_step parameters_check3D indeterminate
               N P Th AngTot CenTypeIn ii (component_of bufs) st
        else st in
      read_components n' (Datatypes.S ii) lines bufs st
  end.

(** Lines 387-428: the selected model has been found. *)
Definition read_model (A : list F) (Model : Z) (lines : list string)
    (bufs : list string) : file_outcome F :=
  let '(bufs, lines) :=
    match lines with
    | l :: rest => (assign (sscanf_2 l) bufs, rest)
    | [] => (bufs, [])
    end in
  if tmpstr 1 bufs =? "Components" then
    let Components := atoi (tmpstr 2 bufs) in
    let '(A', out) :=
      read_components (Z.to_nat Components) 0 lines bufs (A, []) in
    File_outcome (rd A' 0) A'
      (Selected_model F Model :: map (@Core F) out) true
  else
    File_outcome (of_int 0) A
      [Selected_model F Model; Components_unknown] false.

(** The [while (!feof(in_file))] loop (lines 373-431). *)
Fixpoint scan (A : list F) (ModelSelected Model : Z) (lines : list string)
    (bufs : list string) : file_outcome F :=
  match lines with
  | [] => File_outcome (rd A 0) A [] true
  | l :: rest =>
      if is_comment l then scan A ModelSelected Model rest bufs
      else
        let bufs := assign (sscanf_2 l) bufs in
        let Model :=
          if tmpstr 1 bufs =? "Model" then atoi (tmpstr 2 bufs)
          else Model in
        if (ModelSelected =? Model)%Z
        then read_model A Model rest bufs
        else scan A ModelSelected Model rest bufs
  end.

(** [buildSino3D_core] on a parameters file that could be opened;
    [bufs] is what the twelve uninitialised buffers hold as C strings. *)
Definition buildSino3D_core_file (A : list F) (ModelSelected : Z)
    (lines : list string) (bufs : list string) : file_outcome F :=
  scan A ModelSelected 0 lines bufs.
End Reader.
End ModelFile.

(** ** Facts about the reader *)

Module ModelFileFacts.
Import Strings.Ascii Strings.String.
Import ModelFile.
Local Open Scope string_scope.

(** An object line: all twelve conversions succeed and the first string
    is "Object". *)
Definition object_line (l : string) : Prop :=
  exists toks, sscanf_12 l = "Object" :: toks /\ List.length toks = 11.

(** The buffers after the lines [ls] have been scanned with the long
    format. *)
Definition bufs_after (ls : list string) (bufs : list string) : list string :=
  fold_left (fun b l => assign (sscanf_12 l) b) ls bufs.

(** The lines before the selected model: [Some (Model, bufs)] when the
    [while] loop passes over all of them. *)
Fixpoint passes_over (atoi : string -> Z) (ModelSelected Model : Z)
    (lines : list string) (bufs : list string) : option (Z * list string) :=
  match lines with
  | [] => Some (Model, bufs)
  | l :: rest =>
      if is_comment l then passes_over atoi ModelSelected Model rest bufs
      else
        let bufs := assign (sscanf_2 l) bufs in
        let Model :=
          if tmpstr 1 bufs =? "Model" then atoi (tmpstr 2 bufs)
          else Model in
        if (ModelSelected =? Model)%Z then None
        else passes_over atoi ModelSelected Model rest bufs
  end.

Lemma tmpstr_assign (k : nat) (new old : list string) :
  1 <= k <= List.length new -> tmpstr k (assign new old) = tmpstr k new.
Proof.
  intros Hk. unfold tmpstr, assign. apply app_nth1. lia.
Qed.

Section ReaderFacts.
Context {F : Type} `{FloatEnv F}.
Variable parameters_check3D : F -> F -> F -> F -> F -> F -> F -> Z.
Variable indeterminate : nat -> F * F.
Variable atoi : string -> Z.
Variable atof : string -> F.
Variables (N P : Z) (Th : list F) (AngTot CenTypeIn : Z).

Let parse (l : string) : component F := component_of atoi atof (sscanf_12 l).
Let loop := components_loop parameters_check3D indeterminate
              N P Th AngTot CenTypeIn.
Let readc := read_components parameters_check3D indeterminate atoi atof
               N P Th AngTot CenTypeIn.

Lemma component_of_assign (new old : list string) :
  List.length new = 12 ->
  component_of atoi atof (assign new old) = component_of atoi atof new.
Proof.
  intros HL. unfold component_of.
  rewrite !tmpstr_assign by lia. reflexivity.
Qed.

Lemma object_line_bufs (l : string) (bufs : list string) :
  object_line l ->
  tmpstr 1 (assign (sscanf_12 l) bufs) = "Object"
  /\ component_of atoi atof (assign (sscanf_12 l) bufs) = parse l.
Proof.
  intros (toks & E & HL). split.
  - rewrite tmpstr_assign by (rewrite E; simpl; lia).
    rewrite E. reflexivity.
  - apply component_of_assign. rewrite E. simpl. lia.
Qed.

Lemma read_components_objects (objs : list string) :
  Forall object_line objs ->
  forall (k ii : nat) (rest bufs : list string)
         (st : list F * list (event F)),
  readc (List.length objs + k) ii (objs ++ rest) bufs st
  = readc k (ii + List.length objs) rest (bufs_after objs bufs)
      (loop ii (map parse objs) st).
Proof.
  induction 1 as [|l objs Hl _ IH]; intros k ii rest bufs st.
  - simpl. rewrite Nat.add_0_r. reflexivity.
  - destruct (object_line_bufs bufs Hl) as (E1 & E2).
    cbn [List.length Nat.add app map bufs_after fold_left].
    unfold readc at 1. cbn [read_components].
    rewrite E1, E2. cbn [String.eqb Ascii.eqb Bool.eqb].
    fold readc. rewrite IH. unfold loop. cbn [components_loop].
    f_equal. lia.
Qed.

(** At the end of the file every remaining iteration finds the buffers
    of the last line read. *)
Lemma read_components_eof (k ii : nat) (bufs : list string)
    (st : list F * list (event F)) :
  tmpstr 1 bufs = "Object" ->
  readc k ii [] bufs st
  = loop ii (repeat (component_of atoi atof bufs) k) st.
Proof.
  intros E. revert ii st. induction k as [|k IH]; intros ii st.
  - reflexivity.
  - unfold readc. cbn [read_components]. rewrite E.
    cbn [String.eqb Ascii.eqb Bool.eqb]. fold readc. rewrite IH.
    reflexivity.
Qed.

Lemma scan_passes_over (A : list F) (ModelSelected : Z)
    (pre rest : list string) :
  forall (Model : Z) (bufs : list string) (Model' : Z) (bufs' : list string),
  passes_over atoi ModelSelected Model pre bufs = Some (Model', bufs') ->
  scan parameters_check3D indeterminate atoi atof N P Th AngTot CenTypeIn
    A ModelSelected Model (pre ++ rest) bufs
  = scan parameters_check3D indeterminate atoi atof N P Th AngTot CenTypeIn
      A ModelSelected Model' rest bufs'.
Proof.
  induction pre as [|l pre IH]; intros Model bufs Model' bufs' E.
  - simpl in E. injection E as <- <-. reflexivity.
  - cbn [app scan passes_over] in *.
    destruct (is_comment l); [apply IH; exact E|]. cbv zeta in *.
    destruct (ModelSelected =? _)%Z; [discriminate|]. apply IH. exact E.
Qed.

Lemma read_components_other (n ii : nat) (c t : string) (toks : list string)
    (rest bufs : list string) (st : list F * list (event F)) :
  sscanf_12 c = t :: toks -> t <> "Object" ->
  readc (S n) ii (c :: rest) bufs st
  = readc n (S ii) rest (assign (sscanf_12 c) bufs) st.
Proof.
  intros E Ht. unfold readc. cbn [read_components].
  rewrite tmpstr_assign by (rewrite E; simpl; lia).
  rewrite E. unfold tmpstr. cbn [Nat.sub nth].
  apply String.eqb_neq in Ht. rewrite Ht. reflexivity.
Qed.

Lemma read_model_components (A : list F) (Model : Z)
    (comps_line cn : string) (lines bufs : list string) :
  sscanf_2 comps_line = ["Components"; cn] ->
  read_model parameters_check3D indeterminate atoi atof N P Th AngTot
    CenTypeIn A Model (comps_line :: lines) bufs
  = let '(A', out) :=
      readc (Z.to_nat (atoi cn)) 0 lines
        (assign (sscanf_2 comps_line) bufs) (A, []) in
    File_outcome (rd A' 0) A' (Selected_model F Model :: map (@Core F) out)
      true.
Proof.
  intros E. unfold read_model.
  rewrite !tmpstr_assign by (rewrite E; simpl; lia).
  rewrite E. reflexivity.
Qed.

Lemma scan_model_line (A : list F) (ModelSelected Model : Z)
    (model_line m : string) (lines bufs : list string) :
  is_comment model_line = false ->
  sscanf_2 model_line = ["Model"; m] -> atoi m = ModelSelected ->
  scan parameters_check3D indeterminate atoi atof N P Th AngTot CenTypeIn
    A ModelSelected Model (model_line :: lines) bufs
  = read_model parameters_check3D indeterminate atoi atof N P Th AngTot
      CenTypeIn A ModelSelected lines (assign (sscanf_2 model_line) bufs).
Proof.
  intros Hc E Hm. cbn [scan]. rewrite Hc. cbv zeta.
  rewrite !tmpstr_assign by (rewrite E; simpl; lia).
  rewrite E. unfold tmpstr. cbn [Nat.sub nth String.eqb Ascii.eqb Bool.eqb].
  rewrite Hm, Z.eqb_refl. reflexivity.
Qed.

(** X13.  A well-formed file: lines the loop passes over, the line of the
    selected model, the line with the number of components and as many
    object lines.  The run is the component loop on the object lines, in
    file order, each parsed with [atoi] and [atof]; what follows the
    block is not read, and the file is closed. *)
Theorem well_formed_file_runs_the_model (A : list F) (ModelSelected : Z)
    (pre : list string) (model_line comps_line : string)
    (objs post : list string) (bufs0 : list string)
    (M1 : Z) (bufs1 : list string) (m cn : string) :
  passes_over atoi ModelSelected 0 pre bufs0 = Some (M1, bufs1) ->
  is_comment model_line = false ->
  sscanf_2 model_line = ["Model"; m] -> atoi m = ModelSelected ->
  sscanf_2 comps_line = ["Components"; cn] ->
  atoi cn = Z.of_nat (List.length objs) ->
  Forall object_line objs ->
  buildSino3D_core_file parameters_check3D indeterminate atoi atof
    N P Th AngTot CenTypeIn A ModelSelected
    (pre ++ model_line :: comps_line :: objs ++ post) bufs0
  = File_outcome
      (ret (buildSino3D_core parameters_check3D indeterminate A N P Th
              AngTot CenTypeIn (map parse objs)))
      (buf (buildSino3D_core parameters_check3D indeterminate A N P Th
              AngTot CenTypeIn (map parse objs)))
      (Selected_model F ModelSelected
       :: map (@Core F)
            (stdout (buildSino3D_core parameters_check3D indeterminate A N P
                       Th AngTot CenTypeIn (map parse objs))))
      true.
Proof.
  intros Hpre Hc Em Hm Ec Hn Hobjs. unfold buildSino3D_core_file.
  erewrite scan_passes_over by exact Hpre.
  erewrite scan_model_line by eassumption.
  erewrite read_model_components by exact Ec.
  rewrite Hn, Nat2Z.id.
  replace (List.length objs) with (List.length objs + 0)%nat at 1 by lia.
  rewrite read_components_objects by exact Hobjs.
  unfold readc. cbn [read_components]. unfold buildSino3D_core, loop.
  destruct (components_loop _ _ _ _ _ _ _ _ _ _) as [A' out].
  reflexivity.
Qed.

(** X14.  A file that ends inside the block of the selected model: [fgets]
    fails, the twelve buffers keep the strings of the last object line
    and the loop, which counts to [Components], processes that object
    again in each of the [k] iterations that are left. *)
Theorem truncated_file_repeats_the_last_object (A : list F)
    (ModelSelected : Z) (pre : list string) (model_line comps_line : string)
    (objs : list string) (last : string) (k : nat) (bufs0 : list string)
    (M1 : Z) (bufs1 : list string) (m cn : string) :
  passes_over atoi ModelSelected 0 pre bufs0 = Some (M1, bufs1) ->
  is_comment model_line = false ->
  sscanf_2 model_line = ["Model"; m] -> atoi m = ModelSelected ->
  sscanf_2 comps_line = ["Components"; cn] ->
  atoi cn = Z.of_nat (List.length (objs ++ [last]) + k) ->
  Forall object_line (objs ++ [last]) ->
  buildSino3D_core_file parameters_check3D indeterminate atoi atof
    N P Th AngTot CenTypeIn A ModelSelected
    (pre ++ model_line :: comps_line :: objs ++ [last]) bufs0
  = File_outcome
      (ret (buildSino3D_core parameters_check3D indeterminate A N P Th
              AngTot CenTypeIn
              (map parse (objs ++ [last]) ++ repeat (parse last) k)))
      (buf (buildSino3D_core parameters_check3D indeterminate A N P Th
              AngTot CenTypeIn
              (map parse (objs ++ [last]) ++ repeat (parse last) k)))
      (Selected_model F ModelSelected
       :: map (@Core F)
            (stdout (buildSino3D_core parameters_check3D indeterminate A N P
                       Th AngTot CenTypeIn
                       (map parse (objs ++ [last])
                        ++ repeat (parse last) k))))
      true.
Proof.
  intros Hpre Hc Em Hm Ec Hn Hobjs. unfold buildSino3D_core_file.
  erewrite scan_passes_over by exact Hpre.
  erewrite scan_model_line by eassumption.
  erewrite read_model_components by exact Ec.
  rewrite Hn, Nat2Z.id.
  rewrite <- (app_nil_r (objs ++ [last])) at 2.
  rewrite read_components_objects by exact Hobjs.
  assert (Hlast : object_line last).
  { rewrite Forall_app in Hobjs. destruct Hobjs as (_ & Hl).
    inversion Hl. assumption. }
  unfold bufs_after. rewrite fold_left_app. cbn [fold_left].
  destruct (object_line_bufs
              (fold_left (fun b l => assign (sscanf_12 l) b) objs
                 (assign (sscanf_2 comps_line) (assign (sscanf_2 model_line)
                                                  bufs1)))
              Hlast) as (E1 & E2).
  rewrite read_components_eof by exact E1. rewrite E2.
  unfold buildSino3D_core, loop.
  rewrite components_loop_app, length_map. cbn [Nat.add].
  destruct (components_loop _ _ _ _ _ _ _ _ (repeat _ _) _) as [A' out].
  reflexivity.
Qed.

(** X15.  A line inside the block that is not an object line, a comment for
    instance, uses up one iteration of the loop: with [Components] equal
    to the number of object lines, the last object line is not read. *)
Theorem comment_inside_a_block_drops_the_last_object (A : list F)
    (ModelSelected : Z) (pre : list string) (model_line comps_line : string)
    (objs1 : list string) (c : string) (objs2 : list string) (last : string)
    (post : list string) (bufs0 : list string)
    (M1 : Z) (bufs1 : list string) (m cn t : string) (toks : list string) :
  passes_over atoi ModelSelected 0 pre bufs0 = Some (M1, bufs1) ->
  is_comment model_line = false ->
  sscanf_2 model_line = ["Model"; m] -> atoi m = ModelSelected ->
  sscanf_2 comps_line = ["Components"; cn] ->
  atoi cn = Z.of_nat (List.length objs1 + List.length objs2 + 1) ->
  Forall object_line objs1 -> Forall object_line objs2 ->
  sscanf_12 c = t :: toks -> t <> "Object" ->
  buildSino3D_core_file parameters_check3D indeterminate atoi atof
    N P Th AngTot CenTypeIn A ModelSelected
    (pre ++ model_line :: comps_line :: objs1 ++ c :: objs2 ++ last :: post)
    bufs0
  = let '(A', out) :=
      loop (S (List.length objs1)) (map parse objs2)
        (loop 0 (map parse objs1) (A, [])) in
    File_outcome (rd A' 0) A'
      (Selected_model F ModelSelected :: map (@Core F) out) true.
Proof.
  intros Hpre Hc Em Hm Ec Hn H1 H2 Et Ht. unfold buildSino3D_core_file.
  erewrite scan_passes_over by exact Hpre.
  erewrite scan_model_line by eassumption.
  erewrite read_model_components by exact Ec.
  rewrite Hn, Nat2Z.id.
  replace (List.length objs1 + List.length objs2 + 1)%nat
    with (List.length objs1 + S (List.length objs2 + 0))%nat by lia.
  rewrite read_components_objects by exact H1.
  erewrite read_components_other by eassumption.
  rewrite read_components_objects by exact H2.
  unfold readc. cbn [read_components Nat.add].
  destruct (loop (S (List.length objs1)) _ _) as [A' out]. reflexivity.
Qed.

(** X16.  The file is closed on every path but one: the function returns
    without [fclose] exactly when it has printed "The number of
    components is unknown!"; it then returns 0 and has not touched the
    buffer. *)
Theorem file_is_left_open_when_components_are_unknown (A : list F)
    (ModelSelected : Z) (lines bufs : list string) :
  (f_closed (buildSino3D_core_file parameters_check3D indeterminate atoi
               atof N P Th AngTot CenTypeIn A ModelSelected lines bufs)
   = false
   <-> In Components_unknown
          (f_stdout (buildSino3D_core_file parameters_check3D indeterminate
                       atoi atof N P Th AngTot CenTypeIn A ModelSelected
                       lines bufs)))
  /\ (f_closed (buildSino3D_core_file parameters_check3D indeterminate atoi
                  atof N P Th AngTot CenTypeIn A ModelSelected lines bufs)
      = false ->
      f_buf (buildSino3D_core_file parameters_check3D indeterminate atoi
               atof N P Th AngTot CenTypeIn A ModelSelected lines bufs) = A
      /\ f_ret (buildSino3D_core_file parameters_check3D indeterminate atoi
                  atof N P Th AngTot CenTypeIn A ModelSelected lines bufs)
         = of_int 0).
Proof.
  unfold buildSino3D_core_file.
  enough (Hscan : forall (bufs : list string) (Model : Z),
    (f_closed (scan parameters_check3D indeterminate atoi atof N P Th AngTot
                 CenTypeIn A ModelSelected Model lines bufs) = false
     <-> In Components_unknown
            (f_stdout (scan parameters_check3D indeterminate atoi atof N P Th
                         AngTot CenTypeIn A ModelSelected Model lines bufs)))
    /\ (f_closed (scan parameters_check3D indeterminate atoi atof N P Th
                    AngTot CenTypeIn A ModelSelected Model lines bufs) = false ->
        f_buf (scan parameters_check3D indeterminate atoi atof N P Th AngTot
                 CenTypeIn A ModelSelected Model lines bufs) = A
        /\ f_ret (scan parameters_check3D indeterminate atoi atof N P Th
                    AngTot CenTypeIn A ModelSelected Model lines bufs)
           = of_int 0)) by apply Hscan.
  clear bufs.
  induction lines as [|l lines IH]; intros bufs Model.
  - cbn. split; [split; [discriminate | tauto] | discriminate].
  - cbn [scan]. destruct (is_comment l); [apply IH|]. cbv zeta.
    destruct (ModelSelected =? _)%Z; [|apply IH].
    unfold read_model.
    set (b := assign (sscanf_2 l) bufs). clearbody b. clear IH.
    destruct lines as [|l2 rest];
      match goal with
      | |- context [tmpstr 1 ?x =? "Components"] =>
          destruct (tmpstr 1 x =? "Components")
      end.
    all: try (cbn; split; [split; [tauto | reflexivity] | tauto]).
    all: destruct (read_components _ _ _ _ _ _ _ _ _ _ _ _ _ _) as [A' out];
      cbn; split; [split; [discriminate|] | discriminate];
      intros [E|Hin]; [discriminate|];
      apply in_map_iff in Hin; destruct Hin as (e & E & _); discriminate.
Qed.
End ReaderFacts.
End ModelFileFacts.

(** A reference [atoi] and [atof] for decimal numerals without exponent,
    and a small parameters file. *)
Module SampleFile.
Import Strings.Ascii Strings.String.
Import ModelFile ModelFileFacts.
Local Open Scope string_scope.

Definition digit (c : ascii) : option Z :=
  let n := nat_of_ascii c in
  if ((48 <=? n)%nat && (n <=? 57)%nat)%bool
  then Some (Z.of_nat (n - 48)) else None.

(** The digits at the head of [s] after [acc], and how many there are. *)
Fixpoint digits (s : string) (acc : Z) (n : nat) : Z * nat * string :=
  match s with
  | String c r =>
      match digit c with
      | Some d => digits r (10 * acc + d)%Z (S n)
      | None => (acc, n, s)
      end
  | EmptyString => (acc, n, s)
  end.

Definition signed (s : string) : bool * string :=
  match skip_ws s with
  | String "-" r => (true, r)
  | String "+" r => (false, r)
  | s' => (false, s')
  end.

Definition atoi (s : string) : Z :=
  let '(neg, r) := signed s in
  let '(v, _, _) := digits r 0 0 in
  if neg then (- v)%Z else v.

(** The value of [digits.digits] as a fraction. *)
Definition magnitude (s : string) : Q :=
  let '(v, _, r) := digits s 0 0 in
  match r with
  | String "." r' =>
      let '(w, n, _) := digits r' v 0 in
      Qmake w (Pos.pow 10 (Pos.of_nat n))
  | _ => Qmake v 1
  end.

(** [(float)atof(s)]: the numeral rounded to [double], then to [float]. *)
Definition atof (s : string) : spec_float :=
  let '(neg, r) := signed s in
  let x := B32.round_to B32.prec32 B32.emax32
             (B32.round_Q B32.prec64 B32.emax64 (magnitude r)) in
  if neg then SFopp x else x.

Definition nl : string := String (ascii_of_nat 10) EmptyString.

Definition comment : string := "# an example library" ++ nl.
Definition model_1 : string := "Model : 01;" ++ nl.
Definition model_2 : string := "Model : 02;" ++ nl.
Definition one_component : string := "Components : 01;" ++ nl.
Definition two_components : string := "Components : 02;" ++ nl.
Definition three_components : string := "Components : 03;" ++ nl.
(** The two disks of [SampleSlabs]. *)
Definition diskA : string :=
  "Object : 3 1.0 -0.5 -0.5 -1.0 0.5 0.5 0.5 0.0 0.0 0.0;" ++ nl.
Definition diskB : string :=
  "Object : 3 2.0 -0.5 -0.5 0.0 0.5 0.5 0.5 0.0 0.0 0.0;" ++ nl.

(** What the twelve buffers hold before the first [sscanf]. *)
Definition stack : list string := repeat "?" 12.

Definition parse (l : string) : component spec_float :=
  component_of atoi atof (sscanf_12 l).

(** [ModelSelected = 1], [N = 2], [P = 3], one angle of 0 degrees,
    "astra" centring, a zeroed buffer. *)
Definition run (lines : list string) : file_outcome spec_float :=
  buildSino3D_core_file (H := b32) Sample.parameters_check3D
    Sample.stack_ones atoi atof 2 3 [Sample.fl 0] 1 1 (Sample.zeros 6) 1
    lines stack.

Definition model_run (cms : list (component spec_float))
    : file_outcome spec_float :=
  File_outcome (ret (SampleModels.run cms)) (buf (SampleModels.run cms))
    (Selected_model spec_float 1
     :: map (@Core spec_float) (stdout (SampleModels.run cms)))
    true.

Lemma object_line_diskA : object_line diskA.
Proof. eexists. split; vm_compute; reflexivity. Qed.
Lemma object_line_diskB : object_line diskB.
Proof. eexists. split; vm_compute; reflexivity. Qed.
End SampleFile.

(** The block of model 1 after a comment and the block of model 2. *)
Lemma well_formed_file_runs_the_model_witness :
  SampleFile.run
    ([SampleFile.comment; SampleFile.model_2; SampleFile.one_component;
      SampleFile.diskB]
     ++ SampleFile.model_1 :: SampleFile.two_components
        :: [SampleFile.diskA; SampleFile.diskB] ++ [SampleFile.comment])
  = SampleFile.model_run
      (map SampleFile.parse [SampleFile.diskA; SampleFile.diskB]).
Proof.
  unfold SampleFile.run, SampleFile.model_run, SampleModels.run.
  eapply (@ModelFileFacts.well_formed_file_runs_the_model _ b32).
  - vm_compute. reflexivity.
  - reflexivity.
  - vm_compute. reflexivity.
  - vm_compute. reflexivity.
  - vm_compute. reflexivity.
  - vm_compute. reflexivity.
  - repeat constructor;
      [apply SampleFile.object_line_diskA | apply SampleFile.object_line_diskB].
Defined.

(** "Components : 03" followed by two object lines and the end of the
    file: the second disk is added twice. *)
Lemma truncated_file_repeats_the_last_object_witness :
  SampleFile.run
    ([SampleFile.comment]
     ++ SampleFile.model_1 :: SampleFile.three_components
        :: [SampleFile.diskA] ++ [SampleFile.diskB])
  = SampleFile.model_run
      (map SampleFile.parse ([SampleFile.diskA] ++ [SampleFile.diskB])
       ++ repeat (SampleFile.parse SampleFile.diskB) 1).
Proof.
  unfold SampleFile.run, SampleFile.model_run, SampleModels.run.
  eapply (@ModelFileFacts.truncated_file_repeats_the_last_object _ b32).
  - vm_compute. reflexivity.
  - reflexivity.
  - vm_compute. reflexivity.
  - vm_compute. reflexivity.
  - vm_compute. reflexivity.
  - vm_compute. reflexivity.
  - repeat constructor;
      [apply SampleFile.object_line_diskA | apply SampleFile.object_line_diskB].
Defined.

(** A comment between the two object lines of a block that announces two
    components: only the first disk is added. *)
Lemma comment_inside_a_block_drops_the_last_object_witness :
  SampleFile.run
    ([SampleFile.comment]
     ++ SampleFile.model_1 :: SampleFile.two_components
        :: [SampleFile.diskA] ++ SampleFile.comment
           :: [] ++ SampleFile.diskB :: [SampleFile.model_2])
  = SampleFile.model_run [SampleFile.parse SampleFile.diskA].
Proof.
  unfold SampleFile.run, SampleFile.model_run, SampleModels.run.
  etransitivity.
  - eapply (@ModelFileFacts.comment_inside_a_block_drops_the_last_object
              _ b32).
    + vm_compute. reflexivity.
    + reflexivity.
    + vm_compute. reflexivity.
    + vm_compute. reflexivity.
    + vm_compute. reflexivity.
    + vm_compute. reflexivity.
    + repeat constructor. apply SampleFile.object_line_diskA.
    + constructor.
    + vm_compute. reflexivity.
    + vm_compute. discriminate.
  - vm_compute. reflexivity.
Defined.

(* ================================================================== *)
(** * The MATLAB wrapper of buildSino2D_core: its arguments             *)
(* ================================================================== *)

(** The second [mexFunction] of DeformObject_C.c (lines 180-217) up to
    the call of [buildSino2D_core].  [prhs] has [nrhs] entries;
    [angles_single] tells whether [prhs[3]] is of class single and
    [CenType] is the string of [prhs[5]]. *)
Module Sino2DWrapper.
Import Strings.String.
Local Open Scope string_scope.

Inductive wrapper_outcome : Type :=
| Error_parameters      (* "Input of 5 or 6 parameters is required: ..." *)
| Error_single          (* "The vector of angles must be in a single precision" *)
| Error_centring        (* "Choose 'radon' or 'astra''" *)
| Read_past_prhs (k : Z)           (* prhs[k] with k >= nrhs *)
| Calls_core (CenTypeIn : Z).      (* buildSino2D_core(..., CenTypeIn, ...) *)

Definition mexFunction (nrhs : Z) (angles_single : bool) (CenType : string)
    : wrapper_outcome :=
  if ((nrhs <? 5) && (nrhs >? 6))%Z%bool then Error_parameters
  else if (nrhs <=? 3)%Z then Read_past_prhs 3
  else if negb angles_single then Error_single
  else if (nrhs <=? 4)%Z then Read_past_prhs 4
  else
    let CenTypeIn := 1%Z in
    if (nrhs =? 6)%Z then
      if (negb (CenType =? "radon") && negb (CenType =? "astra"))%bool
      then Error_centring
      else Calls_core (if CenType =? "radon" then 0%Z else CenTypeIn)
    else Calls_core CenTypeIn.

(** X17.  The test [(nrhs < 5) && (nrhs > 6)] can never hold, so a wrong number
    of arguments is never reported: with fewer than five the function
    goes on to read [prhs[3]] or [prhs[4]] past the arguments it was
    given (unless the class test stops it first), and with more than six
    it calls the core with the default "astra" centring, ignoring the
    sixth argument. *)
Theorem argument_count_is_never_rejected (nrhs : Z) (angles_single : bool)
    (CenType : string) :
  mexFunction nrhs angles_single CenType <> Error_parameters
  /\ ((nrhs <= 3)%Z ->
      mexFunction nrhs angles_single CenType = Read_past_prhs 3)
  /\ (nrhs = 4%Z -> angles_single = true ->
      mexFunction nrhs angles_single CenType = Read_past_prhs 4)
  /\ ((7 <= nrhs)%Z -> angles_single = true ->
      mexFunction nrhs angles_single CenType = Calls_core 1).
Proof.
  unfold mexFunction.
  destruct (Z.ltb_spec nrhs 5), (Z.gtb_spec nrhs 6); try lia;
    cbn [andb];
    destruct (Z.leb_spec nrhs 3), (Z.leb_spec nrhs 4), (Z.eqb_spec nrhs 6);
    try lia; destruct angles_single; cbn [negb];
    repeat split; intros; try lia; try discriminate; try reflexivity;
    destruct (CenType =? "radon"), (CenType =? "astra"); cbn;
    discriminate.
Qed.

End Sino2DWrapper.
